(** * Power-meter logging: session supervisor and reading pipeline

    A shallow embedding of the parts of the repository that decide how a
    station's telemetry becomes database rows:

    - [DatabaseService.transformPowerData] and
      [DatabaseService.validatePowerData] (the database service,
      src/unnamed/part_001),
    - [StationMonitor] (the station monitor, src/unnamed/part_007):
      [updateData], [saveToDatabase],
      [waitForMessage], [initializeSession], [handleReconnect],
    - [ChiangMaiClient] (chaigmai.js): [loadMonitoredObjects],
      [handleWSMessageALL], [saveToDatabase], [setUpSession],
    - [ApiDataFetcher] (the HTTP fetcher, src/unnamed/part_002):
      [isApiStation],
      [processApiData], [fetchAndProcess].

    JavaScript objects are finite maps from property names to values.
    Numbers are the rationals that doubles hold, NaN and the infinities
    kept apart: a number of a parsed message is taken as the double that
    [JSON.parse] made of it, and what [parseFloat] and [parseInt] read from
    text is rounded to the nearest double. A string is the sequence of its
    characters, each with a code below 256; text beyond Latin-1 is outside
    the model. [Date]s are integer milliseconds, and every source of
    nondeterminism (the socket, the clock, the database, [Math.random]) is
    an explicit input. *)

From Stdlib Require Import Ascii String QArith Qcanon DecimalString DecimalN ZArith Lia.
From stdpp Require Import base option list gmap strings numbers.

Open Scope string_scope.

(** ** JavaScript values *)

Module Js.

(** JSON values, as [JSON.parse] produces them. *)
#[warnings="-register-all"]
Inductive json : Type :=
  | JNull
  | JBool (b : bool)
  | JNum (q : Qc)
  | JStr (s : string)
  | JArr (l : list json)
  | JObj (o : gmap string json).

(** A JavaScript number: a finite value, an infinity, or NaN. *)
Inductive number : Type :=
  | Finite (q : Qc)
  | Infinity (negative : bool)
  | NaN.

Inductive jsError : Type :=
  | TypeError (msg : string)
  | Error (msg : string).

(** Completion of a call: a value or a thrown exception. *)
Inductive outcome (A : Type) : Type :=
  | Return (a : A)
  | Throw (e : jsError).
Arguments Return {A} a.
Arguments Throw {A} e.

Definition bind {A B} (c : outcome A) (k : A -> outcome B) : outcome B :=
  match c with
  | Return a => k a
  | Throw e => Throw e
  end.

(** The call returns. *)
Definition completes {A} (c : outcome A) : bool :=
  match c with
  | Return _ => true
  | Throw _ => false
  end.

(** What a function receives where it expects an object: the source tests
    [!x || typeof x !== "object"] before touching the properties. *)
Inductive jsarg : Type :=
  | NotObject
  | Object (o : gmap string json).

Definition isNaN (x : number) : bool :=
  match x with NaN => true | _ => false end.

(** [typeof v === "object"]: null, arrays and objects. *)
Definition typeofObject (v : json) : bool :=
  match v with
  | JNull | JArr _ | JObj _ => true
  | _ => false
  end.

(** Truthiness of a JSON value. *)
Definition truthy (v : json) : bool :=
  match v with
  | JNull => false
  | JBool b => b
  | JNum q => negb (bool_decide (q = 0%Qc))
  | JStr s => negb (bool_decide (s = ""))
  | JArr _ | JObj _ => true
  end.

(** [old !== new] where [new] comes from the message being handled and
    [old] was stored from an earlier message ([None] is [undefined]).
    Primitives compare by value; an array or object of the new message is a
    fresh reference, identical to nothing stored before. *)
Definition strictNe (old : option json) (new : json) : bool :=
  match old, new with
  | Some JNull, JNull => false
  | Some (JBool a), JBool b => negb (bool_decide (a = b))
  | Some (JNum a), JNum b => negb (bool_decide (a = b))
  | Some (JStr a), JStr b => negb (bool_decide (a = b))
  | _, _ => true
  end.

(** [o.hasOwnProperty(k)]: the method is looked up on the object first, so
    an own property of that name (never a function in parsed JSON) makes the
    call a TypeError. *)
Definition hasOwnProperty (o : gmap string json) (k : string) : outcome bool :=
  match o !! "hasOwnProperty" with
  | Some _ => Throw (TypeError "hasOwnProperty is not a function")
  | None => Return (bool_decide (is_Some (o !! k)))
  end.

(** [n.toString()] for an object id: its decimal digits, which is what a
    number below 10^21 prints as. *)
Definition toString (n : N) : string :=
  NilEmpty.string_of_uint (N.to_uint n).

(** The names under which every object inherits a member of
    [Object.prototype]. Read from an object that has no own property of
    that name, they yield a function (["__proto__"] yields the prototype
    itself): a truthy value that is no string. *)
Definition objectPrototype : list string :=
  [ "constructor"; "__defineGetter__"; "__defineSetter__"; "hasOwnProperty";
    "__lookupGetter__"; "__lookupSetter__"; "isPrototypeOf";
    "propertyIsEnumerable"; "toString"; "valueOf"; "__proto__";
    "toLocaleString" ].

(** What [labels[k]] yields for an object [labels] whose own properties are
    texts. *)
Inductive label : Type :=
  | Text (s : string)
  | Inherited.

Definition getLabel (own : gmap string label) (k : string) : option label :=
  match own !! k with
  | Some l => Some l
  | None => if bool_decide (k ∈ objectPrototype) then Some Inherited else None
  end.

(** [labels[k] || fallback]: the empty text is falsy. *)
Definition labelOr (own : gmap string label) (k : string) (fallback : string)
    : label :=
  match getLabel own k with
  | Some (Text "") | None => Text fallback
  | Some l => l
  end.

(** [label.padEnd(30)]: only a string has the method. *)
Definition padEnd (l : label) : outcome unit :=
  match l with
  | Text _ => Return tt
  | Inherited => Throw (TypeError "label.padEnd is not a function")
  end.

(** [String(v)] throws for [v]. The conversion of an object calls its
    [toString]; an object that owns a property of that name (never a
    function in parsed JSON) has none to call, and [valueOf], tried next,
    is no function either or returns the object itself. An array prints
    its elements, so it throws when one of them does. *)
Fixpoint unprintable (v : json) : bool :=
  match v with
  | JObj o => bool_decide (is_Some (o !! "toString"))
  | JArr l => existsb unprintable l
  | _ => false
  end.

(** *** Doubles *)

(** [n / d] rounded to the nearest integer, a tie to the even one; [d] is
    positive. *)
Definition roundHalfEven (n d : Z) : Z :=
  let q := (n / d)%Z in
  let r := (n mod d)%Z in
  if (2 * r <? d)%Z then q
  else if (d <? 2 * r)%Z then (q + 1)%Z
  else if Z.even q then q else (q + 1)%Z.

(** The binary exponent of the positive rational [n / d]: the [e] with
    [2^e <= n / d < 2^(e+1)]. *)
Definition exponentOf (n d : Z) : Z :=
  let e := (Z.log2 n - Z.log2 d)%Z in
  if (if (0 <=? e)%Z then (d * 2 ^ e <=? n)%Z else (d <=? n * 2 ^ (- e))%Z)
  then e else (e - 1)%Z.

(** The double nearest to a rational, a tie to the even mantissa: 53 bits
    of mantissa, binary exponents from -1022, below which the spacing stays
    that of the subnormal numbers, to 1023, above which the result is an
    infinity. The sign of a zero is not kept. *)
Definition toDouble (x : Q) : number :=
  let n := Z.abs (Qnum x) in
  let d := Zpos (Qden x) in
  if (n =? 0)%Z then Finite (Q2Qc 0)
  else
    let ulp := (Z.max (exponentOf n d) (-1022) - 52)%Z in
    let m := if (0 <=? ulp)%Z then roundHalfEven n (d * 2 ^ ulp)
             else roundHalfEven (n * 2 ^ (- ulp)) d in
    if (971 <? ulp)%Z || ((ulp =? 971)%Z && (m =? 2 ^ 53)%Z)
    then Infinity (Qnum x <? 0)%Z
    else
      let m := if (Qnum x <? 0)%Z then (- m)%Z else m in
      Finite (Q2Qc (if (0 <=? ulp)%Z then inject_Z (m * 2 ^ ulp)
                    else Qmake m (Z.to_pos (2 ^ (- ulp))))).

(** *** parseFloat and parseInt *)

(** The white space [parseFloat], [parseInt] and [trim] skip, as far as it
    lies below 256: tab, line feed, vertical tab, form feed, carriage
    return, space and the no-break space. *)
Definition isWhiteSpace (c : ascii) : bool :=
  bool_decide (c ∈ [" "; "009"; "010"; "011"; "012"; "013"; "160"]%char).

Fixpoint trimStart (s : string) : string :=
  match s with
  | String c r => if isWhiteSpace c then trimStart r else s
  | EmptyString => s
  end.

Definition digitValue (c : ascii) : option Z :=
  let n := N_of_ascii c in
  if ((48 <=? n) && (n <=? 57))%N then Some (Z.of_N (n - 48)) else None.

Definition hexValue (c : ascii) : option Z :=
  let n := N_of_ascii c in
  if ((48 <=? n) && (n <=? 57))%N then Some (Z.of_N (n - 48))
  else if ((97 <=? n) && (n <=? 102))%N then Some (Z.of_N (n - 87))
  else if ((65 <=? n) && (n <=? 70))%N then Some (Z.of_N (n - 55))
  else None.

(** Reads the longest run of digits of [s]: its value in base [radix]
    continued from [acc], the number of digits read, and the rest. *)
Fixpoint readDigits (value : ascii -> option Z) (radix : Z)
    (s : string) (acc : Z) (count : nat) : Z * nat * string :=
  match s with
  | String c r =>
      match value c with
      | Some d => readDigits value radix r (radix * acc + d)%Z (S count)
      | None => (acc, count, s)
      end
  | EmptyString => (acc, count, s)
  end.

Definition readSign (s : string) : bool * string :=
  match s with
  | String "-" r => (true, r)
  | String "+" r => (false, r)
  | _ => (false, s)
  end.

Definition scale (negative : bool) (mantissa exponent : Z) : Q :=
  let m := if negative then (- mantissa)%Z else mantissa in
  (inject_Z m * Qpower (inject_Z 10) exponent)%Q.

(** [parseFloat] of a string: leading white space, then the longest prefix
    that is a decimal literal, as the double nearest to it. *)
Definition parseFloatString (s : string) : number :=
  let '(negative, s) := readSign (trimStart s) in
  if String.prefix "Infinity" s then Infinity negative
  else
    let '(int, nint, s) := readDigits digitValue 10 s 0%Z 0 in
    let '(mant, nfrac, s) :=
      match s with
      | String "." r => readDigits digitValue 10 r int 0
      | _ => (int, 0, s)
      end in
    if Nat.eqb (nint + nfrac) 0 then NaN
    else
      let exponent :=
        match s with
        | String c r =>
            if bool_decide (c = "e"%char \/ c = "E"%char) then
              let '(eneg, r) := readSign r in
              let '(e, ne, _) := readDigits digitValue 10 r 0%Z 0 in
              if Nat.eqb ne 0 then 0%Z else if eneg then (- e)%Z else e
            else 0%Z
        | EmptyString => 0%Z
        end in
      toDouble (scale negative mant (exponent - Z.of_nat nfrac)).

(** What [parseFloat] reads from the text of a value that prints. A number
    prints and reads back as itself; null, booleans and plain objects print
    as text that is no number; an array prints as its elements joined by
    commas, so only its first element can contribute. *)
Fixpoint readNumber (v : json) : number :=
  match v with
  | JNum q => Finite q
  | JStr s => parseFloatString s
  | JNull | JBool _ | JObj _ => NaN
  | JArr [] => NaN
  | JArr (x :: _) =>
      match x with
      | JNull => NaN
      | _ => readNumber x
      end
  end.

(** [parseFloat(v)]: the argument is converted to a string first, which
    throws for some objects and arrays. *)
Definition parseFloat (v : json) : outcome number :=
  if unprintable v
  then Throw (TypeError "Cannot convert object to primitive value")
  else Return (readNumber v).

(** [parseInt(s)] without a radix: white space, a sign, an optional
    hexadecimal prefix, then digits, as the double nearest to their
    value. *)
Definition parseInt (s : string) : number :=
  let '(negative, s) := readSign (trimStart s) in
  let '(n, count, _) :=
    match s with
    | String "0" (String c r) =>
        if bool_decide (c = "x"%char \/ c = "X"%char)
        then readDigits hexValue 16 r 0%Z 0
        else readDigits digitValue 10 s 0%Z 0
    | _ => readDigits digitValue 10 s 0%Z 0
    end in
  if Nat.eqb count 0 then NaN
  else toDouble (inject_Z (if negative then (- n)%Z else n)).

Definition numberLt (x y : number) : bool :=
  match x, y with
  | NaN, _ | _, NaN => false
  | Finite a, Finite b => bool_decide (a < b)%Qc
  | Infinity true, Infinity true => false
  | Infinity true, _ => true
  | _, Infinity true => false
  | Infinity false, _ => false
  | Finite _, Infinity false => true
  end.

(** [x <= y] *)
Definition numberLe (x y : number) : bool :=
  match x, y with
  | NaN, _ | _, NaN => false
  | Finite a, Finite b => bool_decide (a <= b)%Qc
  | Infinity true, _ => true
  | _, Infinity false => true
  | _, _ => false
  end.

(** The comparison of [Array.prototype.includes], which takes NaN as equal
    to itself. *)
Definition numberEq (x y : number) : bool :=
  match x, y with
  | Finite a, Finite b => bool_decide (a = b)
  | Infinity a, Infinity b => bool_decide (a = b)
  | NaN, NaN => true
  | _, _ => false
  end.

Definition ofZ (z : Z) : number := Finite (Q2Qc (inject_Z z)).

(** An id is a safe integer: the doubles hold it and its neighbours
    exactly. *)
Definition isSafeInteger (n : N) : Prop := (n < 2 ^ 53)%N.

End Js.

Import Js.

#[global] Instance outcome_ret : MRet outcome := @Return.
#[global] Instance outcome_bind : MBind outcome :=
  fun A B k c => Js.bind c k.

(** [l.forEach(f)]: the first call that throws ends the loop. *)
Fixpoint forEach {A} (f : A -> outcome unit) (l : list A) : outcome unit :=
  match l with
  | [] => mret tt
  | a :: l => _ ← f a; forEach f l
  end.

(** A [forEach] whose calls push what they return onto one list. *)
Fixpoint collect {A B} (f : A -> outcome (list B)) (l : list A)
    : outcome (list B) :=
  match l with
  | [] => mret []
  | a :: l => pushed ← f a; rest ← collect f l; mret (pushed ++ rest)%list
  end.

(** ** DatabaseService (src/unnamed/part_001) *)

Module DatabaseService.

(** A column value of a reading: [null] or a number. *)
Inductive dbvalue : Type :=
  | Null
  | Num (x : number).

(** [const value = parseFloat(powerData[id]); isNaN(value) ? null : value].
    [None] is [undefined], which is no number. *)
Definition toColumn (v : option json) : outcome dbvalue :=
  value ← from_option parseFloat (Return NaN) v;
  mret (if isNaN value then Null else Num value).

(** The two literal tables of [transformPowerData], as [Object.entries]
    lists them: integer-like keys in ascending numeric order, whatever the
    order of the literal. *)
Definition activePowerMap : list (string * string) :=
  [ ("8684", "activePower1"); ("8685", "activePower2");
    ("8686", "activePower3"); ("8687", "activePower4");
    ("8688", "activePower5"); ("8689", "activePower6") ].

Definition muxPowerMap : list (string * string) :=
  [ ("18053", "muxPower6"); ("18069", "muxPower1"); ("18070", "muxPower2");
    ("73909", "muxPower3"); ("73910", "muxPower4"); ("75428", "muxPower5");
    ("75429", "muxPower6"); ("75432", "muxPower5"); ("75441", "muxPower5");
    ("75483", "muxPower5"); ("75484", "muxPower6"); ("75519", "muxPower6");
    ("224272", "muxPower5") ].

Definition directFields : list string :=
  [ "activePower1"; "activePower2"; "activePower3"; "activePower4";
    "activePower5"; "activePower6"; "muxPower1"; "muxPower2"; "muxPower3";
    "muxPower4"; "muxPower5"; "muxPower6" ].

(** One [forEach] over a list of (property of the input, column) pairs:
    [if (powerData.hasOwnProperty(id)) dbData[field] = ...]. *)
Fixpoint transformEntries (powerData : gmap string json)
    (entries : list (string * string)) (dbData : gmap string dbvalue)
    : outcome (gmap string dbvalue) :=
  match entries with
  | [] => Return dbData
  | (id, field) :: rest =>
      has ← hasOwnProperty powerData id;
      if has : bool then
        column ← toColumn (powerData !! id);
        transformEntries powerData rest (<[field := column]> dbData)
      else transformEntries powerData rest dbData
  end.

Definition transformPowerData (powerData : jsarg)
    : outcome (gmap string dbvalue) :=
  match powerData with
  | NotObject => Return ∅
  | Object powerData =>
      dbData ← transformEntries powerData activePowerMap ∅;
      dbData ← transformEntries powerData muxPowerMap dbData;
      transformEntries powerData (map (fun f => (f, f)) directFields) dbData
  end.

(** Warnings of [validatePowerData], kept as data instead of text. *)
Inductive warning : Type :=
  | InvalidNumeric (id : string) (value : json)
  | ActivePowerOutOfRange (id : string) (numValue : number)
  | MuxPowerOutOfRange (id : string) (numValue : number).

Record validation : Type := {
  isValid : bool;
  errors : list string;
  warnings : list warning
}.

Definition muxRangeIds : list Z := [18069; 18070; 73909; 73910; 75428; 75429]%Z.

(** The body of the [forEach] of [validatePowerData] for one entry: the
    warnings it pushes. [random id] is the value [Math.random()] returns if
    it is called while this entry is visited. *)
Definition validateEntry (random : string -> Qc) (id : string) (value : json)
    : outcome (list warning) :=
  if typeofObject value then mret []
  else
    numValue ← parseFloat value;
    mret
      (if isNaN numValue then
         if bool_decide (random id < Q2Qc (1 # 10))%Qc
         then [InvalidNumeric id value] else []
       else
         let idNum := parseInt id in
         if numberLe (ofZ 8684) idNum && numberLe idNum (ofZ 8689) then
           if numberLt numValue (ofZ 0) || numberLt (ofZ 100000) numValue
           then [ActivePowerOutOfRange id numValue] else []
         else if existsb (fun n => numberEq (ofZ n) idNum) muxRangeIds then
           if numberLt numValue (ofZ 0) || numberLt (ofZ 1000000000) numValue
           then [MuxPowerOutOfRange id numValue] else []
         else []).

(** [validatePowerData]. The entries are visited in the order of
    [map_to_list], not in that of [Object.entries]: only which warnings are
    present is modelled, not their order. *)
Definition validatePowerData (random : string -> Qc) (powerData : jsarg)
    : outcome validation :=
  match powerData with
  | NotObject =>
      mret {| isValid := false; errors := ["Power data must be an object"];
              warnings := [] |}
  | Object powerData =>
      warnings ←
        collect (fun entry => validateEntry random entry.1 entry.2)
                (map_to_list powerData);
      mret {| isValid := true; errors := []; warnings := warnings |}
  end.

(** A row handed to [prisma.powerReading.create]. *)
Record reading : Type := {
  timestamp : Z;
  columns : gmap string dbvalue
}.

(** [createPowerReading] for a station record that exists: the row it
    hands to the store, or the exception raised before that. [None] is a
    missing timestamp. Whether the store accepts the row is decided by the
    caller's environment. *)
Definition createPowerReading (timestamp : option Z)
    (powerData : gmap string json) : outcome reading :=
  match timestamp with
  | None => Throw (Error "Missing required fields: stationId, timestamp")
  | Some readingTimestamp =>
      dbData ← transformPowerData (Object powerData);
      mret {| timestamp := readingTimestamp; columns := dbData |}
  end.

End DatabaseService.

(** ** The telemetry pipeline of a socket station *)

(** One notification as the pipeline sees it: the clock when the handler
    starts, the [sync] object of the message, the clock when
    [saveToDatabase] reads it, whether the store accepts a row written now,
    and the values [Math.random] would return. The call to the store is
    taken to settle before the next notification is handled, so that
    [lastDbSave], which the source assigns after the [await], is assigned
    within the step of the frame that caused the write. *)
Record frame : Type := {
  now : Z;
  syncData : gmap string json;
  saveNow : Z;
  storeAccepts : bool;
  random : string -> Qc
}.

(** The loop shared by [StationMonitor.updateData] and the handler of
    [ChiangMaiClient.handleWSMessageALL]:
    [monitoredObjects.forEach(id => { if (syncData.hasOwnProperty(id.toString()))
       { if (buffer[id] !== newValue) { buffer[id] = newValue; changed = true } } })].
    It returns the buffer and the flag. *)
Fixpoint updateValues (syncData : gmap string json) (monitoredObjects : list N)
    (buffer : gmap string json) (changed : bool)
    : outcome (gmap string json * bool) :=
  match monitoredObjects with
  | [] => Return (buffer, changed)
  | id :: rest =>
      has ← hasOwnProperty syncData (toString id);
      match syncData !! toString id with
      | Some newValue =>
          if (has : bool) && strictNe (buffer !! toString id) newValue
          then updateValues syncData rest (<[toString id := newValue]> buffer) true
          else updateValues syncData rest buffer changed
      | None => updateValues syncData rest buffer changed
      end
  end.

(** The station monitor (src/unnamed/part_007) *)
Module StationMonitor.

(** [config.monitoredObjects] of the station monitor. *)
Definition defaultMonitoredObjects : list N :=
  [8684; 8685; 8686; 8687; 8688; 8689; 18069; 18070; 73909; 73910]%N.

(** The fields of a [StationMonitor] the pipeline reads and writes, and
    what it has done so far: the rows the store accepted and the warnings
    printed. [monitoredObjects] is [config.monitoredObjects], or the
    station's own list where the monitor loads one. *)
Record t : Type := {
  monitoredObjects : list N;
  dataBuffer : gmap string json;
  lastUpdate : option Z;
  database : bool;  (* this.databaseService && this.stationRecord *)
  lastDbSave : option Z;
  dbSaveInterval : Z;
  written : list DatabaseService.reading;
  warned : list DatabaseService.warning
}.

Definition new (monitoredObjects : list N) (database : bool) : t :=
  {| monitoredObjects := monitoredObjects; dataBuffer := ∅;
     lastUpdate := None; database := database; lastDbSave := None;
     dbSaveInterval := 10000; written := []; warned := [] |}.

(** The literal [labels] of [displayData]. *)
Definition labels : gmap string string :=
  list_to_map
    [ ("8684", "Active Power 1"); ("8685", "Active Power 2");
      ("8686", "Active Power 3"); ("8687", "Active Power 4");
      ("8688", "Active Power 5"); ("8689", "Active Power 6");
      ("18069", "MUX#1 TV5 Power Meter"); ("18070", "MUX#2 MCOT Power Meter");
      ("73909", "MUX#3 PRD Power Meter"); ("73910", "MUX#4 TPBS Power Meter") ].

(** The body of the [forEach] of [displayData] for one entry of the
    buffer, as far as it can throw: [parseFloat(value)], then
    [label.padEnd(30)]. *)
Definition displayEntry (id : string) (value : json) : outcome unit :=
  let label := labelOr (Text <$> labels) id (String.append "ID " id) in
  _ ← parseFloat value;
  padEnd label.

(** [displayData]: what it prints is not modelled, only whether it
    completes. The entries are visited in the order of [map_to_list]; which
    of several exceptions is thrown is of no account, since the handler
    drops it. *)
Definition displayData (m : t) : outcome unit :=
  forEach (fun entry => displayEntry entry.1 entry.2)
          (map_to_list (dataBuffer m)).

(** [this.lastDbSave && (now - this.lastDbSave) < this.dbSaveInterval] *)
Definition throttled (m : t) (now : Z) : bool :=
  match lastDbSave m with
  | Some last => (now - last <? dbSaveInterval m)%Z
  | None => false
  end.

(** [saveToDatabase]: everything after the throttle test is inside a [try]
    whose [catch] logs. Without a station record [this.stationRecord.id]
    throws there. *)
Definition saveToDatabase (f : frame) (m : t) : t :=
  if throttled m (saveNow f) then m
  else if negb (database m) then m
  else
    match
      DatabaseService.validatePowerData (random f) (Object (dataBuffer m))
    with
    | Throw _ => m
    | Return validation =>
        if negb (DatabaseService.isValid validation) then m
        else
          let m :=
            {| monitoredObjects := monitoredObjects m;
               dataBuffer := dataBuffer m;
               lastUpdate := lastUpdate m; database := database m;
               lastDbSave := lastDbSave m; dbSaveInterval := dbSaveInterval m;
               written := written m;
               warned := warned m ++ DatabaseService.warnings validation |} in
          match
            DatabaseService.createPowerReading (lastUpdate m) (dataBuffer m)
          with
          | Return row =>
              if storeAccepts f then
                {| monitoredObjects := monitoredObjects m;
                   dataBuffer := dataBuffer m; lastUpdate := lastUpdate m;
                   database := database m; lastDbSave := Some (saveNow f);
                   dbSaveInterval := dbSaveInterval m;
                   written := written m ++ [row]; warned := warned m |}
              else m
          | Throw _ => m
          end
    end.

(** [updateData]: the monitor it leaves, and how it completes. What was
    assigned before an exception stays assigned. *)
Definition updateData (f : frame) (m : t) : t * outcome unit :=
  let m :=
    {| monitoredObjects := monitoredObjects m; dataBuffer := dataBuffer m;
       lastUpdate := Some (now f); database := database m;
       lastDbSave := lastDbSave m; dbSaveInterval := dbSaveInterval m;
       written := written m; warned := warned m |} in
  match
    updateValues (syncData f) (monitoredObjects m) (dataBuffer m) false
  with
  | Throw e => (m, Throw e)
  | Return (buffer, hasChanges) =>
      let m :=
        {| monitoredObjects := monitoredObjects m; dataBuffer := buffer;
           lastUpdate := lastUpdate m; database := database m;
           lastDbSave := lastDbSave m; dbSaveInterval := dbSaveInterval m;
           written := written m; warned := warned m |} in
      if hasChanges : bool then
        match displayData m with
        | Throw e => (m, Throw e)
        | Return _ =>
            (if database m then saveToDatabase f m else m, Return tt)
        end
      else (m, Return tt)
  end.

(** The ['message'] handler of [startMonitoring] on a notification that
    carries [sync]: [try { ... this.updateData(syncData) } catch { }]. *)
Definition onNotification (m : t) (f : frame) : t :=
  (updateData f m).1.

Definition run (m : t) (frames : list frame) : t :=
  fold_left onNotification frames m.

End StationMonitor.

(** The Chiang Mai client (src/chaigmai.js) *)
Module ChiangMaiClient.

(** What [DatabaseService.getStationMonitoredObjects] returns for the rows
    of a station (object type, object id), which the query orders by type.
    [objectMap[obj.objectType] = obj.objectId] adds no property for the type
    ["__proto__"]: a number assigned to it is dropped. *)
Record monitoredData : Type := {
  objectMap : gmap string N;
  objectIds : list N;
  count : nat
}.

Definition getStationMonitoredObjects (rows : list (string * N))
    : monitoredData :=
  {| objectMap :=
       fold_left
         (fun objectMap row =>
            if bool_decide (row.1 = "__proto__") then objectMap
            else <[row.1 := row.2]> objectMap)
         rows ∅;
     objectIds := map snd rows;
     count := length rows |}.

(** The fallback list of [loadMonitoredObjects]. *)
Definition chiangMaiDefaults : list N :=
  [8684; 8686; 8687; 18069; 73909; 73910]%N.

Definition defaultLabels : gmap string string :=
  list_to_map
    [ ("8684", "Active Power 1"); ("8686", "Active Power 3");
      ("8687", "Active Power 4"); ("18069", "MUX#1 Power Meter");
      ("73909", "MUX#3 Power Meter"); ("73910", "MUX#4 Power Meter") ].

Definition typeLabels : gmap string string :=
  list_to_map
    [ ("activePower1", "Active Power 1"); ("activePower2", "Active Power 2");
      ("activePower3", "Active Power 3"); ("activePower4", "Active Power 4");
      ("activePower5", "Active Power 5"); ("activePower6", "Active Power 6");
      ("muxPower1", "MUX#1 Power Meter"); ("muxPower2", "MUX#2 Power Meter");
      ("muxPower3", "MUX#3 Power Meter"); ("muxPower4", "MUX#4 Power Meter");
      ("muxPower5", "MUX#5 Power Meter"); ("muxPower6", "MUX#6 Power Meter") ].

(** [setupObjectLabels]: the only reader of the station's object map.
    [typeLabels[objectType]] finds what [Object.prototype] has under a type
    name such as ["constructor"], and that becomes the label. Where several
    types carry one id, the source keeps the label of the type
    [Object.entries] lists last and the fold below that of the type
    [map_to_list] lists last; the two can differ in the text of the label,
    and in its kind only where one of the types is a name of
    [objectPrototype]. *)
Definition setupObjectLabels (objectMap : option (gmap string N))
    : gmap string label :=
  match objectMap with
  | Some objectMap =>
      map_fold
        (fun objectType objectId labels =>
           <[toString objectId :=
               labelOr (Text <$> typeLabels) objectType
                 (String.append objectType
                    (String.append " (ID "
                       (String.append (toString objectId) ")")))]> labels)
        ∅ objectMap
  | None => Text <$> defaultLabels
  end.

(** [initializeMeterData]: a null entry for every monitored object. *)
Definition initializeMeterData (monitoredObjects : list N) : gmap string json :=
  fold_left (fun meterData id => <[toString id := JNull]> meterData)
            monitoredObjects ∅.

Record t : Type := {
  monitoredObjects : list N;
  objectLabels : gmap string label;
  meterData : gmap string json;
  database : bool;  (* this.databaseService && this.stationRecord *)
  lastDbSave : option Z;
  dbSaveInterval : Z;
  written : list DatabaseService.reading;
  warned : list DatabaseService.warning
}.

(** The client once [loadMonitoredObjects] has run. [stored] is [None]
    without a database service or station record, and otherwise the
    completion of [getStationMonitoredObjects]. *)
Definition loadMonitoredObjects (stored : option (outcome monitoredData)) : t :=
  let loaded :=
    match stored with
    | Some (Return monitoredData) =>
        if (0 <? count monitoredData)%nat
        then (objectIds monitoredData, Some (objectMap monitoredData))
        else (chiangMaiDefaults, None)
    | Some (Throw _) | None => (chiangMaiDefaults, None)
    end in
  {| monitoredObjects := loaded.1;
     objectLabels := setupObjectLabels loaded.2;
     meterData := initializeMeterData loaded.1;
     database := bool_decide (is_Some stored);
     lastDbSave := None; dbSaveInterval := 10000;
     written := []; warned := [] |}.

(** The body of the [forEach] of [displayData] for one entry of the meter
    data, as far as it can throw: nothing for null, else
    [parseFloat(value)], then [label.padEnd(30)]. *)
Definition displayEntry (objectLabels : gmap string label) (id : string)
    (value : json) : outcome unit :=
  match value with
  | JNull => mret tt
  | _ =>
      let label := labelOr objectLabels id (String.append "ID " id) in
      _ ← parseFloat value;
      padEnd label
  end.

(** [displayData]: what it prints is not modelled, only whether it
    completes. The entries are visited in the order of [map_to_list]; which
    of several exceptions is thrown is of no account, since the handler
    only logs it. *)
Definition displayData (c : t) : outcome unit :=
  forEach (fun entry => displayEntry (objectLabels c) entry.1 entry.2)
          (map_to_list (meterData c)).

Definition throttled (c : t) (now : Z) : bool :=
  match lastDbSave c with
  | Some last => (now - last <? dbSaveInterval c)%Z
  | None => false
  end.

(** [saveToDatabase]: everything after the throttle test is inside a [try]
    whose [catch] logs. Without a station record [this.stationRecord.id]
    throws there. The row is stamped with the clock the throttle test
    read. The [catch] may also set a timer for [initializeDatabase]; the
    client is followed as long as that leaves it its store. *)
Definition saveToDatabase (f : frame) (c : t) : t :=
  if throttled c (saveNow f) then c
  else if negb (database c) then c
  else
    match
      DatabaseService.validatePowerData (random f) (Object (meterData c))
    with
    | Throw _ => c
    | Return validation =>
        if negb (DatabaseService.isValid validation) then c
        else
          let c :=
            {| monitoredObjects := monitoredObjects c;
               objectLabels := objectLabels c; meterData := meterData c;
               database := database c; lastDbSave := lastDbSave c;
               dbSaveInterval := dbSaveInterval c; written := written c;
               warned := warned c ++ DatabaseService.warnings validation |} in
          match
            DatabaseService.createPowerReading (Some (saveNow f)) (meterData c)
          with
          | Return row =>
              if storeAccepts f then
                {| monitoredObjects := monitoredObjects c;
                   objectLabels := objectLabels c; meterData := meterData c;
                   database := database c; lastDbSave := Some (saveNow f);
                   dbSaveInterval := dbSaveInterval c;
                   written := written c ++ [row]; warned := warned c |}
              else c
          | Throw _ => c
          end
    end.

(** The handler installed by [handleWSMessageALL], on a notification that
    carries [sync]. Its [catch] only logs; what was assigned before an
    exception stays assigned. The [log] calls are taken to complete. *)
Definition onNotification (c : t) (f : frame) : t :=
  match updateValues (syncData f) (monitoredObjects c) (meterData c) false with
  | Return (meterData, dataUpdated) =>
      let c :=
        {| monitoredObjects := monitoredObjects c;
           objectLabels := objectLabels c; meterData := meterData;
           database := database c; lastDbSave := lastDbSave c;
           dbSaveInterval := dbSaveInterval c; written := written c;
           warned := warned c |} in
      if dataUpdated : bool then
        match displayData c with
        | Return _ => if database c then saveToDatabase f c else c
        | Throw _ => c
        end
      else c
  | Throw _ => c
  end.

Definition run (c : t) (frames : list frame) : t :=
  fold_left onNotification frames c.

End ChiangMaiClient.

(** ** The session of a socket station: connect, handshake, reconnect *)

Module Session.

(** What the socket delivers. [Message None] is a message that
    [JSON.parse] rejects. Timers are not events: they fire when the clock
    reaches their time. *)
Inductive event : Type :=
  | Open
  | Close
  | Message (data : option json).

(** Where the asynchronous code of a client stands. [Sending k t]: inside
    [sendData] of request [k], whose timer was set at [t]. [Waiting k t]:
    inside the wait for the answer to request [k] ([waitForMessage], or a
    [handleWSMessage] of the Chiang Mai client), begun at [t].
    [Monitoring]: the handshake is through; the Chiang Mai client installs
    its notification handler at once, the station monitor once
    [initializeStationInDatabase], which catches its own exceptions, has
    settled. [Failed e]: the handshake has thrown [e] to its caller, which
    catches and logs it. *)
Inductive phase : Type :=
  | Idle
  | Sending (k : nat) (since : Z)
  | Waiting (k : nat) (since : Z)
  | Monitoring
  | Failed (e : jsError).

(** [sent] lists the ids of the requests written to the current socket and
    [accepted] the steps whose answer a wait has accepted on it, both oldest
    first; [reconnectTimers] holds the times at which a [setTimeout] of
    [handleReconnect] calls [connect]. *)
Record t : Type := {
  phase_of : phase;
  wsOpen : bool;
  USID : option json;
  isConnected : bool;
  reconnectAttempts : nat;
  sent : list nat;
  accepted : list nat;
  reconnectTimers : list Z
}.

(** What differs between the two clients. [logToken] is what the handler
    of the wait for step 0 does with the token it has stored, inside its
    [try]; [usableToken] tells whether the code that follows the wait can
    use the token. *)
Record client : Type := {
  validator : nat -> json -> bool;
  logToken : json -> outcome unit;
  usableToken : json -> bool;
  messageTimeout : option Z;
  handleReconnect : Z -> t -> t
}.

(** The requests carry the ids 0 to 7; 7 is [registerActiveObjects]. *)
Definition lastStep : nat := 7.
Definition sendDelay : Z := 1000.

(** [v.k] read from a parsed message; [None] is [undefined]. Reading a
    property of [null] throws, and every handler catches that and goes on
    listening, as it does when the property is missing. *)
Definition get (v : json) (k : string) : option json :=
  match v with
  | JObj o => o !! k
  | _ => None
  end.

Definition idIs (k : nat) (msg : json) : bool :=
  match get msg "id" with
  | Some (JNum q) => bool_decide (q = Q2Qc (inject_Z (Z.of_nat k)))
  | _ => false
  end.

Definition resultIsTrue (msg : json) : bool :=
  match get msg "result" with
  | Some (JBool true) => true
  | _ => false
  end.

Definition cachedIsTrue (msg : json) : bool :=
  match get msg "cached" with
  | Some (JBool true) => true
  | _ => false
  end.

(** [msg.result?.USID], or [msg.result && msg.result.USID] *)
Definition resultUSID (msg : json) : option json :=
  match get msg "result" with
  | Some result => get result "USID"
  | None => None
  end.

Definition hasUSID (msg : json) : bool :=
  from_option truthy false (resultUSID msg).

Definition setPhase (p : phase) (s : t) : t :=
  {| phase_of := p; wsOpen := wsOpen s; USID := USID s;
     isConnected := isConnected s; reconnectAttempts := reconnectAttempts s;
     sent := sent s; accepted := accepted s;
     reconnectTimers := reconnectTimers s |}.

Section Machine.
Variable c : client.

(** The timer of [sendData] fires: the request goes out if the socket is
    open, and the wait for its answer begins. *)
Definition fireSend (k : nat) (at_ : Z) (s : t) : t :=
  if wsOpen s then
    {| phase_of := Waiting k at_; wsOpen := wsOpen s; USID := USID s;
       isConnected := isConnected s;
       reconnectAttempts := reconnectAttempts s;
       sent := sent s ++ [k]; accepted := accepted s;
       reconnectTimers := reconnectTimers s |}
  else setPhase (Failed (Error "WebSocket is not open")) s.

(** The timer of [waitForMessage] fires, where the client sets one. *)
Definition fireTimeout (since : Z) (clock : Z) (s : t) : t :=
  match messageTimeout c with
  | Some limit =>
      if (since + limit <=? clock)%Z
      then setPhase (Failed (Error "Message timeout")) s
      else s
  | None => s
  end.

(** The timers that are due at [clock] fire, in the order of their times:
    first a pending send, then the timeout of the wait it begins. *)
Definition advance (clock : Z) (s : t) : t :=
  let s :=
    match phase_of s with
    | Sending k since =>
        if (since + sendDelay <=? clock)%Z
        then fireSend k (since + sendDelay) s else s
    | _ => s
    end in
  match phase_of s with
  | Waiting _ since => fireTimeout since clock s
  | _ => s
  end.

(** The handler of a wait finds that [msg] passes the predicate of step
    [k]. At step 0 the token is stored; if the handler throws on it, its
    [catch] logs that and the wait goes on. Otherwise the wait is over: the
    handshake goes on with the next request, or fails on a token it cannot
    use, or, after the last step, monitoring starts. *)
Definition accept (k : nat) (clock : Z) (msg : json) (s : t) : t :=
  let s :=
    {| phase_of := phase_of s; wsOpen := wsOpen s;
       USID := if Nat.eqb k 0 then resultUSID msg else USID s;
       isConnected := isConnected s;
       reconnectAttempts := reconnectAttempts s; sent := sent s;
       accepted := accepted s;
       reconnectTimers := reconnectTimers s |} in
  match
    if Nat.eqb k 0 then from_option (logToken c) (Return tt) (USID s)
    else Return tt
  with
  | Throw _ => s
  | Return _ =>
      let s :=
        {| phase_of := phase_of s; wsOpen := wsOpen s; USID := USID s;
           isConnected := isConnected s;
           reconnectAttempts := reconnectAttempts s; sent := sent s;
           accepted := accepted s ++ [k];
           reconnectTimers := reconnectTimers s |} in
      if Nat.eqb k 0 && negb (from_option (usableToken c) false (USID s))
      then
        setPhase (Failed (TypeError "this.USID.substring is not a function")) s
      else if Nat.eqb k lastStep then setPhase Monitoring s
      else setPhase (Sending (S k) clock) s
  end.

(** What an event does to the client. The machine follows one handshake,
    that of the newest socket: at [Open] it begins with request 0. In the
    source [connect] only replaces [this.ws], so a handshake that is still
    in [sendData] then, or waits on an older socket that is still open,
    would go on next to the new one; [Lifecycle.apart] tells the traces in
    which no socket opens on such a client. *)
Definition deliver (clock : Z) (e : event) (s : t) : t :=
  match e with
  | Open =>
      {| phase_of := Sending 0 clock; wsOpen := true; USID := USID s;
         isConnected := true; reconnectAttempts := 0; sent := [];
         accepted := []; reconnectTimers := reconnectTimers s |}
  | Close =>
      handleReconnect c clock
        {| phase_of := phase_of s; wsOpen := false; USID := USID s;
           isConnected := false;
           reconnectAttempts := reconnectAttempts s; sent := sent s;
           accepted := accepted s;
           reconnectTimers := reconnectTimers s |}
  | Message (Some msg) =>
      match phase_of s with
      | Waiting k _ => if validator c k msg then accept k clock msg s else s
      | _ => s
      end
  | Message None => s
  end.

Definition step (s : t) (e : Z * event) : t :=
  deliver e.1 e.2 (advance e.1 s).

Definition run (s : t) (trace : list (Z * event)) : t :=
  fold_left step trace s.
End Machine.

(** A client before its first [connect]. *)
Definition initial : t :=
  {| phase_of := Idle; wsOpen := false; USID := None; isConnected := false;
     reconnectAttempts := 0; sent := []; accepted := [];
     reconnectTimers := [] |}.

(** The body shared by the two [handleReconnect]s once the budget test has
    passed: count the attempt and set the timer that calls [connect]. *)
Definition scheduleReconnect (delay : Z) (clock : Z) (s : t) : t :=
  {| phase_of := phase_of s; wsOpen := wsOpen s; USID := USID s;
     isConnected := isConnected s;
     reconnectAttempts := S (reconnectAttempts s); sent := sent s;
     accepted := accepted s;
     reconnectTimers := reconnectTimers s ++ [(clock + delay)%Z] |}.

End Session.

(** [StationMonitor] (src/unnamed/part_007) as a client of the session
    machine. *)
Module StationMonitorSession.
Import Session.

Definition maxReconnectAttempts : nat := 5.
Definition reconnectInterval : Z := 5000.

(** The predicates handed to [waitForMessage] by [initializeSession]. *)
Definition validator (k : nat) (msg : json) : bool :=
  match k with
  | 0 => idIs 0 msg && hasUSID msg
  | 1 | 2 | 7 => idIs k msg && resultIsTrue msg
  | _ => idIs k msg
  end.

(** [if (this.reconnectAttempts < config.maxReconnectAttempts) { ... }
     else { console.error(...) }] *)
Definition handleReconnect (clock : Z) (s : t) : t :=
  if (reconnectAttempts s <? maxReconnectAttempts)%nat
  then scheduleReconnect reconnectInterval clock s
  else s.

(** [waitForMessage] gives up after 5000 ms and its handler does nothing
    with the token; after step 0 the code calls [this.USID.substring],
    which only a string has. *)
Definition client : Session.client :=
  {| Session.validator := validator;
     logToken := fun _ => Return tt;
     usableToken := fun usid => match usid with JStr _ => true | _ => false end;
     messageTimeout := Some 5000%Z;
     Session.handleReconnect := handleReconnect |}.

End StationMonitorSession.

(** [ChiangMaiClient] (src/chaigmai.js) as a client of the session
    machine. *)
Module ChiangMaiSession.
Import Session.

Definition maxReconnectAttempts : nat := 10.
Definition reconnectDelay : Z := 5000.

(** [handleWSMessage] for step 0, [handleWSMessage1] for steps 1, 2 and 7,
    [handleWSMessage2] for steps 3 to 6. *)
Definition validator (k : nat) (msg : json) : bool :=
  match k with
  | 0 => idIs 0 msg && hasUSID msg
  | 1 | 2 | 7 => idIs k msg && resultIsTrue msg
  | _ => idIs k msg && cachedIsTrue msg
  end.

(** [if (this.reconnectAttempts >= config.maxReconnectAttempts) return; ...] *)
Definition handleReconnect (clock : Z) (s : t) : t :=
  if (maxReconnectAttempts <=? reconnectAttempts s)%nat
  then s
  else scheduleReconnect reconnectDelay clock s.

(** The waits of [setUpSession] have no timer, and the token is only
    logged, by the handler of [handleWSMessage]: [`USID received:
    ${this.USID}`] throws for a token that does not print. *)
Definition client : Session.client :=
  {| Session.validator := validator;
     logToken :=
       fun usid =>
         if unprintable usid
         then Throw (TypeError "Cannot convert object to primitive value")
         else Return tt;
     usableToken := fun _ => true;
     messageTimeout := None;
     Session.handleReconnect := handleReconnect |}.

End ChiangMaiSession.

(** ** ApiDataFetcher (src/unnamed/part_002) *)

Module ApiDataFetcher.

(** A station configuration; [None] is a missing property. *)
Record stationConfig : Type := {
  name : option string;
  ipAddress : option string;
  ip : option string;
  scene : option string
}.

(** [a || b] on strings that may be missing: the empty string is falsy. *)
Definition orElse (a b : option string) : option string :=
  match a with
  | Some "" | None => b
  | Some _ => a
  end.

(** [s.startsWith(p)] *)
Definition startsWith (p s : string) : bool := String.prefix p s.

(** [s.includes(p)] *)
Fixpoint includes (p s : string) : bool :=
  String.prefix p s ||
  match s with
  | String _ r => includes p r
  | EmptyString => false
  end.

(** [isApiStation], as the truth value its callers test. *)
Definition isApiStation (config : stationConfig) : bool :=
  match orElse (ipAddress config) (ip config) with
  | Some address =>
      negb (bool_decide (address = "")) &&
      startsWith "http://" address && includes "/data" address
  | None => false
  end.

(** The monitor [MonitorController.initialize] creates for a station. *)
Inductive transportKind : Type :=
  | HttpPoll
  | WebSocket.

Definition transportOf (config : stationConfig) : transportKind :=
  if isApiStation config then HttpPoll else WebSocket.

(** The class [StationAnalyzer.analyzeStations] puts a stored station in. *)
Inductive stationClass : Type :=
  | ApiStation
  | WebSocketStation
  | IncompleteStation.

Definition present (field : option string) : bool :=
  match field with
  | Some "" | None => false
  | Some _ => true
  end.

Definition analyzeStation (station : stationConfig) : stationClass :=
  let config :=
    {| name := name station; ipAddress := ipAddress station; ip := None;
       scene := scene station |} in
  if isApiStation config then
    if present (name station) && present (ipAddress station)
    then ApiStation else IncompleteStation
  else
    if present (name station) && present (ipAddress station)
       && present (scene station)
    then WebSocketStation else IncompleteStation.

(** [url.protocol === 'https:' ? https : http] in [fetchApiData]: the
    fetcher itself serves both schemes. *)
Inductive httpModule : Type :=
  | Http
  | Https.

Definition clientFor (protocol : string) : httpModule :=
  if bool_decide (protocol = "https:") then Https else Http.

(** [transformApiData] *)
Definition apiKeys : list (string * string) :=
  [ ("mux1", "muxPower1"); ("mux2", "muxPower2"); ("mux3", "muxPower3");
    ("mux4", "muxPower4"); ("mux5", "muxPower5"); ("mux6", "muxPower6");
    ("power1", "activePower1"); ("power2", "activePower2");
    ("power3", "activePower3"); ("power4", "activePower4");
    ("power5", "activePower5"); ("power6", "activePower6") ].

Definition transformApiData (apiData : gmap string json)
    : outcome (gmap string DatabaseService.dbvalue) :=
  DatabaseService.transformEntries apiData apiKeys ∅.

(** Warnings of [validateApiData], kept as data instead of text. *)
Inductive warning : Type :=
  | MissingRequiredFields (fields : list string)
  | InvalidNumeric (field : string) (value : json)
  | MuxPowerOutOfRange (field : string) (numValue : number)
  | ActivePowerOutOfRange (field : string) (numValue : number).

Record validation : Type := {
  isValid : bool;
  errors : list string;
  warnings : list warning
}.

Definition requiredFields : list string := ["mux1"; "mux2"; "power1"; "power2"].

(** [requiredFields.filter(field => !apiData.hasOwnProperty(field))] *)
Fixpoint missingRequiredFields (apiData : gmap string json)
    (fields : list string) : outcome (list string) :=
  match fields with
  | [] => mret []
  | field :: rest =>
      has ← hasOwnProperty apiData field;
      missing ← missingRequiredFields apiData rest;
      mret (if has : bool then missing else field :: missing)
  end.

(** The body of the [forEach] of [validateApiData] for one entry: the
    warnings it pushes. *)
Definition validateField (field : string) (value : json)
    : outcome (list warning) :=
  if startsWith "mux" field || startsWith "power" field then
    numValue ← parseFloat value;
    mret
      (if isNaN numValue then [InvalidNumeric field value]
       else if startsWith "mux" field
               && (numberLt numValue (ofZ 0)
                   || numberLt (ofZ 1000000000) numValue)
       then [MuxPowerOutOfRange field numValue]
       else if startsWith "power" field
               && (numberLt numValue (ofZ 0) || numberLt (ofZ 100000) numValue)
       then [ActivePowerOutOfRange field numValue]
       else [])
  else mret [].

(** [validateApiData]. The entries are visited in the order of
    [map_to_list], not in that of [Object.entries]: only which warnings are
    present is modelled, not their order. *)
Definition validateApiData (apiData : jsarg) : outcome validation :=
  match apiData with
  | NotObject =>
      mret {| isValid := false; errors := ["API data must be an object"];
              warnings := [] |}
  | Object apiData =>
      missing ← missingRequiredFields apiData requiredFields;
      found ←
        collect (fun entry => validateField entry.1 entry.2)
                (map_to_list apiData);
      mret {| isValid := true; errors := [];
              warnings :=
                match missing with
                | [] => found
                | _ => MissingRequiredFields missing :: found
                end |}
  end.

(** [displayData], as far as it can throw: for each of the twelve keys the
    data own, [parseFloat(apiData[key])]. *)
Definition displayData (apiData : gmap string json) : outcome unit :=
  forEach
    (fun key =>
       has ← hasOwnProperty apiData key;
       if has : bool
       then _ ← from_option parseFloat (Return NaN) (apiData !! key); mret tt
       else mret tt)
    (map fst apiKeys).

Record t : Type := {
  isRunning : bool;
  fetchInterval : bool;  (* the interval timer is set *)
  lastFetch : option Z;
  lastData : option (gmap string DatabaseService.dbvalue);
  errorCount : nat;
  maxErrors : nat
}.

Definition new : t :=
  {| isRunning := false; fetchInterval := false; lastFetch := None;
     lastData := None; errorCount := 0; maxErrors := 5 |}.

Definition setErrorCount (n : nat) (a : t) : t :=
  {| isRunning := isRunning a; fetchInterval := fetchInterval a;
     lastFetch := lastFetch a; lastData := lastData a; errorCount := n;
     maxErrors := maxErrors a |}.

Definition stop (a : t) : t :=
  if negb (isRunning a) then a
  else
    {| isRunning := false; fetchInterval := false; lastFetch := lastFetch a;
       lastData := lastData a; errorCount := errorCount a;
       maxErrors := maxErrors a |}.

(** What [fetchApiData] settles with. *)
Inductive fetched : Type :=
  | Rejected (e : jsError)
  | Resolved (apiData : jsarg).

(** [processApiData]. Invalid data returns early; an exception of
    [validateApiData], [transformApiData] or [displayData] is counted by the
    [catch], and what was assigned before it stays assigned.
    [saveToDatabase] catches whatever it or the store raises, so the write
    is left out here. *)
Definition processApiData (apiData : jsarg) (a : t) : t :=
  match validateApiData apiData with
  | Throw _ => setErrorCount (S (errorCount a)) a
  | Return validation =>
      if negb (isValid validation) then a
      else
        match apiData with
        | NotObject => a
        | Object apiData =>
            match transformApiData apiData with
            | Throw _ => setErrorCount (S (errorCount a)) a
            | Return transformedData =>
                let a :=
                  {| isRunning := isRunning a;
                     fetchInterval := fetchInterval a;
                     lastFetch := lastFetch a;
                     lastData := Some transformedData;
                     errorCount := errorCount a; maxErrors := maxErrors a |} in
                match displayData apiData with
                | Throw _ => setErrorCount (S (errorCount a)) a
                | Return _ => setErrorCount 0 a
                end
            end
        end
  end.

Definition fetchAndProcess (clock : Z) (result : fetched) (a : t) : t :=
  if (maxErrors a <=? errorCount a)%nat then stop a
  else
    match result with
    | Resolved apiData =>
        processApiData apiData
          {| isRunning := isRunning a; fetchInterval := fetchInterval a;
             lastFetch := Some clock; lastData := lastData a;
             errorCount := errorCount a; maxErrors := maxErrors a |}
    | Rejected _ =>
        let a := setErrorCount (S (errorCount a)) a in
        if (maxErrors a <=? errorCount a)%nat then stop a else a
    end.

(** [start]: the first fetch, then the interval timer. *)
Definition start (clock : Z) (result : fetched) (a : t) : t :=
  if isRunning a then a
  else
    let a :=
      fetchAndProcess clock result
        {| isRunning := true; fetchInterval := fetchInterval a;
           lastFetch := lastFetch a; lastData := lastData a;
           errorCount := 0; maxErrors := maxErrors a |} in
    {| isRunning := isRunning a; fetchInterval := true;
       lastFetch := lastFetch a; lastData := lastData a;
       errorCount := errorCount a; maxErrors := maxErrors a |}.

(** The callback of [setInterval]: [if (this.isRunning) await
    this.fetchAndProcess()]. A cleared timer does not call it. *)
Definition tick (a : t) (e : Z * fetched) : t :=
  if fetchInterval a && isRunning a then fetchAndProcess e.1 e.2 a else a.

Definition run (a : t) (ticks : list (Z * fetched)) : t :=
  fold_left tick ticks a.

End ApiDataFetcher.

(** ** Resolution of property names to columns *)

Module Resolution.
Import DatabaseService.

(** Every (property, column) pair [transformPowerData] visits, in the order
    it visits them: the active-power table, the MUX table, then the direct
    column names. *)
Definition tables : list (string * string) :=
  activePowerMap ++ muxPowerMap ++ map (fun f => (f, f)) directFields.

(** The column a property name resolves to. No station takes part in it. *)
Definition resolve (id : string) : option string :=
  snd <$> find (fun entry => bool_decide (entry.1 = id)) tables.

(** The column value of a value that prints: null if it reads as no
    number, else the number. *)
Definition columnOf (v : json) : dbvalue :=
  if isNaN (readNumber v) then Null else Num (readNumber v).

(** The three loops of [transformPowerData] when no call throws. *)
Definition foldEntries (powerData : gmap string json)
    (entries : list (string * string)) (dbData : gmap string dbvalue)
    : gmap string dbvalue :=
  fold_left
    (fun dbData entry =>
       match powerData !! entry.1 with
       | Some v => <[entry.2 := columnOf v]> dbData
       | None => dbData
       end)
    entries dbData.

(** No call of the loops over [entries] throws: the data do not shadow
    [hasOwnProperty], and every property the loops read prints. *)
Definition readable (powerData : gmap string json)
    (entries : list (string * string)) : Prop :=
  powerData !! "hasOwnProperty" = None
  /\ forall id field v,
       (id, field) ∈ entries -> powerData !! id = Some v ->
       unprintable v = false.

(** The value that ends up in [field]: that of the last entry of [entries]
    for this column whose property the data owns. *)
Fixpoint claimed (powerData : gmap string json)
    (entries : list (string * string)) (field : string) : option json :=
  match entries with
  | [] => None
  | entry :: rest =>
      match claimed powerData rest field with
      | Some v => Some v
      | None =>
          if bool_decide (entry.2 = field) then powerData !! entry.1 else None
      end
  end.

End Resolution.

(** [f] with another [sync] object. *)
Definition withSync (syncData : gmap string json) (f : frame) : frame :=
  {| now := now f; syncData := syncData; saveNow := saveNow f;
     storeAccepts := storeAccepts f; random := random f |}.

(** A [ChiangMaiClient] read as a [StationMonitor]: the two pipelines keep
    the same data under different names, and only the monitor records the
    time of the last update. *)
Definition asStationMonitor (c : ChiangMaiClient.t) (lastUpdate : option Z)
    : StationMonitor.t :=
  {| StationMonitor.monitoredObjects := ChiangMaiClient.monitoredObjects c;
     StationMonitor.dataBuffer := ChiangMaiClient.meterData c;
     StationMonitor.lastUpdate := lastUpdate;
     StationMonitor.database := ChiangMaiClient.database c;
     StationMonitor.lastDbSave := ChiangMaiClient.lastDbSave c;
     StationMonitor.dbSaveInterval := ChiangMaiClient.dbSaveInterval c;
     StationMonitor.written := ChiangMaiClient.written c;
     StationMonitor.warned := ChiangMaiClient.warned c |}.

(** The frame changes a monitored value of the buffer: some monitored id is
    an own property of [sync] with a value that [!==] the buffered one. *)
Definition changes (monitoredObjects : list N) (buffer : gmap string json)
    (f : frame) : Prop :=
  exists id v, id ∈ monitoredObjects /\ syncData f !! toString id = Some v /\
               strictNe (buffer !! toString id) v = true.

(** No monitored value of the frame differs from the buffered one. *)
Definition repeats (monitoredObjects : list N) (buffer : gmap string json)
    (f : frame) : Prop :=
  forall id v, id ∈ monitoredObjects -> syncData f !! toString id = Some v ->
               strictNe (buffer !! toString id) v = false.

(** ** Vocabulary for the session properties *)

Module SessionSpec.
Import Session.

(** The requests of the current socket went out in the order of their ids,
    the answers were accepted in that order, and no request is ahead of the
    accepted answers by more than itself. *)
Definition ordered (s : Session.t) : Prop :=
  sent s = seq 0 (length (sent s))
  /\ accepted s = seq 0 (length (accepted s))
  /\ match phase_of s with
     | Idle => length (sent s) = 0 /\ length (accepted s) = 0
     | Sending k _ =>
         length (sent s) = k /\ length (accepted s) = k /\ k <= lastStep
     | Waiting k _ =>
         length (sent s) = S k /\ length (accepted s) = k /\ k <= lastStep
     | Monitoring =>
         length (sent s) = S lastStep /\ length (accepted s) = S lastStep
     | Failed _ =>
         length (accepted s) <= length (sent s) <= S (length (accepted s))
         /\ length (sent s) <= S lastStep
     end.

(** A client whose [handleReconnect] is the budget test around
    [scheduleReconnect]. *)
Definition budgeted (c : client) (budget : nat) (delay : Z) : Prop :=
  forall clock s,
    handleReconnect c clock s
    = if (reconnectAttempts s <? budget)%nat
      then scheduleReconnect delay clock s else s.


(** Nothing in the trace answers step [k]: every event is a message that
    does not parse or that the predicate of the step rejects. *)
Definition unanswered (c : client) (k : nat) (trace : list (Z * event))
    : Prop :=
  Forall
    (fun e => exists data, e.2 = Message data /\
                forall msg, data = Some msg -> validator c k msg = false)
    trace.

(** While a step is unanswered the client keeps waiting or has timed out,
    and nothing else of the session moves. *)
Definition stalled (s0 : Session.t) (k : nat) (since : Z) (s : Session.t)
    : Prop :=
  (phase_of s = Waiting k since
   \/ phase_of s = Failed (Error "Message timeout"))
  /\ sent s = sent s0
  /\ reconnectAttempts s = reconnectAttempts s0
  /\ reconnectTimers s = reconnectTimers s0.

End SessionSpec.

(** ** Vocabulary for the poller properties *)

Module ApiSpec.
Import ApiDataFetcher.

(** The endpoint string [s] begins with [p]. *)
Definition beginsWith (p s : string) : Prop :=
  exists rest, s = String.append p rest.

(** The endpoint string [s] contains [p] somewhere. *)
Definition contains (p s : string) : Prop :=
  exists before after, s = String.append before (String.append p after).

(** The endpoint of a configuration: [ipAddress || ip]. *)
Definition endpoint (config : stationConfig) : option string :=
  orElse (ipAddress config) (ip config).

(** Ticks on which the fetch fails. *)
Definition failures (errors : list (Z * jsError)) : list (Z * fetched) :=
  map (fun e => (e.1, Rejected e.2)) errors.

(** The data can be processed: they do not shadow [hasOwnProperty], and
    the value of every property whose name begins with "mux" or "power"
    prints. *)
Definition processable (apiData : gmap string json) : Prop :=
  apiData !! "hasOwnProperty" = None
  /\ forall field v,
       apiData !! field = Some v ->
       startsWith "mux" field || startsWith "power" field = true ->
       unprintable v = false.

End ApiSpec.

(** ** Sample data *)

Module Sample.

(** A frame handled at [clock], within the millisecond, that the store
    accepts; [Math.random] returns 0.5. *)
Definition frameAt (clock : Z) (syncData : gmap string json) : frame :=
  {| now := clock; syncData := syncData; saveNow := clock;
     storeAccepts := true; random := fun _ => Q2Qc (1 # 2) |}.

Definition num (z : Z) : json := JNum (Q2Qc (inject_Z z)).

Definition column (z : Z) : DatabaseService.dbvalue :=
  DatabaseService.Num (Finite (Q2Qc (inject_Z z))).

(** Answers of a station to the requests of the handshake. *)
Definition tokenAnswer : json :=
  JObj {[ "id" := num 0; "result" := JObj {[ "USID" := JStr "a1b2c3d4e5f6" ]} ]}.

Definition trueAnswer (k : Z) : json :=
  JObj {[ "id" := num k; "result" := JBool true ]}.

Definition falseAnswer (k : Z) : json :=
  JObj {[ "id" := num k; "result" := JBool false ]}.

Definition plainAnswer (k : Z) : json := JObj {[ "id" := num k ]}.

(** A station that answers every request 100 ms after it was sent. *)
Definition promptStation : list (Z * Session.event) :=
  [ (0, Session.Open);
    (1100, Session.Message (Some tokenAnswer));
    (2200, Session.Message (Some (trueAnswer 1)));
    (3300, Session.Message (Some (trueAnswer 2)));
    (4400, Session.Message (Some (plainAnswer 3)));
    (5500, Session.Message (Some (plainAnswer 4)));
    (6600, Session.Message (Some (plainAnswer 5)));
    (7700, Session.Message (Some (plainAnswer 6)));
    (8800, Session.Message (Some (trueAnswer 7))) ]%Z.

(** A decimal reading: [dec 649940 2] is 6499.40. *)
Definition dec (digits : Z) (places : Z) : Qc :=
  Q2Qc (inject_Z digits * Qpower (inject_Z 10) (- places)).

(** The frame of the data-mapping test of the repository
    (src/unnamed/part_008). *)
Definition ranongData : gmap string json :=
  list_to_map
    [ ("8684", JNum (dec 649940 2)); ("8685", JNum (dec 299760 2));
      ("8687", JNum (dec 302710 2)); ("8688", JNum (dec 55830 2));
      ("18069", JNum (dec 58830800 2)); ("18070", JNum (dec 27765030 2));
      ("73910", JNum (dec 27440220 2)); ("224272", JNum (dec 3711860 2)) ].

Definition expectedMappings : list (string * DatabaseService.dbvalue) :=
  [ ("activePower1", DatabaseService.Num (Finite (dec 649940 2)));
    ("activePower2", DatabaseService.Num (Finite (dec 299760 2)));
    ("activePower4", DatabaseService.Num (Finite (dec 302710 2)));
    ("activePower5", DatabaseService.Num (Finite (dec 55830 2)));
    ("muxPower1", DatabaseService.Num (Finite (dec 58830800 2)));
    ("muxPower2", DatabaseService.Num (Finite (dec 27765030 2)));
    ("muxPower4", DatabaseService.Num (Finite (dec 27440220 2)));
    ("muxPower5", DatabaseService.Num (Finite (dec 3711860 2))) ].

End Sample.

(** ** Vocabulary for whole runs of the pipeline *)

Module RunSpec.
Import DatabaseService.

(** Rows that follow one another lie at least [interval] apart. *)
Definition spaced (interval : Z) (rows : list reading) : Prop :=
  forall i r1 r2,
    rows !! i = Some r1 -> rows !! S i = Some r2 ->
    (interval <= timestamp r2 - timestamp r1)%Z.

(** The row a monitor builds from a buffer that the transformation
    accepts. *)
Definition rowOf (timestamp : Z) (buffer : gmap string json) : reading :=
  {| timestamp := timestamp;
     columns := Resolution.foldEntries buffer Resolution.tables ∅ |}.

(** The frame gets a row of the monitor written: the store is there and
    takes the row, no earlier write is younger than the interval, and both
    [displayData] and the transformation complete on the buffer the frame
    leaves. *)
Definition monitorWrites (m : StationMonitor.t) (f : frame) : bool :=
  let m' := StationMonitor.onNotification m f in
  StationMonitor.database m && storeAccepts f
  && negb (StationMonitor.throttled m (saveNow f))
  && completes (StationMonitor.displayData m')
  && completes (transformPowerData (Object (StationMonitor.dataBuffer m'))).

(** The same for the Chiang Mai client. *)
Definition clientWrites (c : ChiangMaiClient.t) (f : frame) : bool :=
  let c' := ChiangMaiClient.onNotification c f in
  ChiangMaiClient.database c && storeAccepts f
  && negb (ChiangMaiClient.throttled c (saveNow f))
  && completes (ChiangMaiClient.displayData c')
  && completes (transformPowerData (Object (ChiangMaiClient.meterData c'))).

(** The buffer after a frame: the value of the frame where the frame has one
    for a monitored object, the old value elsewhere. *)
Definition merged (monitoredObjects : list N) (syncData buffer : gmap string json)
    (k : string) : option json :=
  if bool_decide (k ∈ map toString monitoredObjects)
  then match syncData !! k with
       | Some v => Some v
       | None => buffer !! k
       end
  else buffer !! k.

End RunSpec.

(** ** The connection of DatabaseService (src/unnamed/part_001) *)

Module Connection.

Definition maxRetries : nat := 3.
Definition retryDelay : Z := 1000.

(** The fields of the service that the connection code reads and writes,
    and the delays it has slept, oldest first. *)
Record t : Type := {
  isConnected : bool;
  connectionRetries : nat;
  slept : list Z
}.

Definition new : t :=
  {| isConnected := false; connectionRetries := 0; slept := [] |}.

(** [connect] with [handleConnectionError]. [attempts] lists what the
    coming calls of [prisma.$connect()] do, in order: [None] returns,
    [Some message] throws an error with that message. The result is the
    completion of [connect], the service after it, and the calls that were
    not made; there is none when [attempts] does not list every call that
    is made. The value of the [healthCheck] inside [connect] is dropped by
    the source, and [healthCheck] does not throw. *)
Fixpoint connect (attempts : list (option string)) (d : t)
    : option (outcome unit * t * list (option string)) :=
  if isConnected d then Some (Return tt, d, attempts)
  else
    match attempts with
    | [] => None
    | None :: rest =>
        Some (Return tt,
              {| isConnected := true; connectionRetries := 0;
                 slept := slept d |},
              rest)
    | Some message :: rest =>
        let retries := S (connectionRetries d) in
        if (retries <=? maxRetries)%nat then
          connect rest
            {| isConnected := isConnected d; connectionRetries := retries;
               slept := slept d
                        ++ [(retryDelay * 2 ^ Z.of_nat (retries - 1))%Z] |}
        else
          Some (Throw (Error
                  (String.append "Database connection failed after "
                     (String.append (toString (N.of_nat maxRetries))
                        (String.append " attempts: " message)))),
                {| isConnected := isConnected d; connectionRetries := retries;
                   slept := slept d |},
                rest)
    end.

(** [ensureConnection]: [healthy] is what [healthCheck] returns if it is
    called. *)
Definition ensureConnection (healthy : bool) (attempts : list (option string))
    (d : t) : option (outcome unit * t * list (option string)) :=
  if negb (isConnected d) || negb healthy then connect attempts d
  else Some (Return tt, d, attempts).

(** [s.toLowerCase()] on one character: the letters A to Z, and the
    capital letters of Latin-1, which lie 32 below their small ones. *)
Definition lowerAscii (c : ascii) : ascii :=
  let n := N_of_ascii c in
  if ((65 <=? n) && (n <=? 90))%N then ascii_of_N (n + 32)
  else if ((192 <=? n) && (n <=? 222) && negb (n =? 215))%N
  then ascii_of_N (n + 32)
  else c.

Fixpoint toLowerCase (s : string) : string :=
  match s with
  | String c r => String (lowerAscii c) (toLowerCase r)
  | EmptyString => EmptyString
  end.

Definition connectionErrorMessages : list string :=
  [ "Connection lost"; "Connection terminated"; "Connection refused";
    "Unable to open the database file"; "database is locked" ].

Definition messageOf (e : jsError) : string :=
  match e with
  | TypeError msg | Error msg => msg
  end.

Definition isConnectionError (e : jsError) : bool :=
  existsb
    (fun msg =>
       ApiDataFetcher.includes (toLowerCase msg) (toLowerCase (messageOf e)))
    connectionErrorMessages.

(** [executeOperation]. [results] lists what the calls of [operation]
    complete with, in order. The result is the completion, the service
    after it and the number of calls of [operation] that were made. *)
Definition executeOperation {A} (healthy : bool)
    (attempts : list (option string)) (results : list (outcome A)) (d : t)
    : option (outcome A * t * nat) :=
  '(ensured, d, attempts) ← ensureConnection healthy attempts d;
  '(completion, invoked) ←
     match ensured with
     | Return _ => (fun r => (r, 1)) <$> results !! 0
     | Throw e => Some (Throw e, 0)
     end;
  match completion with
  | Return a => Some (Return a, d, invoked)
  | Throw e =>
      if isConnectionError e then
        '(reconnected, d, _) ←
           connect attempts
             {| isConnected := false;
                connectionRetries := connectionRetries d;
                slept := slept d |};
        match reconnected with
        | Return _ =>
            (fun r => (r, d, S invoked)) <$> results !! invoked
        | Throw e' => Some (Throw e', d, invoked)
        end
      else Some (Throw e, d, invoked)
  end.

End Connection.

(** ** Batches of readings (src/unnamed/part_001) *)

Module Batch.
Import DatabaseService.

(** The [timestamp] of a reading of a batch: missing (or otherwise falsy),
    not a date, or a date. *)
Inductive timestampArg : Type :=
  | NoTimestamp
  | InvalidDate
  | Date (ms : Z).

Record readingData : Type := {
  stationId : option string;
  timestamp : timestampArg;
  powerData : jsarg
}.

(** The callback of [readingsData.map] in [createBatchPowerReadings]. *)
Definition batchRow (r : readingData) : outcome (string * reading) :=
  match stationId r, timestamp r with
  | Some id, Date ms =>
      if bool_decide (id = "") then
        Throw (Error "Missing required fields in batch data: stationId, timestamp")
      else
        dbData ← transformPowerData (powerData r);
        mret (id, {| DatabaseService.timestamp := ms; columns := dbData |})
  | Some id, InvalidDate =>
      if bool_decide (id = "") then
        Throw (Error "Missing required fields in batch data: stationId, timestamp")
      else Throw (Error "Invalid timestamp in batch data")
  | _, _ =>
      Throw (Error "Missing required fields in batch data: stationId, timestamp")
  end.

(** [createBatchPowerReadings]: the rows handed to
    [prisma.powerReading.createMany], or the exception raised before that
    call. For an empty batch the store is not called. *)
Fixpoint createBatchPowerReadings (readingsData : list readingData)
    : outcome (list (string * reading)) :=
  match readingsData with
  | [] => Return []
  | r :: rest =>
      row ← batchRow r;
      rows ← createBatchPowerReadings rest;
      mret (row :: rows)
  end.

End Batch.

(** ** Stations loaded from the store (src/migrate-monitored-objects.js) *)

Module Stations.
Import ApiDataFetcher.

(** [station.ipAddress && station.ipAddress.startsWith("http://") &&
    station.ipAddress.includes("/data")] *)
Definition looksLikeApi (station : stationConfig) : bool :=
  match ipAddress station with
  | Some address =>
      negb (bool_decide (address = "")) &&
      startsWith "http://" address && includes "/data" address
  | None => false
  end.

(** The test of [loadStationsFromDatabase] that puts a stored station among
    the complete ones. *)
Definition isComplete (station : stationConfig) : bool :=
  if looksLikeApi station
  then present (name station) && present (ipAddress station)
  else present (name station) && present (ipAddress station)
       && present (scene station).

(** What the log names as missing for a station that is skipped. *)
Definition missing (station : stationConfig) : list string :=
  (if present (name station) then [] else ["name"])
  ++ (if present (ipAddress station) then [] else ["ipAddress"])
  ++ (if negb (present (scene station))
         && (negb (present (ipAddress station))
             || negb (from_option (includes "/data") false
                        (ipAddress station)))
      then ["scene"] else []).

(** [{ name: station.name, ip: station.ipAddress, scene: station.scene }] *)
Definition toConfig (station : stationConfig) : stationConfig :=
  {| name := name station; ipAddress := None; ip := ipAddress station;
     scene := scene station |}.

(** [loadStationsFromDatabase]. [defaultStations] is
    [config.defaultStations]; [stored] is [None] without a database
    service, and otherwise the completion of [getAllStations]. On an empty
    table the defaults are seeded and returned, also when the seeding
    throws. *)
Definition loadStationsFromDatabase (defaultStations : list stationConfig)
    (stored : option (outcome (list stationConfig))) : list stationConfig :=
  match stored with
  | None | Some (Throw _) | Some (Return []) => defaultStations
  | Some (Return dbStations) =>
      map toConfig
        (filter (fun station => isComplete station = true) dbStations)
  end.

End Stations.

(** ** The monitored objects of a station in the store
       (src/unnamed/part_001) *)

Module MonitoredObjects.

(** The rows that [updateStationMonitoredObjects] hands to [createMany]
    for a station, after it has deleted the rows the station had:
    [Object.entries(objectMap).filter(([type, id]) => id !== null && id !==
    undefined).map(([objectType, objectId]) => ({ stationId, objectType,
    objectId: parseInt(objectId) }))]. The ids of the map are numbers
    ([None] is null), which [parseInt] prints before it reads them: below
    10^21 as their decimal digits, which is as far as the model follows
    them. The rows are listed in the order of [map_to_list]. *)
Definition objectsToCreate (objectMap : gmap string (option N))
    : list (string * number) :=
  map_to_list objectMap ≫=
    (fun entry =>
       match entry.2 with
       | Some objectId => [(entry.1, parseInt (toString objectId))]
       | None => []
       end).

(** The number of objects the update reports. *)
Definition updated (objectMap : gmap string (option N)) : nat :=
  length (objectsToCreate objectMap).

(** The rows of a station as a later query finds them: those that were
    created, in the order of the query. *)
Definition found (objectMap : gmap string (option N))
    (rows : list (string * N)) : Prop :=
  (fun row => (row.1, ofZ (Z.of_N row.2))) <$> rows
  ≡ₚ objectsToCreate objectMap.

(** Every id of the map is a safe integer. *)
Definition safeIds (objectMap : gmap string (option N)) : Prop :=
  forall objectType objectId,
    objectMap !! objectType = Some (Some objectId) -> isSafeInteger objectId.

(** The value of a decimal numeral read from the left, continued from
    [acc]. *)
Fixpoint decimalValue (d : Decimal.uint) (acc : Z) : Z :=
  match d with
  | Decimal.Nil => acc
  | Decimal.D0 d => decimalValue d (10 * acc + 0)
  | Decimal.D1 d => decimalValue d (10 * acc + 1)
  | Decimal.D2 d => decimalValue d (10 * acc + 2)
  | Decimal.D3 d => decimalValue d (10 * acc + 3)
  | Decimal.D4 d => decimalValue d (10 * acc + 4)
  | Decimal.D5 d => decimalValue d (10 * acc + 5)
  | Decimal.D6 d => decimalValue d (10 * acc + 6)
  | Decimal.D7 d => decimalValue d (10 * acc + 7)
  | Decimal.D8 d => decimalValue d (10 * acc + 8)
  | Decimal.D9 d => decimalValue d (10 * acc + 9)
  end%Z.

End MonitoredObjects.

(** ** The import of monitored objects from a CSV file
       (src/src/utils/import-monitored-objects.js) *)

Module CsvImport.

(** [s.split(separator)] for a separator of one character. *)
Fixpoint split (separator : ascii) (s : string) : list string :=
  match s with
  | EmptyString => [""]
  | String c r =>
      if bool_decide (c = separator) then "" :: split separator r
      else
        match split separator r with
        | cell :: cells => String c cell :: cells
        | [] => [String c ""]
        end
  end.

Fixpoint trimEnd (s : string) : string :=
  match s with
  | EmptyString => ""
  | String c r =>
      match trimEnd r with
      | EmptyString => if isWhiteSpace c then "" else String c ""
      | rest => String c rest
      end
  end.

(** [s.trim()] *)
Definition trim (s : string) : string := trimEnd (trimStart s).

(** An element of the list [parseCsvFile] returns. *)
Record stationData : Type := {
  name : string;
  objects : gmap string number
}.

(** [line.split(',').map(v => v.trim())] *)
Definition readCells (line : string) : list string :=
  map trim (split "," line).

(** The loop over the columns after the first:
    [if (objectId && objectId !== '') { const parsedId = parseInt(objectId);
    if (!isNaN(parsedId)) objects[objectType] = parsedId }]. Under the
    header ["__proto__"] the assignment adds no property: a number assigned
    to it is dropped. *)
Definition readObjects (headers values : list string) : gmap string number :=
  fold_left
    (fun objects cell =>
       if bool_decide (cell.2 = "") then objects
       else
         let parsedId := parseInt cell.2 in
         if isNaN parsedId || bool_decide (cell.1 = "__proto__") then objects
         else <[cell.1 := parsedId]> objects)
    (zip (tail headers) (tail values)) ∅.

(** [parseCsvFile] on the content of the file. A row whose number of cells
    differs from that of the header is skipped. *)
Definition parseCsvFile (csvContent : string) : outcome (list stationData) :=
  let lines := split "010" (trim csvContent) in
  if (length lines <? 2)%nat then
    Throw (Error "CSV file must have at least header and one data row")
  else
    let headers := readCells (hd "" lines) in
    Return
      (omap
         (fun line =>
            let values := readCells line in
            if (length values =? length headers)%nat
            then Some {| name := hd "" values;
                         objects := readObjects headers values |}
            else None)
         (tail lines)).

(** *** Writing a table as CSV *)

Definition writeCell (objectId : option N) : string :=
  from_option toString "" objectId.

Definition writeLine (cells : list string) : string :=
  String.concat "," cells.

(** A header line and one line for each station: its name, then the id of
    each object type or nothing. *)
Definition writeCsv (headers : list string)
    (rows : list (string * list (option N))) : string :=
  String.concat (String "010" "")
    (writeLine headers
     :: map (fun row => writeLine (row.1 :: map writeCell row.2)) rows).

(** [c] does not occur in [s]. *)
Fixpoint free (c : ascii) (s : string) : Prop :=
  match s with
  | EmptyString => True
  | String a r => a <> c /\ free c r
  end.

(** A header or a station name that survives the reading: not empty, no
    comma, no line feed, no white space around it. *)
Definition plain (s : string) : Prop :=
  s <> "" /\ trim s = s /\ free "," s /\ free "010" s.

(** The objects a row of the table stands for. *)
Definition tableObjects (types : list string) (ids : list (option N))
    : gmap string number :=
  fold_left
    (fun objects cell =>
       match cell.2 with
       | Some objectId => <[cell.1 := ofZ (Z.of_N objectId)]> objects
       | None => objects
       end)
    (zip types ids) ∅.

(** Every id of the table is a safe integer. *)
Definition safeRow (ids : list (option N)) : Prop :=
  Forall (fun objectId => from_option isSafeInteger True objectId) ids.

(** The last character of [s] is no white space, or [s] is empty. *)
Fixpoint endsClean (s : string) : bool :=
  match s with
  | EmptyString => true
  | String c r =>
      match r with
      | EmptyString => negb (isWhiteSpace c)
      | _ => endsClean r
      end
  end.

(** The first character of [s] is no white space, or [s] is empty. *)
Definition startsClean (s : string) : bool :=
  match s with
  | EmptyString => true
  | String c _ => negb (isWhiteSpace c)
  end.

End CsvImport.

(** ** Station records (src/unnamed/part_001) *)

Module StationStore.
Import ApiDataFetcher.

(** The table of stations is a map from the name, which is unique in it,
    to the record: a name, and maybe an address and a scene; the [ip] of a
    record is not used. *)

(** [field ? field.trim() : null] *)
Definition trimmed (field : option string) : option string :=
  if present field then CsvImport.trim <$> field else None.

(** [findOrCreateStation]: the record it returns and the table after it.
    The monitors pass their configuration, whose address is under [ip]. A
    station without a name is looked up under the empty name and, when
    there is none, not accepted by the store, whose error is not part of
    the source. *)
Definition findOrCreateStation (config : stationConfig)
    (stations : gmap string stationConfig)
    : outcome (stationConfig * gmap string stationConfig) :=
  let key := default "" (trimmed (name config)) in
  match stations !! key with
  | Some station =>
      let needsUpdate :=
        negb (bool_decide (ipAddress station = trimmed (ip config)))
        || negb (bool_decide (scene station = trimmed (scene config))) in
      if needsUpdate then
        let station :=
          {| name := name station; ipAddress := trimmed (ip config);
             ip := ip station; scene := trimmed (scene config) |} in
        Return (station, <[key := station]> stations)
      else Return (station, stations)
  | None =>
      match trimmed (name config) with
      | Some stationName =>
          let station :=
            {| name := Some stationName; ipAddress := trimmed (ip config);
               ip := None; scene := trimmed (scene config) |} in
          Return (station, <[stationName := station]> stations)
      | None => Throw (Error "Argument name must not be null")
      end
  end.

(** A field as the store holds it after this code wrote it: null, or text
    that is not empty and has no white space around it. *)
Definition settled (field : option string) : Prop :=
  match field with
  | Some text => text <> "" /\ CsvImport.trim text = text
  | None => True
  end.

End StationStore.

(** ** Leaving and re-entering a session *)

Module Lifecycle.

(** [StationMonitor.disconnect] (src/unnamed/part_007):
    [if (this.ws) { this.ws.close(); this.ws = null; this.isConnected = false;
    this.USID = null }]. Without a socket the three fields already have
    these values. The socket that is closed still delivers its [close]
    event, to the handler [connect] installed on it. *)
Definition disconnect (s : Session.t) : Session.t :=
  {| Session.phase_of := Session.phase_of s; Session.wsOpen := false;
     Session.USID := None; Session.isConnected := false;
     Session.reconnectAttempts := Session.reconnectAttempts s;
     Session.sent := Session.sent s; Session.accepted := Session.accepted s;
     Session.reconnectTimers := Session.reconnectTimers s |}.

(** [ChiangMaiClient.loadMonitoredObjects] as [setUpSession] calls it on
    every connection, the first and each reconnection: the monitored
    objects, the labels and the meter data are set anew, the rest of the
    client stays. *)
Definition reloadMonitoredObjects
    (stored : option (outcome ChiangMaiClient.monitoredData))
    (c : ChiangMaiClient.t) : ChiangMaiClient.t :=
  let loaded := ChiangMaiClient.loadMonitoredObjects stored in
  {| ChiangMaiClient.monitoredObjects := ChiangMaiClient.monitoredObjects loaded;
     ChiangMaiClient.objectLabels := ChiangMaiClient.objectLabels loaded;
     ChiangMaiClient.meterData := ChiangMaiClient.meterData loaded;
     ChiangMaiClient.database := ChiangMaiClient.database loaded;
     ChiangMaiClient.lastDbSave := ChiangMaiClient.lastDbSave c;
     ChiangMaiClient.dbSaveInterval := ChiangMaiClient.dbSaveInterval c;
     ChiangMaiClient.written := ChiangMaiClient.written c;
     ChiangMaiClient.warned := ChiangMaiClient.warned c |}.

(** The events of a trace come at times that do not decrease, none before
    [start]. *)
Fixpoint inOrder (start : Z) (trace : list (Z * Session.event)) : Prop :=
  match trace with
  | [] => True
  | e :: rest => (start <= e.1)%Z /\ inOrder e.1 rest
  end.

(** How far a handshake can be at [clock] on a socket that opened at
    [start]: request [k] is not written before [start + 1000 (k + 1)], since
    every request waits for its one-second timer and for the answer to the
    request before it. *)
Definition onSchedule (start clock : Z) (s : Session.t) : Prop :=
  (start <= clock)%Z
  /\ match Session.phase_of s with
     | Session.Sending k since =>
         (start + 1000 * Z.of_nat k <= since <= clock)%Z
     | Session.Waiting k since =>
         (start + 1000 * Z.of_nat (S k) <= since <= clock)%Z
     | Session.Monitoring => (start + 8000 <= clock)%Z
     | _ => True
     end.

(** The time of the last event of a trace that begins at [start]. *)
Definition endTime (start : Z) (trace : list (Z * Session.event)) : Z :=
  fold_left (fun _ e => e.1) trace start.

(** A handshake of the client could still act on a socket that opens now:
    it is inside [sendData], whose timer will write to whatever socket the
    client then has, or it waits for an answer on a socket that is still
    open. A wait on a socket that has closed gets no answer any more. *)
Definition carriesOver (s : Session.t) : bool :=
  match Session.phase_of s with
  | Session.Sending _ _ => true
  | Session.Waiting _ _ => Session.wsOpen s
  | _ => false
  end.

(** No socket of the trace opens on a client whose handshake carries
    over: the handshakes of the run are apart, one socket each. *)
Fixpoint apart (c : Session.client) (s : Session.t)
    (trace : list (Z * Session.event)) : Prop :=
  match trace with
  | [] => True
  | e :: rest =>
      (e.2 = Session.Open ->
       carriesOver (Session.advance c e.1 s) = false)
      /\ apart c (Session.step c s e) rest
  end.

End Lifecycle.

(** ** The store as the Chiang Mai client finds it *)

Module ChiangMaiSpec.
Import ChiangMaiClient.

(** What [loadMonitoredObjects] gets from the store: nothing without a
    database service or station record, else the completion of
    [getStationMonitoredObjects] on the rows the query returns or the
    exception of the query. *)
Definition stored (rows : option (outcome (list (string * N))))
    : option (outcome monitoredData) :=
  match rows with
  | Some (Return rows) => Some (Return (getStationMonitoredObjects rows))
  | Some (Throw e) => Some (Throw e)
  | None => None
  end.

(** No type name of the rows is one under which [Object.prototype] has a
    member, so that [setupObjectLabels] makes a text of each. *)
Definition plainTypes (rows : list (string * N)) : Prop :=
  Forall (fun row => row.1 ∉ objectPrototype) rows.

(** [displayData] finds a text for every entry of the meter data: every
    label of the client is one, and no key of the meter data is a name
    under which [Object.prototype] has a member. *)
Definition labelled (c : t) : Prop :=
  (forall k, objectLabels c !! k <> Some Inherited)
  /\ forall k, is_Some (meterData c !! k) -> k ∉ objectPrototype.

(** Two clients that differ at most in the order and number of their
    monitored objects and in the text of their labels. *)
Definition alike (c1 c2 : t) : Prop :=
  (forall id, id ∈ monitoredObjects c1 <-> id ∈ monitoredObjects c2)
  /\ labelled c1 /\ labelled c2
  /\ meterData c1 = meterData c2 /\ database c1 = database c2
  /\ lastDbSave c1 = lastDbSave c2
  /\ dbSaveInterval c1 = dbSaveInterval c2
  /\ written c1 = written c2.

End ChiangMaiSpec.

(** ** The rows of an API station *)

Module ApiRows.
Import DatabaseService.

(** A JSON value as the column value it is: [transformApiData] leaves null
    or a number in every property of its result. *)
Definition valueOf (v : json) : option dbvalue :=
  match v with
  | JNull => Some Null
  | JNum q => Some (Num (Finite q))
  | _ => None
  end.

(** [powerData] is the object [transformedData], read as the [powerData] of
    the reading that [ApiDataFetcher.saveToDatabase] hands to
    [createPowerReading]. An object that holds an infinity has no such
    reading. *)
Definition sameObject (powerData : gmap string json)
    (transformedData : gmap string dbvalue) : Prop :=
  Some <$> transformedData = valueOf <$> powerData.

End ApiRows.

(** * Properties *)

Open Scope list_scope.

(** ** Object ids as property names *)

Lemma Return_inj {A} (a b : A) : Return a = Return b -> a = b.
Proof. congruence. Qed.

Section ToString.

Lemma toString_inj (n m : N) : toString n = toString m -> n = m.
Proof.
  unfold toString. intros H.
  apply DecimalN.Unsigned.to_uint_inj.
  pose proof (NilEmpty.usu (N.to_uint n)) as Hn.
  pose proof (NilEmpty.usu (N.to_uint m)) as Hm.
  rewrite H in Hn. congruence.
Qed.

(** A string that does not read as a decimal numeral is no object id. *)
Lemma toString_numeral (n : N) (s : string) :
  NilEmpty.uint_of_string s = None -> toString n <> s.
Proof.
  unfold toString. intros Hs Heq.
  pose proof (NilEmpty.usu (N.to_uint n)) as Hn.
  rewrite Heq in Hn. congruence.
Qed.

Lemma toString_hasOwnProperty (n : N) : toString n <> "hasOwnProperty".
Proof. by apply toString_numeral. Qed.

End ToString.

(** ** The tests of the repository *)

Section RepositoryTests.
Import DatabaseService.

(** The data-mapping test: every expected column holds the expected
    value, and nothing else is set. *)
Example ranong_data_mapping :
  transformPowerData (Object Sample.ranongData)
  = Return (list_to_map Sample.expectedMappings).
Proof. vm_compute. reflexivity. Qed.

(** The alternative ids of the other stations, from the same test. *)
Example alternative_ids :
  transformPowerData (Object {[ "18053" := JNum (Sample.dec 2299640 2) ]})
  = Return {[ "muxPower6" := Num (Finite (Sample.dec 2299640 2)) ]}
  /\ transformPowerData (Object {[ "75432" := JNum (Sample.dec 4285750 2) ]})
     = Return {[ "muxPower5" := Num (Finite (Sample.dec 4285750 2)) ]}
  /\ transformPowerData (Object {[ "75483" := JNum (Sample.dec 7548300 2) ]})
     = Return {[ "muxPower5" := Num (Finite (Sample.dec 7548300 2)) ]}
  /\ transformPowerData (Object {[ "75484" := JNum (Sample.dec 7548400 2) ]})
     = Return {[ "muxPower6" := Num (Finite (Sample.dec 7548400 2)) ]}.
Proof. repeat split; vm_compute; reflexivity. Qed.

Lemma finite_eq (x : number) (q : Qc) :
  match x with Finite p => Qeq_bool p q | _ => false end = true ->
  x = Finite q.
Proof.
  destruct x as [p| |]; try discriminate. intros H.
  f_equal. apply Qc_is_canon. by apply Qeq_bool_iff.
Qed.

(** Values arrive as numbers or as text; text is read by [parseFloat]. *)
Example parseFloat_samples :
  parseFloat (JStr "12.5") = Return (Finite (Sample.dec 125 1))
  /\ parseFloat (JStr "  -3e2 W") = Return (Finite (Sample.dec (-300) 0))
  /\ parseFloat (JStr "bad") = Return NaN
  /\ parseFloat (JStr "") = Return NaN
  /\ parseFloat JNull = Return NaN
  /\ parseFloat (JStr "Infinity") = Return (Infinity false)
  /\ parseFloat (JStr (String "160" "7")) = Return (Finite (Sample.dec 7 0))
  /\ parseFloat (JStr "1e999") = Return (Infinity false)
  /\ parseFloat (JObj {[ "toString" := Sample.num 1 ]})
     = Throw (TypeError "Cannot convert object to primitive value").
Proof.
  repeat split; try (vm_compute; reflexivity);
    (apply (f_equal Return), finite_eq; vm_compute; reflexivity).
Qed.

(** Numerals are read as the nearest double. *)
Example parseInt_samples :
  parseInt "8684" = ofZ 8684
  /\ parseInt " 0x1F" = ofZ 31
  /\ parseInt "9007199254740993" = ofZ 9007199254740992
  /\ parseInt "1e+21" = ofZ 1
  /\ parseInt "id" = NaN.
Proof.
  repeat split; try (vm_compute; reflexivity);
    (apply finite_eq; vm_compute; reflexivity).
Qed.

End RepositoryTests.

(** ** transformPowerData *)

Section Transform.
Import DatabaseService Resolution.

Lemma toColumn_Some v :
  toColumn (Some v)
  = if unprintable v
    then Throw (TypeError "Cannot convert object to primitive value")
    else Return (columnOf v).
Proof.
  unfold toColumn, parseFloat, columnOf. cbn [from_option].
  by destruct (unprintable v).
Qed.

Lemma readable_cons powerData entry entries :
  readable powerData (entry :: entries) -> readable powerData entries.
Proof.
  intros [Hown Hprint]. split; [done|].
  intros id field v Hin. apply (Hprint id field v). by right.
Qed.

Lemma readable_app powerData xs ys :
  readable powerData (xs ++ ys)
  <-> readable powerData xs /\ readable powerData ys.
Proof.
  unfold readable. split.
  - intros [Hown Hprint]. repeat split; try done.
    + intros id field v Hin. apply (Hprint id field v).
      apply elem_of_app. by left.
    + intros id field v Hin. apply (Hprint id field v).
      apply elem_of_app. by right.
  - intros [[Hown Hxs] [_ Hys]]. split; [done|].
    intros id field v [Hin|Hin]%elem_of_app; eauto.
Qed.

Lemma transformEntries_Return powerData entries dbData :
  readable powerData entries ->
  transformEntries powerData entries dbData
  = Return (foldEntries powerData entries dbData).
Proof.
  revert dbData.
  induction entries as [|[id field] rest IH]; intros dbData Hread; [done|].
  pose proof Hread as [Hown Hprint].
  cbn [transformEntries]. unfold hasOwnProperty. rewrite Hown.
  cbn [mbind outcome_bind Js.bind].
  unfold foldEntries. cbn [fold_left fst snd].
  destruct (powerData !! id) as [v|] eqn:Hid.
  - rewrite bool_decide_eq_true_2 by eauto.
    rewrite toColumn_Some, (Hprint id field v) by (done || by left).
    cbn [mbind outcome_bind Js.bind].
    apply IH. by eapply readable_cons.
  - rewrite bool_decide_eq_false_2 by (intros [? ?]; done).
    apply IH. by eapply readable_cons.
Qed.

(** When the loop completes it has done what the fold does. *)
Lemma transformEntries_inv powerData entries dbData result :
  transformEntries powerData entries dbData = Return result ->
  result = foldEntries powerData entries dbData.
Proof.
  revert dbData.
  induction entries as [|[id field] rest IH]; intros dbData.
  { cbn. by intros [= <-]. }
  cbn [transformEntries]. unfold hasOwnProperty.
  destruct (powerData !! "hasOwnProperty"); [done|].
  cbn [mbind outcome_bind Js.bind].
  unfold foldEntries. cbn [fold_left fst snd].
  destruct (powerData !! id) as [v|] eqn:Hid.
  - rewrite bool_decide_eq_true_2 by eauto.
    rewrite toColumn_Some. destruct (unprintable v); [done|].
    cbn [mbind outcome_bind Js.bind]. apply IH.
  - rewrite bool_decide_eq_false_2 by (intros [? ?]; done). apply IH.
Qed.

Lemma transformEntries_Throw powerData entry entries dbData :
  is_Some (powerData !! "hasOwnProperty") ->
  exists e, transformEntries powerData (entry :: entries) dbData = Throw e.
Proof.
  intros [v Hown]. destruct entry as [id field].
  cbn [transformEntries]. unfold hasOwnProperty. rewrite Hown.
  by eexists.
Qed.

(** A property that the loop reads and that does not print makes it
    throw. *)
Lemma transformEntries_unprintable powerData entries dbData id field v :
  (id, field) ∈ entries -> powerData !! id = Some v ->
  unprintable v = true ->
  exists e, transformEntries powerData entries dbData = Throw e.
Proof.
  revert dbData.
  induction entries as [|[id' field'] rest IH]; intros dbData Hin Hid Hv.
  { by apply elem_of_nil in Hin. }
  cbn [transformEntries]. unfold hasOwnProperty.
  destruct (powerData !! "hasOwnProperty"); [by eexists|].
  cbn [mbind outcome_bind Js.bind].
  apply elem_of_cons in Hin as [[= <- <-]|Hin].
  - rewrite bool_decide_eq_true_2 by eauto.
    rewrite Hid, toColumn_Some, Hv. by eexists.
  - destruct (bool_decide (is_Some (powerData !! id'))); [|by eapply IH].
    destruct (toColumn (powerData !! id')); [|by eexists].
    cbn [mbind outcome_bind Js.bind]. by eapply IH.
Qed.

Lemma foldEntries_app powerData xs ys dbData :
  foldEntries powerData (xs ++ ys) dbData
  = foldEntries powerData ys (foldEntries powerData xs dbData).
Proof. unfold foldEntries. by rewrite fold_left_app. Qed.

Lemma transformPowerData_Return powerData :
  readable powerData tables ->
  transformPowerData (Object powerData)
  = Return (foldEntries powerData tables ∅).
Proof.
  unfold tables. intros [Hactive [Hmux Hdirect]%readable_app]%readable_app.
  unfold transformPowerData.
  rewrite !foldEntries_app.
  rewrite (transformEntries_Return _ activePowerMap) by done.
  cbn [mbind outcome_bind Js.bind].
  rewrite (transformEntries_Return _ muxPowerMap) by done.
  cbn [mbind outcome_bind Js.bind].
  by rewrite transformEntries_Return.
Qed.

Lemma transformPowerData_inv powerData dbData :
  transformPowerData (Object powerData) = Return dbData ->
  dbData = foldEntries powerData tables ∅.
Proof.
  unfold transformPowerData, tables. rewrite !foldEntries_app.
  destruct (transformEntries powerData activePowerMap ∅) as [d1|] eqn:H1;
    [|done].
  apply transformEntries_inv in H1 as ->.
  cbn [mbind outcome_bind Js.bind].
  destruct (transformEntries powerData muxPowerMap _) as [d2|] eqn:H2;
    [|done].
  apply transformEntries_inv in H2 as ->.
  cbn [mbind outcome_bind Js.bind].
  apply transformEntries_inv.
Qed.

Lemma transformPowerData_Throw powerData :
  is_Some (powerData !! "hasOwnProperty") ->
  exists e, transformPowerData (Object powerData) = Throw e.
Proof.
  intros Hown. unfold transformPowerData, activePowerMap.
  destruct (transformEntries_Throw powerData ("8684", "activePower1")
    [ ("8685", "activePower2"); ("8686", "activePower3");
      ("8687", "activePower4"); ("8688", "activePower5");
      ("8689", "activePower6") ] ∅ Hown) as [e ->].
  by eexists.
Qed.

Lemma transformPowerData_unprintable powerData id field v :
  (id, field) ∈ tables -> powerData !! id = Some v ->
  unprintable v = true ->
  exists e, transformPowerData (Object powerData) = Throw e.
Proof.
  unfold tables, transformPowerData.
  intros [Hin|[Hin|Hin]%elem_of_app]%elem_of_app Hid Hv.
  - destruct (transformEntries_unprintable powerData activePowerMap ∅
                id field v Hin Hid Hv) as [e ->].
    by eexists.
  - destruct (transformEntries powerData activePowerMap ∅) as [d1|];
      [|by eexists].
    cbn [mbind outcome_bind Js.bind].
    destruct (transformEntries_unprintable powerData muxPowerMap d1
                id field v Hin Hid Hv) as [e ->].
    by eexists.
  - destruct (transformEntries powerData activePowerMap ∅) as [d1|];
      [|by eexists].
    cbn [mbind outcome_bind Js.bind].
    destruct (transformEntries powerData muxPowerMap d1) as [d2|];
      [|by eexists].
    cbn [mbind outcome_bind Js.bind].
    by eapply transformEntries_unprintable.
Qed.

(** The transformation completes exactly on the readable data. *)
Lemma transformPowerData_readable powerData :
  readable powerData tables
  <-> exists dbData, transformPowerData (Object powerData) = Return dbData.
Proof.
  split.
  - intros Hread. eexists. by apply transformPowerData_Return.
  - intros [dbData Hdb]. split.
    + destruct (powerData !! "hasOwnProperty") eqn:Hown; [|done].
      destruct (transformPowerData_Throw powerData) as [e He]; [eauto|].
      congruence.
    + intros id field v Hin Hid.
      destruct (unprintable v) eqn:Hv; [|done].
      destruct (transformPowerData_unprintable powerData id field v)
        as [e He]; try done.
      congruence.
Qed.

(** A column holds what the last entry claiming it supplies. *)
Lemma foldEntries_lookup powerData entries dbData field :
  foldEntries powerData entries dbData !! field
  = match claimed powerData entries field with
    | Some v => Some (columnOf v)
    | None => dbData !! field
    end.
Proof.
  revert dbData.
  induction entries as [|[id g] rest IH]; intros dbData; [done|].
  change (foldEntries powerData ((id, g) :: rest) dbData)
    with (foldEntries powerData rest
            (match powerData !! id with
             | Some v => <[g := columnOf v]> dbData
             | None => dbData
             end)).
  rewrite IH. cbn [claimed fst snd].
  destruct (claimed powerData rest field) as [v|]; [done|].
  case_bool_decide as Hg.
  - subst g. destruct (powerData !! id) as [v|]; [|done].
    by rewrite lookup_insert_eq.
  - destruct (powerData !! id) as [v|]; [|done].
    by rewrite lookup_insert_ne.
Qed.

(** A property no entry reads does not matter. *)
Lemma foldEntries_insert_unread powerData entries dbData k v :
  k ∉ map fst entries ->
  foldEntries (<[k := v]> powerData) entries dbData
  = foldEntries powerData entries dbData.
Proof.
  revert dbData.
  induction entries as [|[id g] rest IH]; intros dbData Hk; [done|].
  cbn in Hk. apply not_elem_of_cons in Hk as [Hne Hk].
  unfold foldEntries in *. cbn [fold_left fst snd].
  rewrite lookup_insert_ne by done. by apply IH.
Qed.

(** Only columns of the entries are written. *)
Lemma foldEntries_columns powerData entries dbData field :
  field ∉ map snd entries ->
  foldEntries powerData entries dbData !! field = dbData !! field.
Proof.
  intros Hf. rewrite foldEntries_lookup.
  assert (claimed powerData entries field = None) as ->; [|done].
  induction entries as [|[id g] rest IH]; [done|].
  cbn in Hf. apply not_elem_of_cons in Hf as [Hne Hf].
  cbn [claimed fst snd]. rewrite IH by done.
  by rewrite bool_decide_eq_false_2.
Qed.

End Transform.

(** ** The update loop *)

Section UpdateValues.
Import RunSpec.

Lemma updateValues_Throw syncData id rest buffer changed :
  is_Some (syncData !! "hasOwnProperty") ->
  exists e, updateValues syncData (id :: rest) buffer changed = Throw e.
Proof.
  intros [v Hown]. cbn [updateValues]. unfold hasOwnProperty.
  rewrite Hown. by eexists.
Qed.

(** Without the shadowing property the loop is a plain fold. *)
Lemma updateValues_cons syncData id rest buffer changed :
  syncData !! "hasOwnProperty" = None ->
  updateValues syncData (id :: rest) buffer changed
  = match syncData !! toString id with
    | Some newValue =>
        if strictNe (buffer !! toString id) newValue
        then updateValues syncData rest (<[toString id := newValue]> buffer) true
        else updateValues syncData rest buffer changed
    | None => updateValues syncData rest buffer changed
    end.
Proof.
  intros Hown. cbn [updateValues]. unfold hasOwnProperty. rewrite Hown.
  cbn. destruct (syncData !! toString id) as [v|]; [|done].
  by rewrite bool_decide_eq_true_2.
Qed.

Lemma updateValues_Return syncData monitoredObjects buffer changed :
  syncData !! "hasOwnProperty" = None ->
  exists buffer' changed',
    updateValues syncData monitoredObjects buffer changed
    = Return (buffer', changed').
Proof.
  intros Hown. revert buffer changed.
  induction monitoredObjects as [|id rest IH]; intros buffer changed.
  - by eexists _, _.
  - rewrite updateValues_cons by done.
    destruct (syncData !! toString id) as [v|]; [|apply IH].
    destruct (strictNe _ _); apply IH.
Qed.

(** No monitored value differs: nothing is stored, the flag is kept. *)
Lemma updateValues_unchanged syncData monitoredObjects buffer changed :
  syncData !! "hasOwnProperty" = None ->
  (forall id v, id ∈ monitoredObjects -> syncData !! toString id = Some v ->
                strictNe (buffer !! toString id) v = false) ->
  updateValues syncData monitoredObjects buffer changed
  = Return (buffer, changed).
Proof.
  intros Hown. induction monitoredObjects as [|id rest IH]; intros Hsame.
  - done.
  - rewrite updateValues_cons by done.
    destruct (syncData !! toString id) as [v|] eqn:Hid.
    + rewrite (Hsame id v) by (done || apply list_elem_of_here).
      apply IH. intros id' v' Hin. apply Hsame. by apply list_elem_of_further.
    + apply IH. intros id' v' Hin. apply Hsame. by apply list_elem_of_further.
Qed.

(** Some monitored value differs, or the flag was set: the flag is set. *)
Lemma updateValues_changed syncData monitoredObjects buffer changed :
  syncData !! "hasOwnProperty" = None ->
  changed = true \/
    (exists id v, id ∈ monitoredObjects /\ syncData !! toString id = Some v /\
                  strictNe (buffer !! toString id) v = true) ->
  exists buffer',
    updateValues syncData monitoredObjects buffer changed
    = Return (buffer', true).
Proof.
  intros Hown. revert buffer changed.
  induction monitoredObjects as [|id rest IH]; intros buffer changed Hch.
  - destruct Hch as [->|(id & v & Hin & _)]; [by eexists|].
    by apply elem_of_nil in Hin.
  - rewrite updateValues_cons by done.
    destruct (syncData !! toString id) as [v|] eqn:Hid.
    + destruct (strictNe (buffer !! toString id) v) eqn:Hne.
      * apply IH. by left.
      * apply IH. destruct Hch as [->|(id' & v' & Hin & Hv' & Hne')]; [by left|].
        right. apply elem_of_cons in Hin as [->|Hin]; [congruence|].
        by exists id', v'.
    + apply IH. destruct Hch as [->|(id' & v' & Hin & Hv' & Hne')]; [by left|].
      right. apply elem_of_cons in Hin as [->|Hin]; [congruence|].
      by exists id', v'.
Qed.

(** Only properties named by monitored ids are stored. *)
Lemma updateValues_other syncData monitoredObjects buffer changed
      buffer' changed' k :
  updateValues syncData monitoredObjects buffer changed
    = Return (buffer', changed') ->
  (forall id, id ∈ monitoredObjects -> toString id <> k) ->
  buffer' !! k = buffer !! k.
Proof.
  revert buffer changed.
  induction monitoredObjects as [|id rest IH]; intros buffer changed Hrun Hk.
  - cbn in Hrun. congruence.
  - cbn [updateValues] in Hrun.
    destruct (hasOwnProperty syncData (toString id)) as [has|] eqn:Hhas;
      [|done].
    cbn in Hrun.
    assert (forall id', id' ∈ rest -> toString id' <> k) as Hrest
      by (intros; apply Hk; by apply list_elem_of_further).
    destruct (syncData !! toString id) as [v|].
    + destruct (has && strictNe (buffer !! toString id) v).
      * rewrite (IH _ _ Hrun Hrest).
        apply lookup_insert_ne, Hk, list_elem_of_here.
      * by apply (IH _ _ Hrun).
    + by apply (IH _ _ Hrun).
Qed.

Lemma updateValues_keeps_method syncData monitoredObjects buffer changed
      buffer' changed' :
  updateValues syncData monitoredObjects buffer changed
    = Return (buffer', changed') ->
  buffer !! "hasOwnProperty" = None ->
  buffer' !! "hasOwnProperty" = None.
Proof.
  intros Hrun Hown. rewrite <- Hown.
  eapply updateValues_other; [done|].
  intros id _. apply toString_hasOwnProperty.
Qed.

(** A property of the frame that no monitored id names is never read. *)
Lemma updateValues_insert_unread syncData monitoredObjects buffer changed n v :
  n ∉ monitoredObjects ->
  updateValues (<[toString n := v]> syncData) monitoredObjects buffer changed
  = updateValues syncData monitoredObjects buffer changed.
Proof.
  revert buffer changed.
  induction monitoredObjects as [|id rest IH]; intros buffer changed Hn;
    [done|].
  apply not_elem_of_cons in Hn as [Hne Hn].
  assert (toString n <> toString id) as Hkey
    by (intros H; apply Hne; by apply toString_inj).
  cbn [updateValues]. unfold hasOwnProperty.
  rewrite !lookup_insert_ne by (done || apply toString_hasOwnProperty).
  destruct (syncData !! "hasOwnProperty"); [done|].
  cbn. destruct (syncData !! toString id) as [w|]; [|by apply IH].
  destruct (_ && _); by apply IH.
Qed.

Lemma strictNe_false old v : strictNe old v = false -> old = Some v.
Proof.
  destruct old as [[]|], v; cbn; try done; intros H;
    apply negb_false_iff, bool_decide_eq_true in H; by subst.
Qed.

Lemma merged_cons_eq id rest syncData buffer :
  merged (id :: rest) syncData buffer (toString id)
  = match syncData !! toString id with
    | Some v => Some v
    | None => buffer !! toString id
    end.
Proof.
  unfold merged. cbn [map].
  by rewrite (bool_decide_eq_true_2 (toString id ∈ toString id :: _))
    by apply list_elem_of_here.
Qed.

Lemma merged_cons_ne id rest syncData buffer k :
  k <> toString id ->
  merged (id :: rest) syncData buffer k = merged rest syncData buffer k.
Proof.
  intros Hk. unfold merged. cbn [map].
  destruct (bool_decide (k ∈ map toString rest)) eqn:Hin.
  - apply bool_decide_eq_true in Hin.
    by rewrite bool_decide_eq_true_2 by by apply list_elem_of_further.
  - apply bool_decide_eq_false in Hin.
    rewrite bool_decide_eq_false_2; [done|].
    intros Hin'. apply elem_of_cons in Hin' as [?|?]; done.
Qed.

(** What the loop leaves in the buffer. *)
Lemma updateValues_lookup syncData monitoredObjects buffer changed
      buffer' changed' k :
  updateValues syncData monitoredObjects buffer changed
    = Return (buffer', changed') ->
  buffer' !! k = merged monitoredObjects syncData buffer k.
Proof.
  revert buffer changed.
  induction monitoredObjects as [|id rest IH]; intros buffer changed Hrun.
  - cbn in Hrun. apply Return_inj in Hrun. by injection Hrun as <- _.
  - destruct (syncData !! "hasOwnProperty") as [w|] eqn:Hown.
    { destruct (updateValues_Throw syncData id rest buffer changed) as [e He];
        [by eexists|congruence]. }
    rewrite updateValues_cons in Hrun by done.
    destruct (syncData !! toString id) as [v|] eqn:Hv.
    + assert (exists buffer1 changed1,
                updateValues syncData rest buffer1 changed1
                  = Return (buffer', changed')
                /\ buffer1 !! toString id = Some v
                /\ forall j, j <> toString id -> buffer1 !! j = buffer !! j)
        as (buffer1 & changed1 & Hrun1 & Hid & Hother).
      { destruct (strictNe _ _) eqn:Hne.
        - eexists _, _. split; [exact Hrun|].
          split; [by rewrite lookup_insert_eq|].
          intros j Hj. by rewrite lookup_insert_ne.
        - eexists _, _. split; [exact Hrun|].
          split; [by apply strictNe_false|done]. }
      rewrite (IH _ _ Hrun1).
      destruct (decide (k = toString id)) as [->|Hk].
      * rewrite merged_cons_eq, Hv. unfold merged. rewrite Hv, Hid.
        by destruct (bool_decide _).
      * rewrite merged_cons_ne by done. unfold merged.
        by rewrite (Hother k Hk).
    + rewrite (IH _ _ Hrun).
      destruct (decide (k = toString id)) as [->|Hk].
      * rewrite merged_cons_eq, Hv. unfold merged. rewrite Hv.
        by destruct (bool_decide _).
      * by rewrite merged_cons_ne.
Qed.

(** The flag never falls. *)
Lemma updateValues_flag syncData monitoredObjects buffer buffer' changed' :
  updateValues syncData monitoredObjects buffer true
    = Return (buffer', changed') ->
  changed' = true.
Proof.
  intros Hrun.
  destruct (syncData !! "hasOwnProperty") as [w|] eqn:Hown.
  - destruct monitoredObjects as [|id rest].
    + cbn in Hrun. congruence.
    + destruct (updateValues_Throw syncData id rest buffer true) as [e He];
        [by eexists|congruence].
  - destruct (updateValues_changed syncData monitoredObjects buffer true
                Hown (or_introl eq_refl)) as [b Hb].
    congruence.
Qed.

(** The loop leaves the flag down only when no monitored value differs. *)
Lemma updateValues_false syncData monitoredObjects buffer buffer' :
  updateValues syncData monitoredObjects buffer false
    = Return (buffer', false) ->
  forall id v, id ∈ monitoredObjects -> syncData !! toString id = Some v ->
               strictNe (buffer !! toString id) v = false.
Proof.
  induction monitoredObjects as [|a rest IH]; intros Hrun id v Hin Hv.
  { by apply elem_of_nil in Hin. }
  destruct (syncData !! "hasOwnProperty") as [w|] eqn:Hown.
  { destruct (updateValues_Throw syncData a rest buffer false) as [e He];
      [by eexists|congruence]. }
  rewrite updateValues_cons in Hrun by done.
  destruct (syncData !! toString a) as [va|] eqn:Ha.
  - destruct (strictNe (buffer !! toString a) va) eqn:Hne.
    + apply updateValues_flag in Hrun. discriminate.
    + apply elem_of_cons in Hin as [->|Hin]; [congruence|by apply IH].
  - apply elem_of_cons in Hin as [->|Hin]; [congruence|by apply IH].
Qed.

(** The loop depends on which ids are monitored, not on their order or
    number. *)
Lemma updateValues_same_ids syncData ids1 ids2 buffer b1 c1 b2 c2 :
  (forall id, id ∈ ids1 <-> id ∈ ids2) ->
  updateValues syncData ids1 buffer false = Return (b1, c1) ->
  updateValues syncData ids2 buffer false = Return (b2, c2) ->
  b1 = b2 /\ c1 = c2.
Proof.
  intros Hids H1 H2.
  assert (forall ids ids' b b',
            (forall id, id ∈ ids <-> id ∈ ids') ->
            updateValues syncData ids buffer false = Return (b, true) ->
            updateValues syncData ids' buffer false = Return (b', false) ->
            False) as Hflag.
  { intros ids ids' b b' Hsame Hup Hdown.
    pose proof (updateValues_false _ _ _ _ Hdown) as Hrep.
    destruct (syncData !! "hasOwnProperty") as [w|] eqn:Hown.
    - destruct ids as [|id rest].
      + cbn in Hup. congruence.
      + destruct (updateValues_Throw syncData id rest buffer false)
          as [e He]; [by eexists|congruence].
    - rewrite (updateValues_unchanged syncData ids buffer false) in Hup;
        [congruence|done|].
      intros id v Hin. apply Hrep. by apply Hsame. }
  split.
  - apply map_eq. intros k.
    rewrite (updateValues_lookup _ _ _ _ _ _ k H1).
    rewrite (updateValues_lookup _ _ _ _ _ _ k H2).
    unfold merged.
    rewrite (bool_decide_ext (k ∈ map toString ids1)
               (k ∈ map toString ids2)); [done|].
    rewrite !list_elem_of_In, !in_map_iff.
    split; intros (id & Hk & Hin); exists id; (split; [done|]);
      apply list_elem_of_In; apply Hids; by apply list_elem_of_In.
  - destruct c1, c2; try done.
    + exfalso. by eapply (Hflag ids1 ids2).
    + exfalso. eapply (Hflag ids2 ids1); [|done..].
      intros id. by rewrite Hids.
Qed.

End UpdateValues.

(** ** Unknown object ids *)

Section UnknownIds.
Import DatabaseService Resolution.

Lemma columns_not_numerals :
  Forall (fun field => NilEmpty.uint_of_string field = None)
         (map snd tables).
Proof. repeat constructor. Qed.

Lemma toString_not_column (n : N) : toString n ∉ map snd tables.
Proof.
  intros Hin. pose proof columns_not_numerals as Hall.
  rewrite Forall_forall in Hall.
  apply (toString_numeral n (toString n)); [|done].
  by apply Hall, list_elem_of_In.
Qed.

Lemma toString_not_direct (n : N) :
  toString n ∉ map fst (map (fun f : string => (f, f)) directFields).
Proof.
  intros Hin. apply (toString_not_column n). unfold tables.
  rewrite !map_app, !elem_of_app. right. right.
  by rewrite map_map in *.
Qed.

Lemma saveToDatabase_withSync syncData f m :
  StationMonitor.saveToDatabase (withSync syncData f) m
  = StationMonitor.saveToDatabase f m.
Proof. done. Qed.

Lemma transformEntries_insert_unread powerData entries dbData k v :
  k <> "hasOwnProperty" ->
  k ∉ map fst entries ->
  transformEntries (<[k := v]> powerData) entries dbData
  = transformEntries powerData entries dbData.
Proof.
  intros Hk. revert dbData.
  induction entries as [|[id field] rest IH]; intros dbData Hunread; [done|].
  cbn in Hunread. apply not_elem_of_cons in Hunread as [Hne Hunread].
  cbn [transformEntries]. unfold hasOwnProperty.
  rewrite (lookup_insert_ne _ k "hasOwnProperty") by done.
  rewrite (lookup_insert_ne _ k id) by done.
  destruct (powerData !! "hasOwnProperty"); [done|].
  cbn [mbind outcome_bind Js.bind].
  destruct (bool_decide _); [|by apply IH].
  destruct (toColumn _); [|done].
  cbn [mbind outcome_bind Js.bind]. by apply IH.
Qed.

Lemma transformPowerData_insert_unread powerData k v :
  k <> "hasOwnProperty" ->
  k ∉ map fst tables ->
  transformPowerData (Object (<[k := v]> powerData))
  = transformPowerData (Object powerData).
Proof.
  unfold tables. rewrite !map_app, !not_elem_of_app.
  intros Hk (Hactive & Hmux & Hdirect).
  unfold transformPowerData.
  rewrite (transformEntries_insert_unread _ activePowerMap) by done.
  destruct (transformEntries powerData activePowerMap ∅) as [d1|]; [|done].
  cbn [mbind outcome_bind Js.bind].
  rewrite (transformEntries_insert_unread _ muxPowerMap) by done.
  destruct (transformEntries powerData muxPowerMap d1) as [d2|]; [|done].
  cbn [mbind outcome_bind Js.bind].
  by rewrite transformEntries_insert_unread.
Qed.

(** C5. A raw object id that is neither among the station's monitored
    objects nor in the id tables of [transformPowerData] leaves no trace:
    the monitor handles the frame exactly as it handles the frame without
    that id, the transformation completes in the same way with or without
    it (so its presence makes nothing fail), and no column of the reading
    is named by the id, null or otherwise. *)
Theorem unknown_id_is_dropped (m : StationMonitor.t) (f : frame)
    (powerData : gmap string json) (n : N) (v : json) :
  n ∉ StationMonitor.monitoredObjects m ->
  toString n ∉ map fst (activePowerMap ++ muxPowerMap) ->
  StationMonitor.onNotification m
    (withSync (<[toString n := v]> (syncData f)) f)
  = StationMonitor.onNotification m f
  /\ transformPowerData (Object (<[toString n := v]> powerData))
     = transformPowerData (Object powerData)
  /\ forall dbData,
       transformPowerData (Object (<[toString n := v]> powerData))
       = Return dbData ->
       dbData !! toString n = None.
Proof.
  intros Hmon Htab.
  assert (toString n ∉ map fst tables) as Hunread.
  { unfold tables. rewrite app_assoc, map_app, elem_of_app.
    intros [H|H]; [done|]. by apply (toString_not_direct n). }
  split; [|split].
  - unfold StationMonitor.onNotification, StationMonitor.updateData.
    cbn [syncData withSync now StationMonitor.monitoredObjects
         StationMonitor.dataBuffer].
    rewrite updateValues_insert_unread by done.
    destruct (updateValues (syncData f) _ _ _) as [[buffer changed]|e];
      done.
  - apply transformPowerData_insert_unread;
      [apply toString_hasOwnProperty|done].
  - intros dbData.
    rewrite transformPowerData_insert_unread
      by (done || apply toString_hasOwnProperty).
    intros ->%transformPowerData_inv.
    rewrite foldEntries_columns; [done|apply toString_not_column].
Qed.

Lemma unknown_id_is_dropped_witness :
  let m := StationMonitor.new StationMonitor.defaultMonitoredObjects true in
  let f := Sample.frameAt 0 {[ "8684" := Sample.num 5 ]} in
  StationMonitor.onNotification m
    (withSync (<[toString 99999 := JStr "x"]> (syncData f)) f)
  = StationMonitor.onNotification m f
  /\ transformPowerData (Object (<[toString 99999 := JStr "x"]> (syncData f)))
     = transformPowerData (Object (syncData f))
  /\ forall dbData,
       transformPowerData
         (Object (<[toString 99999 := JStr "x"]> (syncData f)))
       = Return dbData ->
       dbData !! toString 99999 = None.
Proof.
  apply (unknown_id_is_dropped
           (StationMonitor.new StationMonitor.defaultMonitoredObjects true)
           (Sample.frameAt 0 {[ "8684" := Sample.num 5 ]})
           {[ "8684" := Sample.num 5 ]} 99999 (JStr "x")).
  - apply (bool_decide_unpack _). vm_compute. exact I.
  - apply (bool_decide_unpack _). vm_compute. exact I.
Defined.

End UnknownIds.

(** ** The pipeline of a monitor *)

Section Loops.

Lemma forEach_Return {A} (f : A -> outcome unit) (l : list A) :
  forEach f l = Return tt <-> forall a, a ∈ l -> f a = Return tt.
Proof.
  induction l as [|a l IH]; cbn [forEach].
  - split; [|done]. intros _ a Hin. by apply elem_of_nil in Hin.
  - destruct (f a) as [[]|e] eqn:Hfa; cbn [mbind outcome_bind Js.bind].
    + rewrite IH. split.
      * intros Hall b [->|Hin]%elem_of_cons; eauto.
      * intros Hall b Hin. apply Hall. by right.
    + split; [done|]. intros Hall.
      specialize (Hall a (list_elem_of_here _ _)). congruence.
Qed.

Lemma completes_unit (c : outcome unit) :
  completes c = true <-> c = Return tt.
Proof. destruct c as [[]|e]; cbn; split; done. Qed.

Lemma completes_Return {A} (c : outcome A) :
  completes c = true <-> exists a, c = Return a.
Proof.
  destruct c as [a|e]; cbn; split; try done; [by eexists|by intros [? ?]].
Qed.

Lemma forEach_ext {A} (f g : A -> outcome unit) (l : list A) :
  (forall a, a ∈ l -> f a = g a) -> forEach f l = forEach g l.
Proof.
  induction l as [|a l IH]; intros Hext; [done|].
  cbn [forEach]. rewrite (Hext a) by apply list_elem_of_here.
  rewrite IH; [done|]. intros b Hb. apply Hext. by right.
Qed.

Lemma forEach_completes {A} (f : A -> outcome unit) (l : list A) :
  completes (forEach f l) = true <-> forall a, a ∈ l -> f a = Return tt.
Proof.
  rewrite <-forEach_Return.
  destruct (forEach f l) as [[]|e]; cbn; split; done.
Qed.

Lemma collect_Throw {A B} (f : A -> outcome (list B)) (l : list A) a e :
  a ∈ l -> f a = Throw e -> exists e', collect f l = Throw e'.
Proof.
  induction l as [|b l IH]; intros Hin Hf; [by apply elem_of_nil in Hin|].
  cbn [collect]. apply elem_of_cons in Hin as [<-|Hin].
  - rewrite Hf. by eexists.
  - destruct (f b); [|by eexists].
    cbn [mbind outcome_bind Js.bind].
    destruct (IH Hin Hf) as [e' ->]. by eexists.
Qed.

Lemma collect_Return {A B} (f : A -> outcome (list B)) (l : list A) :
  (forall a, a ∈ l -> exists pushed, f a = Return pushed) ->
  exists all,
    collect f l = Return all
    /\ forall b, b ∈ all
         <-> exists a pushed, a ∈ l /\ f a = Return pushed /\ b ∈ pushed.
Proof.
  induction l as [|a l IH]; intros Hall; cbn [collect].
  - exists []. split; [done|]. intros b. split.
    + by intros ?%elem_of_nil.
    + by intros (? & ? & ?%elem_of_nil & _).
  - destruct (Hall a) as [pushed Ha]; [by left|].
    destruct IH as (rest & Hrest & Hin).
    { intros a' Ha'. apply Hall. by right. }
    rewrite Ha, Hrest. cbn [mbind outcome_bind Js.bind mret outcome_ret].
    eexists. split; [done|]. intros b. rewrite elem_of_app, Hin. split.
    + intros [Hb|(a' & pushed' & Ha' & Hf & Hb)].
      * exists a, pushed. split; [by left|done].
      * exists a', pushed'. split; [by right|done].
    + intros (a' & pushed' & [->|Ha']%elem_of_cons & Hf & Hb).
      * left. congruence.
      * right. eauto.
Qed.

End Loops.

(** ** Validation *)

Section Validation.
Import DatabaseService.

(** A value that is not of type object prints. *)
Lemma typeofObject_printable (v : json) :
  typeofObject v = false -> unprintable v = false.
Proof. by destruct v. Qed.

(** [validatePowerData] never throws on an object and never finds it
    invalid; it warns of a value that is no number only when the value is
    not of type object and the draw made for it is below 0.1. *)
Lemma validatePowerData_Return random powerData :
  exists validation,
    validatePowerData random (Object powerData) = Return validation
    /\ isValid validation = true
    /\ forall id v,
         InvalidNumeric id v ∈ warnings validation
         <-> powerData !! id = Some v /\ typeofObject v = false
             /\ isNaN (readNumber v) = true
             /\ (random id < Q2Qc (1 # 10))%Qc.
Proof.
  unfold validatePowerData.
  destruct (collect_Return
              (fun entry : string * json =>
                 validateEntry random entry.1 entry.2)
              (map_to_list powerData)) as (found & -> & Hfound).
  { intros [id v] _. unfold validateEntry. cbn [fst snd].
    destruct (typeofObject v) eqn:Hv; [by eexists|].
    unfold parseFloat. rewrite typeofObject_printable by done.
    by eexists. }
  eexists. split; [done|]. split; [done|].
  cbn [warnings]. intros id v. rewrite Hfound. split.
  - intros ([id' v'] & pushed & Hin & Hf & Hw).
    apply elem_of_map_to_list in Hin.
    unfold validateEntry in Hf. cbn [fst snd] in Hf.
    destruct (typeofObject v') eqn:Hv'.
    { apply Return_inj in Hf as <-. by apply elem_of_nil in Hw. }
    unfold parseFloat in Hf. rewrite typeofObject_printable in Hf by done.
    cbn [mbind outcome_bind Js.bind mret outcome_ret] in Hf.
    apply Return_inj in Hf as <-.
    destruct (isNaN (readNumber v')) eqn:Hnan.
    + case_bool_decide as Hdraw; [|by apply elem_of_nil in Hw].
      apply list_elem_of_singleton in Hw as [= -> ->]. done.
    + repeat (destruct (_ && _) || destruct (_ || _) || destruct (existsb _ _));
        try (by apply elem_of_nil in Hw);
        by apply list_elem_of_singleton in Hw.
  - intros (Hid & Hv & Hnan & Hdraw).
    exists (id, v). eexists. split; [by apply elem_of_map_to_list|].
    unfold validateEntry, parseFloat. cbn [fst snd].
    rewrite Hv, typeofObject_printable by done.
    cbn [mbind outcome_bind Js.bind mret outcome_ret].
    split; [done|]. rewrite Hnan, bool_decide_eq_true_2 by done.
    apply list_elem_of_here.
Qed.

End Validation.

(** ** The pipeline of a monitor *)

Section Pipeline.
Import DatabaseService Resolution StationMonitor RunSpec.

Lemma displayData_buffer m m' :
  dataBuffer m = dataBuffer m' -> displayData m = displayData m'.
Proof. unfold displayData. by intros ->. Qed.

(** What [saveToDatabase] leaves alone. *)
Lemma saveToDatabase_fields f m :
  monitoredObjects (saveToDatabase f m) = monitoredObjects m
  /\ dataBuffer (saveToDatabase f m) = dataBuffer m
  /\ lastUpdate (saveToDatabase f m) = lastUpdate m
  /\ database (saveToDatabase f m) = database m
  /\ dbSaveInterval (saveToDatabase f m) = dbSaveInterval m.
Proof.
  unfold saveToDatabase.
  destruct (throttled m (saveNow f)); [done|].
  destruct (database m) eqn:Hdb; [|done].
  cbn [negb].
  destruct (validatePowerData _ _) as [validation|]; [|done].
  destruct (isValid validation); [|done].
  cbn [negb monitoredObjects dataBuffer lastUpdate database lastDbSave
       dbSaveInterval written warned].
  destruct (createPowerReading _ _); [|done].
  by destruct (storeAccepts f).
Qed.

(** What [saveToDatabase] writes. *)
Lemma saveToDatabase_written f m t :
  lastUpdate m = Some t ->
  let wrote :=
    database m && storeAccepts f && negb (throttled m (saveNow f))
    && completes (transformPowerData (Object (dataBuffer m))) in
  written (saveToDatabase f m)
  = (if wrote then written m ++ [rowOf t (dataBuffer m)] else written m)
  /\ lastDbSave (saveToDatabase f m)
     = (if wrote then Some (saveNow f) else lastDbSave m).
Proof.
  intros Ht. cbv zeta. unfold saveToDatabase.
  destruct (throttled m (saveNow f)).
  { by rewrite !andb_false_r. }
  destruct (database m); [|done].
  cbn [negb andb].
  destruct (validatePowerData_Return (random f) (dataBuffer m))
    as (validation & -> & -> & _).
  cbn [negb monitoredObjects dataBuffer lastUpdate database lastDbSave
       dbSaveInterval written warned].
  unfold createPowerReading. rewrite Ht.
  destruct (transformPowerData (Object (dataBuffer m))) as [dbData|e] eqn:Hdb.
  - apply transformPowerData_inv in Hdb as ->.
    cbn [mbind outcome_bind Js.bind mret outcome_ret completes].
    rewrite andb_true_r. by destruct (storeAccepts f).
  - cbn [mbind outcome_bind Js.bind completes]. by rewrite andb_false_r.
Qed.

(** The monitor as [updateData] has it when the loop has completed. *)
Lemma onNotification_Return m f buffer changed :
  updateValues (syncData f) (monitoredObjects m) (dataBuffer m) false
    = Return (buffer, changed) ->
  onNotification m f
  = let m1 :=
      {| monitoredObjects := monitoredObjects m; dataBuffer := buffer;
         lastUpdate := Some (now f); database := database m;
         lastDbSave := lastDbSave m; dbSaveInterval := dbSaveInterval m;
         written := written m; warned := warned m |} in
    if changed && completes (displayData m1) && database m
    then saveToDatabase f m1 else m1.
Proof.
  intros Hrun. unfold onNotification, updateData.
  cbn [monitoredObjects dataBuffer lastUpdate database lastDbSave
       dbSaveInterval written warned].
  rewrite Hrun. cbv zeta. destruct changed; [|done].
  cbn [andb]. destruct (displayData _); [|done].
  cbn [completes andb fst]. by destruct (database m).
Qed.

(** A frame whose [sync] object shadows [hasOwnProperty] only sets the
    time of the update. *)
Lemma onNotification_Throw m f e :
  updateValues (syncData f) (monitoredObjects m) (dataBuffer m) false
    = Throw e ->
  onNotification m f
  = {| monitoredObjects := monitoredObjects m; dataBuffer := dataBuffer m;
       lastUpdate := Some (now f); database := database m;
       lastDbSave := lastDbSave m; dbSaveInterval := dbSaveInterval m;
       written := written m; warned := warned m |}.
Proof.
  intros Hrun. unfold onNotification, updateData.
  cbn [monitoredObjects dataBuffer lastUpdate database lastDbSave
       dbSaveInterval written warned].
  by rewrite Hrun.
Qed.

(** What a frame leaves alone, and the buffer it leaves. *)
Lemma onNotification_fields m f :
  monitoredObjects (onNotification m f) = monitoredObjects m
  /\ lastUpdate (onNotification m f) = Some (now f)
  /\ database (onNotification m f) = database m
  /\ dbSaveInterval (onNotification m f) = dbSaveInterval m
  /\ dataBuffer (onNotification m f)
     = match
         updateValues (syncData f) (monitoredObjects m) (dataBuffer m) false
       with
       | Return (buffer, _) => buffer
       | Throw _ => dataBuffer m
       end.
Proof.
  destruct (updateValues (syncData f) (monitoredObjects m) (dataBuffer m)
              false) as [[buffer changed]|e] eqn:Hrun.
  - rewrite (onNotification_Return m f buffer changed Hrun). cbv zeta.
    destruct (_ && _); [|done].
    match goal with
    | |- context [saveToDatabase f ?m1] =>
        destruct (saveToDatabase_fields f m1) as (-> & -> & -> & -> & ->)
    end.
    done.
  - by rewrite (onNotification_Throw m f e Hrun).
Qed.

(** What a frame writes. *)
Lemma onNotification_written m f buffer changed :
  updateValues (syncData f) (monitoredObjects m) (dataBuffer m) false
    = Return (buffer, changed) ->
  written (onNotification m f)
  = (if changed && monitorWrites m f
     then written m ++ [rowOf (now f) buffer] else written m)
  /\ lastDbSave (onNotification m f)
     = (if changed && monitorWrites m f
        then Some (saveNow f) else lastDbSave m).
Proof.
  intros Hrun. unfold monitorWrites. cbv zeta.
  destruct (onNotification_fields m f) as (_ & _ & _ & _ & Hbuf).
  rewrite Hrun in Hbuf. rewrite Hbuf.
  rewrite (displayData_buffer (onNotification m f)
             {| monitoredObjects := monitoredObjects m; dataBuffer := buffer;
                lastUpdate := Some (now f); database := database m;
                lastDbSave := lastDbSave m;
                dbSaveInterval := dbSaveInterval m;
                written := written m; warned := warned m |}) by done.
  rewrite (onNotification_Return m f buffer changed Hrun). cbv zeta.
  destruct changed; [|done]. cbn [andb].
  destruct (completes (displayData _)).
  2:{ by rewrite !andb_false_r. }
  cbn [andb]. rewrite andb_true_r.
  destruct (database m) eqn:Hdb; [|done]. cbn [andb].
  match goal with
  | |- context [saveToDatabase f ?m1] =>
      destruct (saveToDatabase_written f m1 (now f) eq_refl) as [-> ->]
  end.
  cbn [database dataBuffer written lastDbSave throttled dbSaveInterval].
  cbn [andb]. unfold throttled. done.
Qed.

(** Inside the window nothing is written, whatever the frame holds. *)
Lemma onNotification_throttled m f :
  throttled m (saveNow f) = true ->
  written (onNotification m f) = written m
  /\ lastDbSave (onNotification m f) = lastDbSave m
  /\ dbSaveInterval (onNotification m f) = dbSaveInterval m.
Proof.
  intros Hthr.
  destruct (onNotification_fields m f) as (_ & _ & _ & Hint & _).
  split; [|split]; [| |done].
  - destruct (updateValues (syncData f) (monitoredObjects m) (dataBuffer m)
                false) as [[buffer changed]|e] eqn:Hrun.
    + destruct (onNotification_written m f buffer changed Hrun) as [-> _].
      unfold monitorWrites. rewrite Hthr. cbn [negb].
      by rewrite !andb_false_r.
    + by rewrite (onNotification_Throw m f e Hrun).
  - destruct (updateValues (syncData f) (monitoredObjects m) (dataBuffer m)
                false) as [[buffer changed]|e] eqn:Hrun.
    + destruct (onNotification_written m f buffer changed Hrun) as [_ ->].
      unfold monitorWrites. rewrite Hthr. cbn [negb].
      by rewrite !andb_false_r.
    + by rewrite (onNotification_Throw m f e Hrun).
Qed.

Lemma run_throttled frames m last :
  lastDbSave m = Some last ->
  Forall (fun g => (saveNow g - last < dbSaveInterval m)%Z) frames ->
  written (run m frames) = written m
  /\ lastDbSave (run m frames) = Some last.
Proof.
  revert m. induction frames as [|g frames IH]; intros m Hlast Hall; [done|].
  inversion Hall as [|g' frames' Hg Hall']; subst g' frames'.
  clear Hall; rename Hall' into Hall.
  assert (throttled m (saveNow g) = true) as Hthr.
  { unfold throttled. rewrite Hlast. by apply Z.ltb_lt. }
  destruct (onNotification_throttled m g Hthr) as (Hw & Hl & Hi).
  cbn [run fold_left]. fold (run (onNotification m g) frames).
  destruct (IH (onNotification m g)) as [Hw' Hl'].
  - by rewrite Hl.
  - by rewrite Hi.
  - by rewrite Hw', Hl'.
Qed.

(** A frame that repeats the buffered values writes nothing. *)
Lemma onNotification_repeats m f :
  syncData f !! "hasOwnProperty" = None ->
  repeats (monitoredObjects m) (dataBuffer m) f ->
  written (onNotification m f) = written m
  /\ dataBuffer (onNotification m f) = dataBuffer m
  /\ lastDbSave (onNotification m f) = lastDbSave m.
Proof.
  intros Hown Hrep.
  rewrite (onNotification_Return m f (dataBuffer m) false).
  - done.
  - by apply updateValues_unchanged.
Qed.

(** A frame that changes the buffer is written at once when nothing
    stands in the way. *)
Lemma onNotification_changes m f :
  syncData f !! "hasOwnProperty" = None ->
  changes (monitoredObjects m) (dataBuffer m) f ->
  written (onNotification m f)
  = (if monitorWrites m f
     then written m ++ [rowOf (now f) (dataBuffer (onNotification m f))]
     else written m)
  /\ lastDbSave (onNotification m f)
     = (if monitorWrites m f then Some (saveNow f) else lastDbSave m)
  /\ dbSaveInterval (onNotification m f) = dbSaveInterval m.
Proof.
  intros Hown Hch.
  destruct (updateValues_changed (syncData f) (monitoredObjects m)
              (dataBuffer m) false Hown (or_intror Hch)) as [buffer Hrun].
  destruct (onNotification_fields m f) as (_ & _ & _ & Hint & Hbuf).
  rewrite Hrun in Hbuf. rewrite Hbuf.
  by destruct (onNotification_written m f buffer true Hrun) as [-> ->].
Qed.

(** The buffer of a monitor never owns a property [hasOwnProperty]: it
    starts empty and only monitored ids are stored in it. *)
Lemma onNotification_keeps_method m f :
  dataBuffer m !! "hasOwnProperty" = None ->
  dataBuffer (onNotification m f) !! "hasOwnProperty" = None.
Proof.
  intros Hown.
  destruct (onNotification_fields m f) as (_ & _ & _ & _ & ->).
  destruct (updateValues _ _ _ _) as [[buffer changed]|e] eqn:Hrun; [|done].
  by eapply updateValues_keeps_method.
Qed.

(** [displayData] completes when every buffered value prints and no key
    of the buffer is a name under which [Object.prototype] has a member. *)
Lemma monitor_displays m :
  displayData m = Return tt
  <-> forall id v, dataBuffer m !! id = Some v ->
                   unprintable v = false /\ id ∉ objectPrototype.
Proof.
  unfold displayData. rewrite forEach_Return. split.
  - intros Hall id v Hid.
    specialize (Hall (id, v)). cbn [fst snd] in Hall.
    unfold displayEntry, parseFloat in Hall.
    destruct (unprintable v); [discriminate Hall; by apply elem_of_map_to_list|].
    cbn [mbind outcome_bind Js.bind] in Hall. split; [done|].
    intros Hin. unfold labelOr, getLabel in Hall. rewrite lookup_fmap in Hall.
    destruct (labels !! id) as [text|] eqn:Hlabel.
    + revert Hlabel. clear Hall.
      assert (Forall (fun name => labels !! name = None) objectPrototype)
        as Hnone by (repeat constructor).
      rewrite Forall_forall in Hnone.
      rewrite (Hnone id) by by apply list_elem_of_In.
      done.
    + cbn in Hall. rewrite bool_decide_eq_true_2 in Hall by done.
      discriminate Hall. by apply elem_of_map_to_list.
  - intros Hall [id v] Hin%elem_of_map_to_list. cbn [fst snd].
    destruct (Hall id v Hin) as [Hv Hid].
    unfold displayEntry, parseFloat. rewrite Hv.
    cbn [mbind outcome_bind Js.bind].
    unfold labelOr, getLabel. rewrite lookup_fmap.
    destruct (labels !! id) as [text|]; cbn.
    + by destruct text.
    + by rewrite bool_decide_eq_false_2.
Qed.

(** The warnings of a frame that is written. *)
Lemma onNotification_warned m f validation :
  syncData f !! "hasOwnProperty" = None ->
  changes (monitoredObjects m) (dataBuffer m) f ->
  monitorWrites m f = true ->
  validatePowerData (random f) (Object (dataBuffer (onNotification m f)))
    = Return validation ->
  warned (onNotification m f) = warned m ++ warnings validation.
Proof.
  intros Hown Hch Hwrites.
  destruct (updateValues_changed (syncData f) (monitoredObjects m)
              (dataBuffer m) false Hown (or_intror Hch)) as [buffer Hrun].
  destruct (onNotification_fields m f) as (_ & _ & _ & _ & Hbuf).
  rewrite Hrun in Hbuf. rewrite Hbuf.
  unfold monitorWrites in Hwrites. cbv zeta in Hwrites.
  rewrite Hbuf in Hwrites.
  rewrite (displayData_buffer (onNotification m f)
             {| monitoredObjects := monitoredObjects m; dataBuffer := buffer;
                lastUpdate := Some (now f); database := database m;
                lastDbSave := lastDbSave m;
                dbSaveInterval := dbSaveInterval m;
                written := written m; warned := warned m |}) in Hwrites
    by done.
  apply andb_true_iff in Hwrites as [Hwrites Hread].
  apply andb_true_iff in Hwrites as [Hwrites Hshow].
  apply andb_true_iff in Hwrites as [Hwrites Hthr].
  apply andb_true_iff in Hwrites as [Hdb Hacc].
  apply negb_true_iff in Hthr.
  rewrite (onNotification_Return m f buffer true Hrun). cbv zeta.
  rewrite Hshow, Hdb. cbn [andb]. intros Hvalid.
  unfold saveToDatabase, throttled in *.
  cbn [monitoredObjects dataBuffer lastUpdate database lastDbSave
       dbSaveInterval written warned] in *.
  rewrite Hthr, Hvalid. cbn [negb].
  destruct (validatePowerData_Return (random f) buffer)
    as (validation' & Hvalid' & Hisvalid & _).
  assert (validation' = validation) as -> by congruence.
  rewrite Hisvalid. cbn [negb].
  destruct (createPowerReading _ _); [|done].
  by rewrite Hacc.
Qed.

(** A buffer that [displayData] accepts is one the transformation
    accepts. *)
Lemma monitor_displays_readable m :
  displayData m = Return tt -> readable (dataBuffer m) tables.
Proof.
  intros Hshow. assert (Hall := proj1 (monitor_displays m) Hshow). split.
  - destruct (dataBuffer m !! "hasOwnProperty") as [w|] eqn:Hw; [|done].
    destruct (Hall _ _ Hw) as [_ Hkey]. exfalso. apply Hkey.
    apply (bool_decide_unpack _). vm_compute. exact I.
  - intros id field v _ Hid. by destruct (Hall _ _ Hid).
Qed.

(** When a frame gets a row written. *)
Lemma monitorWrites_iff m f :
  monitorWrites m f = true
  <-> database m = true /\ storeAccepts f = true
      /\ throttled m (saveNow f) = false
      /\ displayData (onNotification m f) = Return tt
      /\ readable (dataBuffer (onNotification m f)) tables.
Proof.
  unfold monitorWrites. cbv zeta.
  rewrite !andb_true_iff, negb_true_iff, completes_unit, completes_Return.
  rewrite <-transformPowerData_readable. tauto.
Qed.

Lemma run_keeps_method frames monitoredObjects database :
  dataBuffer (run (new monitoredObjects database) frames)
    !! "hasOwnProperty" = None.
Proof.
  assert (forall m, dataBuffer m !! "hasOwnProperty" = None ->
            dataBuffer (run m frames) !! "hasOwnProperty" = None) as Hall.
  { induction frames as [|f frames IH]; intros m Hown; [done|].
    cbn [run fold_left]. apply IH. by apply onNotification_keeps_method. }
  by apply Hall.
Qed.

End Pipeline.

(** ** The pipeline of the Chiang Mai client *)

Section ChiangMai.
Import DatabaseService Resolution RunSpec.
Import ChiangMaiClient.

Lemma client_displayData_meterData c c' :
  objectLabels c = objectLabels c' -> meterData c = meterData c' ->
  displayData c = displayData c'.
Proof. unfold displayData. by intros -> ->. Qed.

(** What [saveToDatabase] leaves alone. *)
Lemma client_saveToDatabase_fields f c :
  monitoredObjects (saveToDatabase f c) = monitoredObjects c
  /\ objectLabels (saveToDatabase f c) = objectLabels c
  /\ meterData (saveToDatabase f c) = meterData c
  /\ database (saveToDatabase f c) = database c
  /\ dbSaveInterval (saveToDatabase f c) = dbSaveInterval c.
Proof.
  unfold saveToDatabase.
  destruct (throttled c (saveNow f)); [done|].
  destruct (database c) eqn:Hdb; [|done].
  cbn [negb].
  destruct (validatePowerData _ _) as [validation|]; [|done].
  destruct (isValid validation); [|done].
  cbn [negb monitoredObjects objectLabels meterData database lastDbSave
       dbSaveInterval written warned].
  destruct (createPowerReading _ _); [|done].
  by destruct (storeAccepts f).
Qed.

(** What [saveToDatabase] writes. *)
Lemma client_saveToDatabase_written f c :
  let wrote :=
    database c && storeAccepts f && negb (throttled c (saveNow f))
    && completes (transformPowerData (Object (meterData c))) in
  written (saveToDatabase f c)
  = (if wrote then written c ++ [rowOf (saveNow f) (meterData c)]
     else written c)
  /\ lastDbSave (saveToDatabase f c)
     = (if wrote then Some (saveNow f) else lastDbSave c).
Proof.
  cbv zeta. unfold saveToDatabase.
  destruct (throttled c (saveNow f)).
  { by rewrite !andb_false_r. }
  destruct (database c); [|done].
  cbn [negb andb].
  destruct (validatePowerData_Return (random f) (meterData c))
    as (validation & -> & -> & _).
  cbn [negb monitoredObjects objectLabels meterData database lastDbSave
       dbSaveInterval written warned].
  unfold createPowerReading.
  destruct (transformPowerData (Object (meterData c))) as [dbData|e] eqn:Hdb.
  - apply transformPowerData_inv in Hdb as ->.
    cbn [mbind outcome_bind Js.bind mret outcome_ret completes].
    rewrite andb_true_r. by destruct (storeAccepts f).
  - cbn [mbind outcome_bind Js.bind completes]. by rewrite andb_false_r.
Qed.

(** The client as the handler has it when the loop has completed. *)
Lemma client_onNotification_Return c f buffer changed :
  updateValues (syncData f) (monitoredObjects c) (meterData c) false
    = Return (buffer, changed) ->
  onNotification c f
  = let c1 :=
      {| monitoredObjects := monitoredObjects c;
         objectLabels := objectLabels c; meterData := buffer;
         database := database c; lastDbSave := lastDbSave c;
         dbSaveInterval := dbSaveInterval c; written := written c;
         warned := warned c |} in
    if changed && completes (displayData c1) && database c
    then saveToDatabase f c1 else c1.
Proof.
  intros Hrun. unfold onNotification. rewrite Hrun. cbv zeta.
  destruct changed; [|done].
  cbn [andb]. destruct (displayData _); [|done].
  cbn [completes andb database]. by destruct (database c).
Qed.

(** What a frame leaves alone, and the meter data it leaves. *)
Lemma client_onNotification_fields c f :
  monitoredObjects (onNotification c f) = monitoredObjects c
  /\ objectLabels (onNotification c f) = objectLabels c
  /\ database (onNotification c f) = database c
  /\ dbSaveInterval (onNotification c f) = dbSaveInterval c
  /\ meterData (onNotification c f)
     = match
         updateValues (syncData f) (monitoredObjects c) (meterData c) false
       with
       | Return (buffer, _) => buffer
       | Throw _ => meterData c
       end.
Proof.
  destruct (updateValues (syncData f) (monitoredObjects c) (meterData c)
              false) as [[buffer changed]|e] eqn:Hrun.
  - rewrite (client_onNotification_Return c f buffer changed Hrun).
    cbv zeta. destruct (_ && _); [|done].
    match goal with
    | |- context [saveToDatabase f ?c1] =>
        destruct (client_saveToDatabase_fields f c1)
          as (-> & -> & -> & -> & ->)
    end.
    done.
  - unfold onNotification. by rewrite Hrun.
Qed.

(** What a frame writes. *)
Lemma client_onNotification_written c f buffer changed :
  updateValues (syncData f) (monitoredObjects c) (meterData c) false
    = Return (buffer, changed) ->
  written (onNotification c f)
  = (if changed && clientWrites c f
     then written c ++ [rowOf (saveNow f) buffer] else written c)
  /\ lastDbSave (onNotification c f)
     = (if changed && clientWrites c f
        then Some (saveNow f) else lastDbSave c).
Proof.
  intros Hrun. unfold clientWrites. cbv zeta.
  destruct (client_onNotification_fields c f) as (_ & Hlab & _ & _ & Hbuf).
  rewrite Hrun in Hbuf. rewrite Hbuf.
  rewrite (client_displayData_meterData (onNotification c f)
             {| monitoredObjects := monitoredObjects c;
                objectLabels := objectLabels c; meterData := buffer;
                database := database c; lastDbSave := lastDbSave c;
                dbSaveInterval := dbSaveInterval c; written := written c;
                warned := warned c |}) by done.
  rewrite (client_onNotification_Return c f buffer changed Hrun). cbv zeta.
  destruct changed; [|done]. cbn [andb].
  destruct (completes (displayData _)).
  2:{ by rewrite !andb_false_r. }
  cbn [andb]. rewrite andb_true_r.
  destruct (database c) eqn:Hdb; [|done]. cbn [andb].
  match goal with
  | |- context [saveToDatabase f ?c1] =>
      destruct (client_saveToDatabase_written f c1) as [-> ->]
  end.
  cbn [database meterData written lastDbSave throttled dbSaveInterval].
  cbn [andb]. unfold throttled. done.
Qed.

(** Inside the window nothing is written, whatever the frame holds. *)
Lemma client_onNotification_throttled c f :
  throttled c (saveNow f) = true ->
  written (onNotification c f) = written c
  /\ lastDbSave (onNotification c f) = lastDbSave c
  /\ dbSaveInterval (onNotification c f) = dbSaveInterval c.
Proof.
  intros Hthr.
  destruct (client_onNotification_fields c f) as (_ & _ & _ & Hint & _).
  destruct (updateValues (syncData f) (monitoredObjects c) (meterData c)
              false) as [[buffer changed]|e] eqn:Hrun.
  - destruct (client_onNotification_written c f buffer changed Hrun)
      as [-> ->].
    unfold clientWrites. rewrite Hthr. cbn [negb].
    by rewrite !andb_false_r.
  - unfold onNotification. by rewrite Hrun.
Qed.

Lemma client_run_throttled frames c last :
  lastDbSave c = Some last ->
  Forall (fun g => (saveNow g - last < dbSaveInterval c)%Z) frames ->
  written (run c frames) = written c
  /\ lastDbSave (run c frames) = Some last.
Proof.
  revert c. induction frames as [|g frames IH]; intros c Hlast Hall; [done|].
  inversion Hall as [|g' frames' Hg Hall']; subst g' frames'.
  clear Hall; rename Hall' into Hall.
  assert (throttled c (saveNow g) = true) as Hthr.
  { unfold throttled. rewrite Hlast. by apply Z.ltb_lt. }
  destruct (client_onNotification_throttled c g Hthr) as (Hw & Hl & Hi).
  cbn [run fold_left]. fold (run (onNotification c g) frames).
  destruct (IH (onNotification c g)) as [Hw' Hl'].
  - by rewrite Hl.
  - by rewrite Hi.
  - by rewrite Hw', Hl'.
Qed.

(** A frame that repeats the meter data changes nothing. *)
Lemma client_onNotification_repeats c f :
  syncData f !! "hasOwnProperty" = None ->
  repeats (monitoredObjects c) (meterData c) f ->
  onNotification c f = c.
Proof.
  intros Hown Hrep.
  rewrite (client_onNotification_Return c f (meterData c) false).
  - by destruct c.
  - by apply updateValues_unchanged.
Qed.

(** A frame that changes the meter data is written at once when nothing
    stands in the way. *)
Lemma client_onNotification_changes c f :
  syncData f !! "hasOwnProperty" = None ->
  changes (monitoredObjects c) (meterData c) f ->
  written (onNotification c f)
  = (if clientWrites c f
     then written c ++ [rowOf (saveNow f) (meterData (onNotification c f))]
     else written c)
  /\ lastDbSave (onNotification c f)
     = (if clientWrites c f then Some (saveNow f) else lastDbSave c)
  /\ dbSaveInterval (onNotification c f) = dbSaveInterval c.
Proof.
  intros Hown Hch.
  destruct (updateValues_changed (syncData f) (monitoredObjects c)
              (meterData c) false Hown (or_intror Hch)) as [buffer Hrun].
  destruct (client_onNotification_fields c f) as (_ & _ & _ & Hint & Hbuf).
  rewrite Hrun in Hbuf. rewrite Hbuf.
  by destruct (client_onNotification_written c f buffer true Hrun)
    as [-> ->].
Qed.

Lemma initializeMeterData_lookup ids k :
  ChiangMaiClient.initializeMeterData ids !! k
  = if bool_decide (k ∈ map toString ids) then Some JNull else None.
Proof.
  unfold ChiangMaiClient.initializeMeterData.
  assert (forall (meterData : gmap string json),
            fold_left (fun meterData id => <[toString id := JNull]> meterData)
              ids meterData !! k
            = if bool_decide (k ∈ map toString ids) then Some JNull
              else meterData !! k) as Hall.
  { induction ids as [|id ids IH]; intros meterData; [done|].
    cbn [fold_left map]. rewrite IH.
    destruct (bool_decide (k ∈ map toString ids)) eqn:Hin.
    - apply bool_decide_eq_true in Hin.
      by rewrite bool_decide_eq_true_2 by by apply list_elem_of_further.
    - apply bool_decide_eq_false in Hin.
      destruct (decide (k = toString id)) as [->|Hk].
      + rewrite lookup_insert_eq.
        by rewrite bool_decide_eq_true_2 by apply list_elem_of_here.
      + rewrite lookup_insert_ne by done.
        rewrite bool_decide_eq_false_2; [done|].
        intros Hin'. apply elem_of_cons in Hin' as [?|?]; done. }
  by rewrite Hall.
Qed.

Lemma initializeMeterData_method ids :
  ChiangMaiClient.initializeMeterData ids !! "hasOwnProperty" = None.
Proof.
  rewrite initializeMeterData_lookup.
  rewrite bool_decide_eq_false_2; [done|].
  intros Hin. apply list_elem_of_fmap in Hin as (id & Hid & _).
  by eapply toString_hasOwnProperty.
Qed.

(** When a frame gets a row written. *)
Lemma clientWrites_iff c f :
  clientWrites c f = true
  <-> database c = true /\ storeAccepts f = true
      /\ throttled c (saveNow f) = false
      /\ displayData (onNotification c f) = Return tt
      /\ readable (meterData (onNotification c f)) tables.
Proof.
  unfold clientWrites. cbv zeta.
  rewrite !andb_true_iff, negb_true_iff, completes_unit, completes_Return.
  rewrite <-transformPowerData_readable. tauto.
Qed.

(** The two pipelines keep the same buffer. *)
Lemma chiangmai_buffer c f lastUpdate :
  StationMonitor.dataBuffer
    (StationMonitor.onNotification (asStationMonitor c lastUpdate) f)
  = meterData (onNotification c f).
Proof.
  destruct (onNotification_fields (asStationMonitor c lastUpdate) f)
    as (_ & _ & _ & _ & ->).
  destruct (client_onNotification_fields c f) as (_ & _ & _ & _ & ->).
  done.
Qed.

End ChiangMai.

(** ** Clients that monitor the same objects *)

Section SameObjects.
Import DatabaseService Resolution RunSpec.
Import ChiangMaiClient ChiangMaiSpec.

Lemma inherited_not_numerals :
  Forall (fun name => NilEmpty.uint_of_string name = None) objectPrototype.
Proof. repeat constructor. Qed.

Lemma toString_not_inherited (n : N) : toString n ∉ objectPrototype.
Proof.
  intros Hin. pose proof inherited_not_numerals as Hall.
  rewrite Forall_forall in Hall.
  apply (toString_numeral n (toString n)); [|done].
  by apply Hall, list_elem_of_In.
Qed.

(** A label that is found, and is a text, can be padded. *)
Lemma labelOr_text own k fallback :
  own !! k <> Some Inherited -> k ∉ objectPrototype ->
  padEnd (labelOr own k fallback) = Return tt.
Proof.
  intros Hown Hk. unfold labelOr, getLabel.
  destruct (own !! k) as [[text|]|].
  - by destruct text.
  - done.
  - by rewrite bool_decide_eq_false_2.
Qed.

(** With a text for every entry, [displayData] depends on the values
    alone. *)
Lemma labelled_same_display c1 c2 :
  labelled c1 -> labelled c2 -> meterData c1 = meterData c2 ->
  displayData c1 = displayData c2.
Proof.
  intros [Hlab1 Hkey1] [Hlab2 Hkey2] Hmeter. unfold displayData.
  rewrite <-Hmeter. apply forEach_ext. intros [k v] Hin.
  apply elem_of_map_to_list in Hin. cbn [fst snd].
  assert (k ∉ objectPrototype) as Hk by (apply Hkey1; eauto).
  unfold displayEntry.
  destruct v; try done; by rewrite !labelOr_text.
Qed.

Lemma objectMap_types rows objectType objectId :
  objectMap (getStationMonitoredObjects rows) !! objectType = Some objectId ->
  (objectType, objectId) ∈ rows.
Proof.
  unfold getStationMonitoredObjects. cbn [objectMap].
  assert (forall stored : gmap string N,
            fold_left
              (fun objectMap (row : string * N) =>
                 if bool_decide (row.1 = "__proto__") then objectMap
                 else <[row.1 := row.2]> objectMap)
              rows stored !! objectType = Some objectId ->
            (objectType, objectId) ∈ rows
            \/ stored !! objectType = Some objectId) as Hall.
  { induction rows as [|[type id] rows IH]; intros stored; [by right|].
    cbn [fold_left fst snd]. intros [Hin|Hin]%IH.
    - left. by right.
    - case_bool_decide; [by right|].
      destruct (decide (type = objectType)) as [->|Hne].
      + rewrite lookup_insert_eq in Hin. injection Hin as ->.
        left. apply list_elem_of_here.
      + rewrite lookup_insert_ne in Hin by done. by right. }
  intros [Hin|Hin]%Hall; [done|by rewrite lookup_empty in Hin].
Qed.

Lemma setupObjectLabels_text (stored : gmap string N) k :
  (forall objectType objectId,
     stored !! objectType = Some objectId -> objectType ∉ objectPrototype) ->
  setupObjectLabels (Some stored) !! k <> Some Inherited.
Proof.
  unfold setupObjectLabels.
  apply (map_fold_weak_ind
           (fun (labels : gmap string label) (stored : gmap string N) =>
              (forall objectType objectId,
                 stored !! objectType = Some objectId ->
                 objectType ∉ objectPrototype) ->
              labels !! k <> Some Inherited)).
  - intros _. by rewrite lookup_empty.
  - intros objectType objectId m labels Hfresh IH Hplain.
    destruct (decide (toString objectId = k)) as [<-|Hne].
    + rewrite lookup_insert_eq. unfold labelOr, getLabel.
      rewrite lookup_fmap.
      destruct (typeLabels !! objectType) as [text|]; cbn.
      * by destruct text.
      * rewrite bool_decide_eq_false_2; [done|].
        apply (Hplain objectType objectId). by rewrite lookup_insert_eq.
    + rewrite lookup_insert_ne by done. apply IH.
      intros type id Hid. apply (Hplain type id).
      rewrite lookup_insert_ne; [done|]. intros ->. congruence.
Qed.

(** The client that [loadMonitoredObjects] leaves has a text for every
    entry, unless a type name of the store is a member name of
    [Object.prototype]. *)
Lemma load_labelled stored :
  (forall found objectType objectId,
     stored = Some (Return found) ->
     objectMap found !! objectType = Some objectId ->
     objectType ∉ objectPrototype) ->
  labelled (loadMonitoredObjects stored).
Proof.
  intros Hplain. split.
  - intros k. unfold loadMonitoredObjects. cbn [objectLabels].
    assert ((Text <$> defaultLabels) !! k <> Some Inherited) as Hdefault.
    { rewrite lookup_fmap. by destruct (defaultLabels !! k). }
    destruct stored as [[found|e]|]; try done.
    destruct (0 <? count found)%nat; [|done].
    cbn [snd]. apply setupObjectLabels_text.
    intros type id. by apply Hplain.
  - intros k. unfold loadMonitoredObjects. cbn [meterData].
    rewrite initializeMeterData_lookup. case_bool_decide as Hin; [|by intros []].
    intros _.
    apply list_elem_of_In, in_map_iff in Hin as (id & <- & _).
    apply toString_not_inherited.
Qed.

Lemma labelled_step c f : labelled c -> labelled (onNotification c f).
Proof.
  intros [Hlab Hkey].
  destruct (client_onNotification_fields c f) as (Hmon & Hl & _ & _ & Hbuf).
  split.
  - intros k. by rewrite Hl.
  - intros k. rewrite Hbuf.
    destruct (updateValues _ _ _ _) as [[buffer changed]|e] eqn:Hrun;
      [|apply Hkey].
    rewrite (updateValues_lookup _ _ _ _ _ _ k Hrun). unfold merged.
    case_bool_decide as Hin; [|apply Hkey].
    intros _.
    apply list_elem_of_In, in_map_iff in Hin as (id & <- & _).
    apply toString_not_inherited.
Qed.

Lemma alike_step c1 c2 f :
  alike c1 c2 -> alike (onNotification c1 f) (onNotification c2 f).
Proof.
  intros (Hids & Hlab1 & Hlab2 & Hmeter & Hdb & Hlast & Hint & Hwritten).
  pose proof (labelled_step c1 f Hlab1) as Hlab1'.
  pose proof (labelled_step c2 f Hlab2) as Hlab2'.
  destruct (client_onNotification_fields c1 f)
    as (Hmon1 & _ & Hdb1 & Hint1 & Hbuf1).
  destruct (client_onNotification_fields c2 f)
    as (Hmon2 & _ & Hdb2 & Hint2 & Hbuf2).
  assert ((updateValues (syncData f) (monitoredObjects c1) (meterData c1)
             false = Return (meterData c1, false)
           /\ updateValues (syncData f) (monitoredObjects c2) (meterData c2)
                false = Return (meterData c2, false))
          \/ (exists e1 e2,
                updateValues (syncData f) (monitoredObjects c1) (meterData c1)
                  false = Throw e1
                /\ updateValues (syncData f) (monitoredObjects c2)
                     (meterData c2) false = Throw e2)
          \/ exists buffer changed,
               updateValues (syncData f) (monitoredObjects c1) (meterData c1)
                 false = Return (buffer, changed)
               /\ updateValues (syncData f) (monitoredObjects c2)
                    (meterData c2) false = Return (buffer, changed))
    as Hcases.
  { destruct (syncData f !! "hasOwnProperty") as [w|] eqn:Hown.
    - destruct (monitoredObjects c1) as [|id1 rest1] eqn:Hm1.
      + left. destruct (monitoredObjects c2) as [|id2 rest2] eqn:Hm2;
          [done|].
        exfalso. apply (elem_of_nil id2), Hids, list_elem_of_here.
      + right. left.
        destruct (monitoredObjects c2) as [|id2 rest2] eqn:Hm2.
        { exfalso. apply (elem_of_nil id1), Hids, list_elem_of_here. }
        destruct (updateValues_Throw (syncData f) id1 rest1 (meterData c1)
                    false) as [e1 He1]; [by eexists|].
        destruct (updateValues_Throw (syncData f) id2 rest2 (meterData c2)
                    false) as [e2 He2]; [by eexists|].
        by exists e1, e2.
    - right. right.
      destruct (updateValues_Return (syncData f) (monitoredObjects c1)
                  (meterData c1) false Hown) as (b1 & ch1 & H1).
      destruct (updateValues_Return (syncData f) (monitoredObjects c2)
                  (meterData c2) false Hown) as (b2 & ch2 & H2).
      rewrite <-Hmeter in H2.
      destruct (updateValues_same_ids _ _ _ _ _ _ _ _ Hids H1 H2)
        as [-> ->].
      rewrite <-Hmeter. by exists b2, ch2. }
  assert (meterData (onNotification c1 f) = meterData (onNotification c2 f))
    as Hmeter'.
  { rewrite Hbuf1, Hbuf2.
    destruct Hcases as [[-> ->]|[(e1 & e2 & -> & ->)|(b & ch & -> & ->)]];
      done. }
  split; [by rewrite Hmon1, Hmon2|].
  split; [done|]. split; [done|]. split; [done|].
  split; [by rewrite Hdb1, Hdb2|].
  assert (clientWrites c1 f = clientWrites c2 f) as Hwrites.
  { unfold clientWrites. cbv zeta.
    rewrite (labelled_same_display _ _ Hlab1' Hlab2' Hmeter'), Hmeter'.
    unfold throttled. by rewrite Hdb, Hlast, Hint. }
  destruct Hcases as [[H1 H2]|[(e1 & e2 & H1 & H2)|(b & ch & H1 & H2)]].
  - destruct (client_onNotification_written c1 f _ _ H1) as [-> ->].
    destruct (client_onNotification_written c2 f _ _ H2) as [-> ->].
    cbn [andb]. by rewrite Hint1, Hint2.
  - unfold onNotification. rewrite H1, H2. done.
  - destruct (client_onNotification_written c1 f _ _ H1) as [-> ->].
    destruct (client_onNotification_written c2 f _ _ H2) as [-> ->].
    rewrite Hwrites, Hwritten, Hlast, Hint1, Hint2, Hint. done.
Qed.

Lemma alike_run frames c1 c2 :
  alike c1 c2 -> alike (run c1 frames) (run c2 frames).
Proof.
  revert c1 c2. induction frames as [|f frames IH]; intros c1 c2 H; [done|].
  cbn [run fold_left]. by apply IH, alike_step.
Qed.

Lemma load_alike rows1 rows2 :
  (forall id, id ∈ map snd rows1 <-> id ∈ map snd rows2) ->
  plainTypes rows1 -> plainTypes rows2 ->
  alike
    (loadMonitoredObjects (Some (Return (getStationMonitoredObjects rows1))))
    (loadMonitoredObjects (Some (Return (getStationMonitoredObjects rows2)))).
Proof.
  intros Hids Hplain1 Hplain2.
  assert (forall rows, plainTypes rows ->
            labelled (loadMonitoredObjects
                        (Some (Return (getStationMonitoredObjects rows)))))
    as Hlabelled.
  { intros rows Hplain. apply load_labelled.
    intros found type id [= <-] Hin%objectMap_types.
    unfold plainTypes in Hplain. rewrite Forall_forall in Hplain.
    by apply (Hplain (type, id)), list_elem_of_In. }
  assert (forall id,
            id ∈ monitoredObjects
                   (loadMonitoredObjects
                      (Some (Return (getStationMonitoredObjects rows1))))
            <-> id ∈ monitoredObjects
                       (loadMonitoredObjects
                          (Some (Return (getStationMonitoredObjects rows2)))))
    as Hmon.
  { unfold loadMonitoredObjects, getStationMonitoredObjects.
    cbn [monitoredObjects count objectIds objectMap fst].
    destruct rows1 as [|row1 rows1], rows2 as [|row2 rows2]; cbn [length Nat.ltb Nat.leb fst].
    - done.
    - exfalso. apply (elem_of_nil row2.2), Hids. cbn. apply list_elem_of_here.
    - exfalso. apply (elem_of_nil row1.2), Hids. cbn. apply list_elem_of_here.
    - done. }
  split; [done|]. split; [by apply Hlabelled|]. split; [by apply Hlabelled|].
  split; [|done].
  assert (forall stored,
            meterData (loadMonitoredObjects stored)
            = initializeMeterData
                (monitoredObjects (loadMonitoredObjects stored)))
    as Hmeter by done.
  rewrite !Hmeter. apply map_eq. intros k. rewrite !initializeMeterData_lookup.
  apply (f_equal (fun b : bool => if b then Some JNull else None)).
  apply bool_decide_ext.
  rewrite !list_elem_of_In, !in_map_iff.
  split; intros (id & Hk & Hin); exists id; (split; [done|]);
    apply list_elem_of_In; apply Hmon; by apply list_elem_of_In.
Qed.

End SameObjects.

(** ** Resolution of raw ids *)

Section ResolutionOrder.
Import DatabaseService Resolution.

(** C1, as the code has it. The field a raw id resolves to is fixed by the
    tables of [transformPowerData] alone. The station's own map decides
    which ids are monitored and how they are labelled, and nothing else:
    two maps that list the same ids, in whatever order and under whatever
    field names for which the client makes a text label (any name but
    those of the members of [Object.prototype]), make the client write the
    same rows. The transformation completes exactly on the data that do
    not shadow [hasOwnProperty] and whose properties named by a table
    print; a column of the reading then holds the value of the last table
    entry for that column whose property the data own (ids in ascending
    order within a table, the direct column names after all ids), or is
    missing when there is none. *)
Theorem resolution_ignores_station_map
    (rows1 rows2 : list (string * N)) (frames : list frame)
    (powerData : gmap string json) (field : string) :
  (forall id, id ∈ map snd rows1 <-> id ∈ map snd rows2) ->
  ChiangMaiSpec.plainTypes rows1 ->
  ChiangMaiSpec.plainTypes rows2 ->
  ChiangMaiClient.written
    (ChiangMaiClient.run
       (ChiangMaiClient.loadMonitoredObjects
          (Some (Return (ChiangMaiClient.getStationMonitoredObjects rows1))))
       frames)
  = ChiangMaiClient.written
      (ChiangMaiClient.run
         (ChiangMaiClient.loadMonitoredObjects
            (Some (Return (ChiangMaiClient.getStationMonitoredObjects rows2))))
         frames)
  /\ (readable powerData tables
      <-> exists dbData, transformPowerData (Object powerData) = Return dbData)
  /\ forall dbData,
       transformPowerData (Object powerData) = Return dbData ->
       dbData !! field = columnOf <$> claimed powerData tables field.
Proof.
  intros Hids Hplain1 Hplain2. split; [|split].
  - pose proof (alike_run frames _ _ (load_alike rows1 rows2 Hids Hplain1
                                        Hplain2)) as Halike.
    unfold ChiangMaiSpec.alike in Halike. tauto.
  - apply transformPowerData_readable.
  - intros dbData ->%transformPowerData_inv.
    rewrite foldEntries_lookup.
    by destruct (claimed powerData tables field).
Qed.

Lemma resolution_ignores_station_map_witness :
  let rows1 := [("muxPower1", 75428%N)] in
  let rows2 := [("muxPower5", 75428%N); ("activePower1", 75428%N)] in
  let powerData : gmap string json := {[ "75428" := Sample.num 5 ]} in
  let frames := [Sample.frameAt 0 powerData] in
  ChiangMaiClient.written
    (ChiangMaiClient.run
       (ChiangMaiClient.loadMonitoredObjects
          (Some (Return (ChiangMaiClient.getStationMonitoredObjects rows1))))
       frames)
  = ChiangMaiClient.written
      (ChiangMaiClient.run
         (ChiangMaiClient.loadMonitoredObjects
            (Some (Return (ChiangMaiClient.getStationMonitoredObjects rows2))))
         frames)
  /\ (readable powerData tables
      <-> exists dbData, transformPowerData (Object powerData) = Return dbData)
  /\ forall dbData,
       transformPowerData (Object powerData) = Return dbData ->
       dbData !! "muxPower5"
       = columnOf <$> claimed powerData tables "muxPower5".
Proof.
  apply (resolution_ignores_station_map
           [("muxPower1", 75428%N)]
           [("muxPower5", 75428%N); ("activePower1", 75428%N)]
           [Sample.frameAt 0 {[ "75428" := Sample.num 5 ]}]
           {[ "75428" := Sample.num 5 ]} "muxPower5").
  - intros id. simpl. rewrite !elem_of_cons. tauto.
  - repeat constructor; apply (bool_decide_unpack _); vm_compute; exact I.
  - repeat constructor; apply (bool_decide_unpack _); vm_compute; exact I.
Defined.

(** A station map that gives an id the type name ["constructor"] makes the
    client label it with a function: [displayData] throws on every frame
    that reports the id, and nothing is written, while the same id under
    [activePower1] is written. *)
Example type_name_can_stop_the_writes :
  let f := Sample.frameAt 0 {[ "8684" := Sample.num 5 ]} in
  ChiangMaiClient.written
    (ChiangMaiClient.onNotification
       (ChiangMaiClient.loadMonitoredObjects
          (Some (Return (ChiangMaiClient.getStationMonitoredObjects
                           [("constructor", 8684%N)])))) f) = []
  /\ exists row,
       ChiangMaiClient.written
         (ChiangMaiClient.onNotification
            (ChiangMaiClient.loadMonitoredObjects
               (Some (Return (ChiangMaiClient.getStationMonitoredObjects
                                [("activePower1", 8684%N)])))) f) = [row].
Proof. split; [|eexists]; vm_compute; reflexivity. Qed.

(** The scenario of the specification (station map
    [{activePower1: 100, muxPower1: 200}], frame
    [{100: 5.0, 200: "bad", 300: 12.5}]): none of the three ids is in the
    tables, so the reading has no column at all. *)
Example scenario_ids_are_unknown :
  transformPowerData
    (Object (list_to_map
       [ ("100", Sample.num 5); ("200", JStr "bad");
         ("300", JNum (Sample.dec 125 1)) ]))
  = Return ∅.
Proof. vm_compute. reflexivity. Qed.

(** The station's map gives id 75428 to [muxPower1]; the frame carries
    75428; the row written has no [muxPower1] and holds the value under
    [muxPower5], the field of the global table. *)
Lemma station_map_is_not_consulted :
  let stored := ChiangMaiClient.getStationMonitoredObjects
                  [("muxPower1", 75428%N)] in
  let c := ChiangMaiClient.loadMonitoredObjects (Some (Return stored)) in
  let c' := ChiangMaiClient.onNotification c
              (Sample.frameAt 0 {[ "75428" := Sample.num 5 ]}) in
  ChiangMaiClient.objectMap stored !! "muxPower1" = Some 75428%N
  /\ exists row,
       ChiangMaiClient.written c' = [row]
       /\ columns row !! "muxPower1" = None
       /\ columns row !! "muxPower5" = Some (Sample.column 5).
Proof.
  split; [vm_compute; reflexivity|].
  eexists. split; [vm_compute; reflexivity|].
  split; vm_compute; reflexivity.
Qed.

End ResolutionOrder.

(** ** Throttled writes *)

Section Throttle.
Import DatabaseService Resolution StationMonitor RunSpec.

(** C2, as the code has it. A changed reading is written at once when the
    store is there and takes the row, no write is younger than
    [dbSaveInterval] by the clock [saveToDatabase] reads, and [displayData]
    and the transformation complete on the buffer the reading leaves. It
    opens the window: whatever arrives before the interval has passed is
    not written. So the window has exactly one write, and its row holds
    the buffer as the first reading left it, not the most recent one. The
    row of a station monitor bears the time of the update, that of the
    Chiang Mai client the time [saveToDatabase] read. The call to the store
    is taken to settle before the next reading is handled. *)
Theorem throttle_writes_first_reading
    (m : StationMonitor.t) (f : frame) (later : list frame) :
  syncData f !! "hasOwnProperty" = None ->
  changes (monitoredObjects m) (dataBuffer m) f ->
  database m = true ->
  storeAccepts f = true ->
  throttled m (saveNow f) = false ->
  displayData (onNotification m f) = Return tt ->
  readable (dataBuffer (onNotification m f)) tables ->
  Forall (fun g => (saveNow g - saveNow f < dbSaveInterval m)%Z) later ->
  written (run m (f :: later))
  = written m ++ [rowOf (now f) (dataBuffer (onNotification m f))]
  /\ forall c,
       changes (ChiangMaiClient.monitoredObjects c)
         (ChiangMaiClient.meterData c) f ->
       ChiangMaiClient.database c = true ->
       ChiangMaiClient.throttled c (saveNow f) = false ->
       ChiangMaiClient.displayData (ChiangMaiClient.onNotification c f)
       = Return tt ->
       readable
         (ChiangMaiClient.meterData (ChiangMaiClient.onNotification c f))
         tables ->
       Forall (fun g => (saveNow g - saveNow f
                         < ChiangMaiClient.dbSaveInterval c)%Z) later ->
       ChiangMaiClient.written (ChiangMaiClient.run c (f :: later))
       = ChiangMaiClient.written c
         ++ [rowOf (saveNow f)
               (ChiangMaiClient.meterData
                  (ChiangMaiClient.onNotification c f))].
Proof.
  intros Hown Hch Hdb Hacc Hthr Hshow Hread Hlater. split.
  - destruct (onNotification_changes m f Hown Hch) as (Hw & Hl & Hi).
    rewrite (proj2 (monitorWrites_iff m f)) in Hw, Hl by done.
    cbn [run fold_left]. fold (run (onNotification m f) later).
    destruct (run_throttled later (onNotification m f) (saveNow f))
      as [Hw' _].
    + done.
    + by rewrite Hi.
    + by rewrite Hw', Hw.
  - intros c Hch' Hdb' Hthr' Hshow' Hread' Hlater'.
    destruct (client_onNotification_changes c f Hown Hch') as (Hw & Hl & Hi).
    rewrite (proj2 (clientWrites_iff c f)) in Hw, Hl by done.
    cbn [ChiangMaiClient.run fold_left].
    fold (ChiangMaiClient.run (ChiangMaiClient.onNotification c f) later).
    destruct (client_run_throttled later (ChiangMaiClient.onNotification c f)
                (saveNow f)) as [Hw' _].
    + done.
    + by rewrite Hi.
    + by rewrite Hw', Hw.
Qed.

Lemma throttle_writes_first_reading_witness :
  let m := StationMonitor.new defaultMonitoredObjects true in
  let f := Sample.frameAt 0 {[ "8684" := Sample.num 1 ]} in
  let later := [Sample.frameAt 3000 {[ "8684" := Sample.num 2 ]};
                Sample.frameAt 6000 {[ "8684" := Sample.num 3 ]}] in
  written (run m (f :: later))
  = written m ++ [rowOf (now f) (dataBuffer (onNotification m f))]
  /\ forall c,
       changes (ChiangMaiClient.monitoredObjects c)
         (ChiangMaiClient.meterData c) f ->
       ChiangMaiClient.database c = true ->
       ChiangMaiClient.throttled c (saveNow f) = false ->
       ChiangMaiClient.displayData (ChiangMaiClient.onNotification c f)
       = Return tt ->
       readable
         (ChiangMaiClient.meterData (ChiangMaiClient.onNotification c f))
         tables ->
       Forall (fun g => (saveNow g - saveNow f
                         < ChiangMaiClient.dbSaveInterval c)%Z) later ->
       ChiangMaiClient.written (ChiangMaiClient.run c (f :: later))
       = ChiangMaiClient.written c
         ++ [rowOf (saveNow f)
               (ChiangMaiClient.meterData
                  (ChiangMaiClient.onNotification c f))].
Proof.
  apply (throttle_writes_first_reading
           (StationMonitor.new defaultMonitoredObjects true)
           (Sample.frameAt 0 {[ "8684" := Sample.num 1 ]})
           [Sample.frameAt 3000 {[ "8684" := Sample.num 2 ]};
            Sample.frameAt 6000 {[ "8684" := Sample.num 3 ]}]).
  - vm_compute. reflexivity.
  - exists 8684%N, (Sample.num 1).
    split; [apply (bool_decide_unpack _); vm_compute; exact I|].
    split; vm_compute; reflexivity.
  - reflexivity.
  - reflexivity.
  - reflexivity.
  - vm_compute. reflexivity.
  - apply transformPowerData_readable. eexists. vm_compute. reflexivity.
  - repeat constructor.
Defined.

(** Two changed readings 3 s apart: one row, and it holds the value of the
    first reading (1), not that of the most recent one (2). *)
Lemma throttle_drops_latest_reading :
  let m := StationMonitor.new defaultMonitoredObjects true in
  let first := Sample.frameAt 0 {[ "8684" := Sample.num 1 ]} in
  let latest := Sample.frameAt 3000 {[ "8684" := Sample.num 2 ]} in
  changes (monitoredObjects m) (dataBuffer m) first
  /\ changes (monitoredObjects m) (dataBuffer (run m [first])) latest
  /\ exists row,
       written (run m [first; latest]) = [row]
       /\ columns row !! "activePower1" = Some (Sample.column 1)
       /\ columns row !! "activePower1" <> Some (Sample.column 2).
Proof.
  split; [|split].
  - exists 8684%N, (Sample.num 1).
    split; [apply (bool_decide_unpack _); vm_compute; exact I|].
    split; vm_compute; reflexivity.
  - exists 8684%N, (Sample.num 2).
    split; [apply (bool_decide_unpack _); vm_compute; exact I|].
    split; vm_compute; reflexivity.
  - eexists. split; [vm_compute; reflexivity|].
    split; [vm_compute; reflexivity|].
    vm_compute. intros H. discriminate H.
Qed.

(** A first changed reading whose value owns a [toString] property is not
    written: [displayData] throws on it before [saveToDatabase] is
    called, and the value stays in the buffer, so that no later reading is
    written either until the object is reported with a value that
    prints. *)
Example unprintable_reading_is_not_written :
  let m := StationMonitor.new defaultMonitoredObjects true in
  let f := Sample.frameAt 0
             {[ "8684" := JObj {[ "toString" := Sample.num 1 ]} ]} in
  let g := Sample.frameAt 20000 {[ "8685" := Sample.num 2 ]} in
  changes (monitoredObjects m) (dataBuffer m) f
  /\ written (onNotification m f) = []
  /\ written (run m [f; g]) = [].
Proof.
  split; [|split].
  - exists 8684%N, (JObj {[ "toString" := Sample.num 1 ]}).
    split; [apply (bool_decide_unpack _); vm_compute; exact I|].
    split; vm_compute; reflexivity.
  - vm_compute. reflexivity.
  - vm_compute. reflexivity.
Qed.

End Throttle.

(** ** Unchanged readings *)

Section Dedupe.
Import DatabaseService Resolution StationMonitor RunSpec.

(** C8, as the code has it. The comparison is made on the raw monitored
    values, before any normalization, and the write it triggers still has
    to pass [displayData], the throttle, the transformation and the store.
    A frame whose [sync] object shadows [hasOwnProperty], or whose
    monitored values all equal the buffered ones, writes nothing. A frame
    that changes one of them writes exactly one row if the store is there
    and takes the row, no write is younger than [dbSaveInterval], and
    [displayData] and the transformation complete on the buffer the frame
    leaves; it writes nothing otherwise. The same holds of the Chiang Mai
    client, whose row bears the time [saveToDatabase] read. The call to the
    store of an earlier write is taken to have settled. *)
Theorem dedupe_then_throttle (m : StationMonitor.t) (f : frame) :
  (is_Some (syncData f !! "hasOwnProperty")
   \/ (syncData f !! "hasOwnProperty" = None
       /\ repeats (monitoredObjects m) (dataBuffer m) f) ->
   written (onNotification m f) = written m)
  /\ (syncData f !! "hasOwnProperty" = None ->
      changes (monitoredObjects m) (dataBuffer m) f ->
      written (onNotification m f)
      = if monitorWrites m f
        then written m ++ [rowOf (now f) (dataBuffer (onNotification m f))]
        else written m)
  /\ (monitorWrites m f = true
      <-> database m = true /\ storeAccepts f = true
          /\ throttled m (saveNow f) = false
          /\ displayData (onNotification m f) = Return tt
          /\ readable (dataBuffer (onNotification m f)) tables)
  /\ forall c,
       (is_Some (syncData f !! "hasOwnProperty")
        \/ (syncData f !! "hasOwnProperty" = None
            /\ repeats (ChiangMaiClient.monitoredObjects c)
                 (ChiangMaiClient.meterData c) f) ->
        ChiangMaiClient.written (ChiangMaiClient.onNotification c f)
        = ChiangMaiClient.written c)
       /\ (syncData f !! "hasOwnProperty" = None ->
           changes (ChiangMaiClient.monitoredObjects c)
             (ChiangMaiClient.meterData c) f ->
           ChiangMaiClient.written (ChiangMaiClient.onNotification c f)
           = if clientWrites c f
             then ChiangMaiClient.written c
                  ++ [rowOf (saveNow f)
                        (ChiangMaiClient.meterData
                           (ChiangMaiClient.onNotification c f))]
             else ChiangMaiClient.written c)
       /\ (clientWrites c f = true
           <-> ChiangMaiClient.database c = true /\ storeAccepts f = true
               /\ ChiangMaiClient.throttled c (saveNow f) = false
               /\ ChiangMaiClient.displayData
                    (ChiangMaiClient.onNotification c f) = Return tt
               /\ readable
                    (ChiangMaiClient.meterData
                       (ChiangMaiClient.onNotification c f)) tables).
Proof.
  split; [|split; [|split]].
  - intros [[w Hown]|[Hown Hrep]].
    + destruct (updateValues (syncData f) (monitoredObjects m) (dataBuffer m)
                  false) as [[buffer changed]|e] eqn:Hrun.
      * destruct (monitoredObjects m) as [|id rest] eqn:Hmon.
        -- cbn in Hrun. injection Hrun as <- <-.
           destruct (onNotification_written m f (dataBuffer m) false)
             as [-> _]; [by rewrite Hmon|done].
        -- destruct (updateValues_Throw (syncData f) id rest (dataBuffer m)
                       false) as [e He]; [by eexists|congruence].
      * by rewrite (onNotification_Throw m f e Hrun).
    + by destruct (onNotification_repeats m f Hown Hrep).
  - intros Hown Hch.
    by destruct (onNotification_changes m f Hown Hch).
  - apply monitorWrites_iff.
  - intros c. split; [|split].
    + intros [[w Hown]|[Hown Hrep]].
      * unfold ChiangMaiClient.onNotification.
        destruct (ChiangMaiClient.monitoredObjects c) as [|id rest] eqn:Hmon.
        -- done.
        -- destruct (updateValues_Throw (syncData f) id rest
                       (ChiangMaiClient.meterData c) false) as [e ->];
             [by eexists|done].
      * by rewrite client_onNotification_repeats.
    + intros Hown Hch.
      by destruct (client_onNotification_changes c f Hown Hch).
    + apply clientWrites_iff.
Qed.

Lemma dedupe_then_throttle_witness :
  let m := StationMonitor.run (StationMonitor.new [8684; 8685]%N true)
             [Sample.frameAt 0 {[ "8684" := Sample.num 1 ]}] in
  let f := Sample.frameAt 12000 {[ "8684" := Sample.num 2 ]} in
  changes (monitoredObjects m) (dataBuffer m) f
  /\ monitorWrites m f = true
  /\ written (onNotification m f)
     = written m ++ [rowOf (now f) (dataBuffer (onNotification m f))].
Proof.
  pose proof (dedupe_then_throttle
                (StationMonitor.run (StationMonitor.new [8684; 8685]%N true)
                   [Sample.frameAt 0 {[ "8684" := Sample.num 1 ]}])
                (Sample.frameAt 12000 {[ "8684" := Sample.num 2 ]}))
    as (_ & Hchanged & _).
  assert (changes [8684; 8685]%N {[ "8684" := Sample.num 1 ]}
            (Sample.frameAt 12000 {[ "8684" := Sample.num 2 ]})) as Hch.
  { exists 8684%N, (Sample.num 2).
    split; [apply (bool_decide_unpack _); vm_compute; exact I|].
    split; vm_compute; reflexivity. }
  split; [exact Hch|]. split; [vm_compute; reflexivity|].
  exact (Hchanged eq_refl Hch).
Defined.

(** Two consecutive frames 3 s apart that differ in exactly one field:
    the second changes the buffer and still adds no row. *)
Lemma changed_frame_without_write :
  let m := StationMonitor.new [8684; 8685]%N true in
  let f1 := Sample.frameAt 0
              {[ "8684" := Sample.num 1; "8685" := Sample.num 2 ]} in
  let f2 := Sample.frameAt 3000
              {[ "8684" := Sample.num 1; "8685" := Sample.num 3 ]} in
  length (written (run m [f1])) = 1
  /\ changes (monitoredObjects m) (dataBuffer (run m [f1])) f2
  /\ dataBuffer (run m [f1; f2]) !! "8685" = Some (Sample.num 3)
  /\ length (written (run m [f1; f2])) = 1.
Proof.
  split; [vm_compute; reflexivity|]. split; [|split].
  - exists 8685%N, (Sample.num 3).
    split; [apply (bool_decide_unpack _); vm_compute; exact I|].
    split; vm_compute; reflexivity.
  - vm_compute. reflexivity.
  - vm_compute. reflexivity.
Qed.

End Dedupe.

(** ** Values that are no numbers *)

Section Unparseable.
Import DatabaseService Resolution StationMonitor RunSpec.

(** C6, as the code has it. A frame that gets a row written (it changes a
    monitored value, the store is there and takes the row, no write is
    younger than [dbSaveInterval], and [displayData] completes) writes
    null into every column supplied by a value that prints and reads as no
    number; the validation finds the buffer valid. A warning about such a
    value is recorded only if the value is not of type object and the
    draw of [Math.random] made for it is below 0.1. *)
Theorem unparseable_value_is_nulled
    (m : StationMonitor.t) (f : frame) (field : string) (v : json) :
  syncData f !! "hasOwnProperty" = None ->
  changes (monitoredObjects m) (dataBuffer m) f ->
  database m = true ->
  storeAccepts f = true ->
  throttled m (saveNow f) = false ->
  displayData (onNotification m f) = Return tt ->
  claimed (dataBuffer (onNotification m f)) tables field = Some v ->
  parseFloat v = Return NaN ->
  (exists row,
     written (onNotification m f) = written m ++ [row]
     /\ timestamp row = now f
     /\ columns row !! field = Some Null)
  /\ exists validation,
       validatePowerData (random f)
         (Object (dataBuffer (onNotification m f))) = Return validation
       /\ isValid validation = true
       /\ warned (onNotification m f) = warned m ++ warnings validation
       /\ forall id w,
            InvalidNumeric id w ∈ warnings validation
            <-> dataBuffer (onNotification m f) !! id = Some w
                /\ typeofObject w = false
                /\ parseFloat w = Return NaN
                /\ (random f id < Q2Qc (1 # 10))%Qc.
Proof.
  intros Hown Hch Hdb Hacc Hthr Hshow Hclaim Hnan.
  assert (monitorWrites m f = true) as Hwrites.
  { apply monitorWrites_iff. repeat split; try done;
      by apply monitor_displays_readable. }
  split.
  - destruct (onNotification_changes m f Hown Hch) as (Hw & _ & _).
    rewrite Hwrites in Hw. eexists. split; [exact Hw|]. split; [done|].
    unfold rowOf. cbn [columns].
    rewrite foldEntries_lookup, Hclaim. unfold columnOf.
    unfold parseFloat in Hnan. destruct (unprintable v); [done|].
    apply Return_inj in Hnan. by rewrite Hnan.
  - destruct (validatePowerData_Return (random f)
                (dataBuffer (onNotification m f)))
      as (validation & Hvalid & Hisvalid & Hwarn).
    exists validation. split; [done|]. split; [done|].
    split; [by apply onNotification_warned|].
    intros id w. rewrite Hwarn. split.
    + intros (Hid & Hw & Hn & Hdraw). repeat split; try done.
      unfold parseFloat. rewrite typeofObject_printable by done.
      destruct (readNumber w); done.
    + intros (Hid & Hw & Hn & Hdraw). repeat split; try done.
      unfold parseFloat in Hn. rewrite typeofObject_printable in Hn by done.
      apply Return_inj in Hn. by rewrite Hn.
Qed.

Lemma unparseable_value_is_nulled_witness :
  let m := StationMonitor.new defaultMonitoredObjects true in
  let f := Sample.frameAt 0 {[ "8684" := JStr "bad" ]} in
  (exists row,
     written (onNotification m f) = written m ++ [row]
     /\ timestamp row = now f
     /\ columns row !! "activePower1" = Some Null)
  /\ exists validation,
       validatePowerData (random f)
         (Object (dataBuffer (onNotification m f))) = Return validation
       /\ isValid validation = true
       /\ warned (onNotification m f) = warned m ++ warnings validation
       /\ forall id w,
            InvalidNumeric id w ∈ warnings validation
            <-> dataBuffer (onNotification m f) !! id = Some w
                /\ typeofObject w = false
                /\ parseFloat w = Return NaN
                /\ (random f id < Q2Qc (1 # 10))%Qc.
Proof.
  apply (unparseable_value_is_nulled
           (StationMonitor.new defaultMonitoredObjects true)
           (Sample.frameAt 0 {[ "8684" := JStr "bad" ]})
           "activePower1" (JStr "bad")).
  - vm_compute. reflexivity.
  - exists 8684%N, (JStr "bad").
    split; [apply (bool_decide_unpack _); vm_compute; exact I|].
    split; vm_compute; reflexivity.
  - reflexivity.
  - reflexivity.
  - reflexivity.
  - vm_compute. reflexivity.
  - vm_compute. reflexivity.
  - vm_compute. reflexivity.
Defined.

(** A mapped value that is no number, and a draw of 0.5: the column is
    null and no warning is recorded. *)
Lemma unparseable_value_without_warning :
  let powerData : gmap string json := {[ "8684" := JStr "bad" ]} in
  resolve "8684" = Some "activePower1"
  /\ toColumn (powerData !! "8684") = Return Null
  /\ validatePowerData (fun _ => Q2Qc (1 # 2)) (Object powerData)
     = Return {| isValid := true; errors := []; warnings := [] |}.
Proof. repeat split; vm_compute; reflexivity. Qed.

(** A mapped value that does not even print is not stored as null: the
    transformation throws on it, and so does [displayData] before the
    write is tried. *)
Example unprintable_value_is_not_nulled :
  let v := JObj {[ "toString" := Sample.num 1 ]} in
  let m := StationMonitor.new defaultMonitoredObjects true in
  (exists e, transformPowerData (Object {[ "8684" := v ]}) = Throw e)
  /\ written (onNotification m (Sample.frameAt 0 {[ "8684" := v ]})) = [].
Proof. split; [eexists|]; vm_compute; reflexivity. Qed.

End Unparseable.

(** ** The session machine *)

Section SessionFacts.
Import Session SessionSpec.
Variable c : client.
Variable budget : nat.
Variable delay : Z.
Hypothesis Hbudget : budgeted c budget delay.

Lemma handleReconnect_handshake clock s :
  phase_of (handleReconnect c clock s) = phase_of s
  /\ sent (handleReconnect c clock s) = sent s
  /\ accepted (handleReconnect c clock s) = accepted s.
Proof. rewrite Hbudget. by destruct (_ <? _)%nat. Qed.

Lemma advance_connection clock s :
  reconnectAttempts (advance c clock s) = reconnectAttempts s
  /\ reconnectTimers (advance c clock s) = reconnectTimers s
  /\ isConnected (advance c clock s) = isConnected s
  /\ accepted (advance c clock s) = accepted s.
Proof.
  unfold advance, fireSend, fireTimeout.
  destruct (phase_of s) as [|k since|k since| |e] eqn:Hp; rewrite ?Hp;
    try done.
  - destruct (since + sendDelay <=? clock)%Z; [|by rewrite Hp].
    destruct (wsOpen s); cbn [phase_of setPhase]; [|done].
    destruct (messageTimeout c) as [limit|]; [|done].
    by destruct (_ <=? _)%Z.
  - destruct (messageTimeout c) as [limit|]; [|done].
    by destruct (_ <=? _)%Z.
Qed.

(** The order of the handshake holds in every reachable state. *)
Lemma advance_ordered clock s : ordered s -> ordered (advance c clock s).
Proof.
  assert (forall k since s, ordered s -> phase_of s = Waiting k since ->
            ordered (fireTimeout c since clock s)) as Htimeout.
  { intros k since s' (Hs & Ha & Hp) Hw. unfold fireTimeout.
    destruct (messageTimeout c) as [limit|]; [|done].
    destruct (_ <=? _)%Z; [|done].
    rewrite Hw in Hp. unfold ordered. unfold setPhase; cbn [phase_of sent accepted].
    unfold lastStep in *. repeat split; try done; lia. }
  intros Hord. unfold advance.
  destruct (phase_of s) as [|k since|k since| |e] eqn:Hp; rewrite ?Hp;
    try done.
  - destruct (since + sendDelay <=? clock)%Z; [|by rewrite Hp].
    destruct Hord as (Hs & Ha & Hph). rewrite Hp in Hph.
    destruct Hph as (Hsk & Hak & Hk).
    unfold fireSend. destruct (wsOpen s).
    + cbn [phase_of]. eapply Htimeout; [|done].
      unfold ordered. cbn [phase_of sent accepted].
      rewrite length_app. cbn [length].
      rewrite Nat.add_1_r, seq_S, <- Hs, Hsk. cbn [Nat.add].
      repeat split; done.
    + unfold setPhase; cbn [phase_of]. unfold ordered.
      cbn [phase_of sent accepted]. unfold lastStep in *.
      repeat split; try done; lia.
  - by eapply Htimeout.
Qed.

Lemma deliver_ordered clock e s : ordered s -> ordered (deliver c clock e s).
Proof.
  intros Hord. destruct e as [| |[msg|]]; cbn [deliver]; [| | |done].
  - unfold ordered. cbn [phase_of sent accepted length seq].
    repeat split; try done. unfold lastStep. lia.
  - destruct (handleReconnect_handshake clock
      {| phase_of := phase_of s; wsOpen := false; USID := USID s;
         isConnected := false; reconnectAttempts := reconnectAttempts s;
         sent := sent s; accepted := accepted s;
         reconnectTimers := reconnectTimers s |}) as (Hp & Hs & Ha).
    unfold ordered. rewrite Hp, Hs, Ha. apply Hord.
  - destruct (phase_of s) as [|k since|k since| |e] eqn:Hp; try done.
    destruct (validator c k msg); [|done].
    destruct Hord as (Hs & Ha & Hph). rewrite Hp in Hph.
    destruct Hph as (Hsk & Hak & Hk).
    unfold accept. cbn [USID phase_of sent accepted].
    destruct (if Nat.eqb k 0 then from_option _ _ _ else _) as [[]|err].
    2:{ unfold ordered. cbn [phase_of sent accepted]. by rewrite Hp. }
    cbn [USID phase_of sent accepted].
    assert ((accepted s ++ [k])%list = seq 0 (S k)) as Hacc
      by (rewrite seq_S, Ha, Hak; done).
    destruct (Nat.eqb k 0 && _).
    { unfold ordered. unfold setPhase; cbn [phase_of sent accepted].
      rewrite length_app. cbn [length]. rewrite Hak, Hsk, Nat.add_1_r.
      rewrite Hacc. repeat split; try done; try lia; by rewrite <- Hsk. }
    destruct (Nat.eqb k lastStep) eqn:Hlast.
    + apply Nat.eqb_eq in Hlast.
      unfold ordered. unfold setPhase; cbn [phase_of sent accepted].
      rewrite length_app. cbn [length]. rewrite Hak, Hsk, Nat.add_1_r.
      rewrite Hacc. repeat split; try done; try lia; by rewrite <- Hsk.
    + apply Nat.eqb_neq in Hlast.
      unfold ordered. unfold setPhase; cbn [phase_of sent accepted].
      rewrite length_app. cbn [length]. rewrite Hak, Hsk, Nat.add_1_r.
      rewrite Hacc. repeat split; try done; try lia; by rewrite <- Hsk.
Qed.

Lemma step_ordered s e : ordered s -> ordered (step c s e).
Proof. intros H. by apply deliver_ordered, advance_ordered. Qed.

Lemma run_ordered trace s : ordered s -> ordered (run c s trace).
Proof.
  revert s. induction trace as [|e trace IH]; intros s H; [done|].
  apply IH, step_ordered, H.
Qed.

Lemma initial_ordered : ordered initial.
Proof. by repeat split. Qed.

Lemma run_snoc s trace e :
  run c s (trace ++ [e])%list = step c (run c s trace) e.
Proof. unfold run. by rewrite fold_left_app. Qed.

(** An accepted step was answered: its answer is in the trace, it
    satisfied the predicate of the step, and it arrived while the client
    was waiting for it. *)
Lemma accepted_was_answered trace s k :
  k ∈ accepted (run c s trace) ->
  k ∈ accepted s \/
  exists pre clock msg post since,
    trace = (pre ++ (clock, Message (Some msg)) :: post)%list
    /\ validator c k msg = true
    /\ phase_of (advance c clock (run c s pre)) = Waiting k since.
Proof.
  induction trace as [|[clock e] trace IH] using rev_ind; [by left|].
  rewrite run_snoc. unfold step. cbn [fst snd].
  destruct (advance_connection clock (run c s trace)) as (_ & _ & _ & Hadv).
  assert (k ∈ accepted (advance c clock (run c s trace)) ->
          k ∈ accepted s \/
          exists pre clock0 msg post since,
            (trace ++ [(clock, e)])%list
            = (pre ++ (clock0, Message (Some msg)) :: post)%list
            /\ validator c k msg = true
            /\ phase_of (advance c clock0 (run c s pre)) = Waiting k since)
    as Hold.
  { rewrite Hadv. intros Hin.
    destruct (IH Hin) as [?|(pre & clock0 & msg & post & since & -> & ? & ?)];
      [by left|right].
    exists pre, clock0, msg, (post ++ [(clock, e)])%list, since.
    by rewrite <- app_assoc. }
  destruct e as [| |[msg|]]; cbn [deliver].
  - cbn [accepted]. by intros ?%elem_of_nil.
  - destruct (handleReconnect_handshake clock
      {| phase_of := phase_of (advance c clock (run c s trace));
         wsOpen := false;
         USID := USID (advance c clock (run c s trace));
         isConnected := false;
         reconnectAttempts :=
           reconnectAttempts (advance c clock (run c s trace));
         sent := sent (advance c clock (run c s trace));
         accepted := accepted (advance c clock (run c s trace));
         reconnectTimers :=
           reconnectTimers (advance c clock (run c s trace)) |})
      as (_ & _ & ->).
    done.
  - destruct (phase_of (advance c clock (run c s trace)))
      as [|j since|j since| |err] eqn:Hp; try done.
    destruct (validator c j msg) eqn:Hv; [|done].
    assert (accepted (accept c j clock msg (advance c clock (run c s trace)))
            = (accepted (advance c clock (run c s trace)) ++ [j])%list
            \/ accepted
                 (accept c j clock msg (advance c clock (run c s trace)))
               = accepted (advance c clock (run c s trace)))
      as [-> | ->]; [|..|done].
    { unfold accept. cbn [USID phase_of sent accepted].
      destruct (if Nat.eqb j 0 then from_option _ _ _ else _) as [[]|err];
        [left|by right].
      cbn [USID phase_of sent accepted].
      destruct (Nat.eqb j 0 && _); [done|]. by destruct (Nat.eqb j lastStep). }
    rewrite elem_of_app, list_elem_of_singleton.
    intros [Hin| ->]; [by apply Hold|].
    right. by exists trace, clock, msg, [], since.
  - done.
Qed.

End SessionFacts.

(** ** Order of the handshake *)

Section HandshakeOrder.
Import Session SessionSpec.

Lemma stationMonitor_budgeted :
  budgeted StationMonitorSession.client
    StationMonitorSession.maxReconnectAttempts
    StationMonitorSession.reconnectInterval.
Proof. done. Qed.

Lemma chiangMai_budgeted :
  budgeted ChiangMaiSession.client ChiangMaiSession.maxReconnectAttempts
    ChiangMaiSession.reconnectDelay.
Proof.
  intros clock s. cbn [handleReconnect ChiangMaiSession.client].
  unfold ChiangMaiSession.handleReconnect.
  destruct (Nat.leb_spec ChiangMaiSession.maxReconnectAttempts
              (reconnectAttempts s));
    destruct (Nat.ltb_spec (reconnectAttempts s)
                ChiangMaiSession.maxReconnectAttempts); done || lia.
Qed.

Lemma ordered_sent_accepted s j :
  ordered s -> S j ∈ sent s -> j ∈ accepted s.
Proof.
  intros (Hs & Ha & Hp) Hin.
  rewrite Hs in Hin. apply elem_of_seq in Hin.
  rewrite Ha. apply elem_of_seq.
  destruct (phase_of s); unfold lastStep in *; lia.
Qed.

Lemma ordered_sent_bound s :
  ordered s -> exists n, sent s = seq 0 n /\ n <= 8.
Proof.
  intros (Hs & Ha & Hp). exists (length (sent s)). split; [done|].
  destruct (phase_of s); unfold lastStep in *; lia.
Qed.

Lemma ordered_first_accepted s :
  ordered s -> lastStep ∈ sent s \/ phase_of s = Monitoring ->
  0 ∈ accepted s.
Proof.
  intros (Hs & Ha & Hp) Hlate. rewrite Ha. apply elem_of_seq.
  destruct Hlate as [Hin|Hmon].
  - rewrite Hs in Hin. apply elem_of_seq in Hin.
    destruct (phase_of s); unfold lastStep in *; lia.
  - rewrite Hmon in Hp. unfold lastStep in *. lia.
Qed.

Lemma handshake_order_of_client c budget delay trace k :
  budgeted c budget delay ->
  let s := run c initial trace in
  (exists n, sent s = seq 0 n /\ n <= 8)
  /\ (S k ∈ sent s ->
      exists pre clock msg post since,
        trace = pre ++ (clock, Message (Some msg)) :: post
        /\ validator c k msg = true
        /\ phase_of (advance c clock (run c initial pre)) = Waiting k since
        /\ S k ∉ sent (advance c clock (run c initial pre)))
  /\ (lastStep ∈ sent s \/ phase_of s = Monitoring ->
      exists clock msg,
        (clock, Message (Some msg)) ∈ trace /\ validator c 0 msg = true).
Proof.
  intros Hb s.
  pose proof (run_ordered c budget delay Hb trace initial initial_ordered)
    as Hord.
  split; [by apply ordered_sent_bound|]. split.
  - intros Hin. apply (ordered_sent_accepted _ _ Hord) in Hin.
    destruct (accepted_was_answered c budget delay Hb trace initial k Hin)
      as [Hnil|(pre & clock & msg & post & since & Htr & Hv & Hw)].
    { by apply elem_of_nil in Hnil. }
    exists pre, clock, msg, post, since. repeat split; try done.
    pose proof (advance_ordered c clock _
                  (run_ordered c budget delay Hb pre initial initial_ordered))
      as (Hs & _ & Hp).
    rewrite Hw in Hp. rewrite Hs, elem_of_seq. lia.
  - intros Hlate. apply (ordered_first_accepted _ Hord) in Hlate.
    destruct (accepted_was_answered c budget delay Hb trace initial 0 Hlate)
      as [Hnil|(pre & clock & msg & post & since & Htr & Hv & Hw)].
    { by apply elem_of_nil in Hnil. }
    exists clock, msg. split; [|done].
    rewrite Htr, elem_of_app. right. apply list_elem_of_here.
Qed.

(** C3. Whatever the socket delivers and whenever, on either client: the
    requests written to a socket are the ids 0, 1, 2, ... in this order;
    request [k + 1] is on the wire only if, earlier in the trace, an
    answer satisfying the predicate of step [k] arrived while the client
    was waiting for step [k] and before request [k + 1] went out; and
    neither the registration request (id 7) is sent nor monitoring started
    unless an answer with id 0 carrying a session token was delivered. *)
Theorem handshake_steps_in_order
    (c : client) (trace : list (Z * event)) (k : nat) :
  c = StationMonitorSession.client \/ c = ChiangMaiSession.client ->
  let s := run c initial trace in
  (exists n, sent s = seq 0 n /\ n <= 8)
  /\ (S k ∈ sent s ->
      exists pre clock msg post since,
        trace = pre ++ (clock, Message (Some msg)) :: post
        /\ validator c k msg = true
        /\ phase_of (advance c clock (run c initial pre)) = Waiting k since
        /\ S k ∉ sent (advance c clock (run c initial pre)))
  /\ (lastStep ∈ sent s \/ phase_of s = Monitoring ->
      exists clock msg,
        (clock, Message (Some msg)) ∈ trace
        /\ idIs 0 msg = true /\ hasUSID msg = true).
Proof.
  intros Hc s.
  assert (exists budget delay, budgeted c budget delay) as (b & d & Hb).
  { destruct Hc as [-> | ->]; eexists _, _;
      [apply stationMonitor_budgeted|apply chiangMai_budgeted]. }
  destruct (handshake_order_of_client c b d trace k Hb) as (H1 & H2 & H3).
  split; [done|]. split; [done|].
  intros Hlate. destruct (H3 Hlate) as (clock & msg & Hin & Hv).
  exists clock, msg. split; [done|].
  assert (validator c 0 msg = idIs 0 msg && hasUSID msg) as Hv0
    by (by destruct Hc as [-> | ->]).
  rewrite Hv0 in Hv. by apply andb_true_iff in Hv.
Qed.

End HandshakeOrder.

Section HandshakeExamples.
Import Session SessionSpec.

Example prompt_station_is_monitored :
  let s := run StationMonitorSession.client initial Sample.promptStation in
  phase_of s = Monitoring /\ sent s = seq 0 8
  /\ USID s = Some (JStr "a1b2c3d4e5f6").
Proof. repeat split; vm_compute; reflexivity. Qed.

Lemma handshake_steps_in_order_witness :
  let c := StationMonitorSession.client in
  let trace := Sample.promptStation in
  let s := run c initial trace in
  (exists n, sent s = seq 0 n /\ n <= 8)
  /\ (7 ∈ sent s ->
      exists pre clock msg post since,
        trace = pre ++ (clock, Message (Some msg)) :: post
        /\ validator c 6 msg = true
        /\ phase_of (advance c clock (run c initial pre)) = Waiting 6 since
        /\ 7 ∉ sent (advance c clock (run c initial pre)))
  /\ (lastStep ∈ sent s \/ phase_of s = Monitoring ->
      exists clock msg,
        (clock, Message (Some msg)) ∈ trace
        /\ idIs 0 msg = true /\ hasUSID msg = true).
Proof.
  apply (handshake_steps_in_order StationMonitorSession.client
           Sample.promptStation 6).
  left. reflexivity.
Defined.

End HandshakeExamples.

(** ** The bounded wait of the monitor *)

Section HandshakeTimeout.
Import Session SessionSpec.

Lemma advance_waiting (c : client) clock s k since :
  phase_of s = Waiting k since ->
  advance c clock s = fireTimeout c since clock s.
Proof. intros Hp. unfold advance. rewrite Hp. cbv iota. by rewrite Hp. Qed.

Lemma advance_failed (c : client) clock s e :
  phase_of s = Failed e -> advance c clock s = s.
Proof. intros Hp. unfold advance. rewrite Hp. cbv iota. by rewrite Hp. Qed.

Lemma fireTimeout_monitor since clock s :
  fireTimeout StationMonitorSession.client since clock s
  = if (since + 5000 <=? clock)%Z
    then setPhase (Failed (Error "Message timeout")) s else s.
Proof. done. Qed.

Lemma advance_stalled s0 k since clock s :
  stalled s0 k since s ->
  stalled s0 k since (advance StationMonitorSession.client clock s).
Proof.
  intros ([Hp|Hp] & Hs & Ha & Ht).
  - rewrite (advance_waiting _ _ _ _ _ Hp), fireTimeout_monitor.
    destruct (_ <=? _)%Z.
    + unfold stalled, setPhase.
      cbn [phase_of sent reconnectAttempts reconnectTimers]. by auto.
    + unfold stalled. by auto.
  - rewrite (advance_failed _ _ _ _ Hp). unfold stalled. by auto.
Qed.

Lemma step_stalled s0 k since s e :
  stalled s0 k since s ->
  (exists data, e.2 = Message data /\
     forall msg, data = Some msg ->
                 validator StationMonitorSession.client k msg = false) ->
  stalled s0 k since (step StationMonitorSession.client s e).
Proof.
  intros Hst (data & He & Hv). unfold step. rewrite He.
  apply (advance_stalled _ _ _ e.1) in Hst.
  destruct data as [msg|]; cbn [deliver]; [|done].
  destruct Hst as ([Hp|Hp] & Hrest); rewrite Hp.
  - rewrite (Hv msg eq_refl). by split; [left|].
  - by split; [right|].
Qed.

Lemma run_stalled s0 k since trace s :
  stalled s0 k since s ->
  unanswered StationMonitorSession.client k trace ->
  stalled s0 k since (run StationMonitorSession.client s trace).
Proof.
  revert s. induction trace as [|e trace IH]; intros s Hst Hun; [done|].
  inversion Hun as [|e' trace' He Hrest]; subst e' trace'.
  cbn [run fold_left]. apply IH; [|done]. by apply step_stalled.
Qed.

(** C7, as the monitor has it. Each wait of the handshake is bounded by
    5 seconds. A message that the predicate of the step rejects is
    ignored and the wait goes on. If no accepted answer has come when the
    5 seconds are over, the handshake stops with "Message timeout": no
    further request is sent. The failure goes to the caller of
    [initializeSession]; it does not enter the reconnection path, which
    only a closing socket does: the attempt counter and the reconnect
    timers are as they were. *)
Theorem handshake_wait_times_out
    (s : Session.t) (k : nat) (since clock : Z)
    (trace : list (Z * event)) :
  phase_of s = Waiting k since ->
  unanswered StationMonitorSession.client k trace ->
  (since + 5000 <= clock)%Z ->
  let s' := advance StationMonitorSession.client clock
              (run StationMonitorSession.client s trace) in
  phase_of s' = Failed (Error "Message timeout")
  /\ sent s' = sent s
  /\ reconnectAttempts s' = reconnectAttempts s
  /\ reconnectTimers s' = reconnectTimers s
  /\ forall t msg,
       (t < since + 5000)%Z ->
       validator StationMonitorSession.client k msg = false ->
       step StationMonitorSession.client s (t, Message (Some msg)) = s.
Proof.
  intros Hp Hun Hclock s'.
  assert (forall t msg,
            (t < since + 5000)%Z ->
            validator StationMonitorSession.client k msg = false ->
            step StationMonitorSession.client s (t, Message (Some msg)) = s)
    as Hignored.
  { intros t msg Hlt Hv. unfold step. cbn [fst snd].
    rewrite (advance_waiting _ _ _ _ _ Hp), fireTimeout_monitor.
    rewrite (proj2 (Z.leb_gt _ _) Hlt). cbn [deliver].
    by rewrite Hp, Hv. }
  assert (stalled s k since (run StationMonitorSession.client s trace))
    as ([Hq|Hq] & Hs & Ha & Ht).
  { apply run_stalled; [|done]. by split; [left|]. }
  - subst s'. rewrite (advance_waiting _ _ _ _ _ Hq), fireTimeout_monitor.
    rewrite (proj2 (Z.leb_le _ _) Hclock).
    unfold setPhase. cbn [phase_of sent reconnectAttempts reconnectTimers].
    by repeat split.
  - subst s'. rewrite (advance_failed _ _ _ _ Hq). by repeat split.
Qed.

Lemma handshake_wait_times_out_witness :
  let s := run StationMonitorSession.client initial
             [(0, Open); (1000, Message None)]%Z in
  let trace := [(1500, Message (Some (Sample.trueAnswer 7)));
                (2500, Message None)]%Z in
  let s' := advance StationMonitorSession.client 6000
              (run StationMonitorSession.client s trace) in
  phase_of s' = Failed (Error "Message timeout")
  /\ sent s' = sent s
  /\ reconnectAttempts s' = reconnectAttempts s
  /\ reconnectTimers s' = reconnectTimers s
  /\ forall t msg,
       (t < 1000 + 5000)%Z ->
       validator StationMonitorSession.client 0 msg = false ->
       step StationMonitorSession.client s (t, Message (Some msg)) = s.
Proof.
  apply (handshake_wait_times_out
           (run StationMonitorSession.client initial
              [(0, Open); (1000, Message None)]%Z)
           0 1000 6000
           [(1500, Message (Some (Sample.trueAnswer 7)));
            (2500, Message None)]%Z).
  - vm_compute. reflexivity.
  - repeat constructor.
    + exists (Some (Sample.trueAnswer 7)). split; [reflexivity|].
      intros msg [= <-]. vm_compute. reflexivity.
    + exists None. split; [reflexivity|]. intros msg H. discriminate H.
  - vm_compute. discriminate.
Defined.

(** An answer to step 0 without a token fails the predicate and the
    handshake goes on to accept the next answer; and when the wait times
    out, no reconnect has been scheduled or counted. *)
Lemma rejected_answer_does_not_abort :
  let bad := Session.Message (Some (Sample.plainAnswer 0)) in
  let good := Session.Message (Some Sample.tokenAnswer) in
  validator StationMonitorSession.client 0 (Sample.plainAnswer 0) = false
  /\ phase_of (run StationMonitorSession.client initial
                 [(0, Open); (1500, bad); (2000, good)]%Z)
     = Sending 1 2000
  /\ let timedOut :=
       advance StationMonitorSession.client 6000
         (run StationMonitorSession.client initial [(0, Open); (1500, bad)]%Z)
     in
     phase_of timedOut = Failed (Error "Message timeout")
     /\ reconnectAttempts timedOut = 0
     /\ reconnectTimers timedOut = [].
Proof. repeat split; vm_compute; reflexivity. Qed.

(** The waits of the Chiang Mai client set no timer: an unanswered step
    is waited for without end. *)
Lemma chiangmai_wait_has_no_timeout s k since clock trace :
  phase_of s = Waiting k since ->
  unanswered ChiangMaiSession.client k trace ->
  phase_of (advance ChiangMaiSession.client clock
              (run ChiangMaiSession.client s trace))
  = Waiting k since.
Proof.
  intros Hp Hun.
  assert (forall s clock, phase_of s = Waiting k since ->
            advance ChiangMaiSession.client clock s = s) as Hadv.
  { intros s0 clock0 Hp0. by rewrite (advance_waiting _ _ _ _ _ Hp0). }
  assert (phase_of (run ChiangMaiSession.client s trace) = Waiting k since)
    as Hq.
  { revert s Hp. induction trace as [|e trace IH]; intros s Hp; [done|].
    inversion Hun as [|e' trace' (data & He & Hv) Hrest]; subst e' trace'.
    cbn [run fold_left]. apply IH; [done|].
    unfold step. rewrite (Hadv _ _ Hp), He.
    destruct data as [msg|]; cbn [deliver]; [|done].
    by rewrite Hp, (Hv msg eq_refl). }
  by rewrite (Hadv _ _ Hq).
Qed.

End HandshakeTimeout.

(** ** The reconnection budget *)

Section ReconnectBudget.
Import Session SessionSpec.

Section Budgeted.
Variable c : client.
Variable budget : nat.
Variable delay : Z.
Hypothesis Hbudget : budgeted c budget delay.

(** One closure: the attempt is counted and its timer set while the
    budget lasts, and nothing happens once it is spent. *)
Lemma step_close s clock :
  let s' := step c s (clock, Close) in
  isConnected s' = false
  /\ (reconnectAttempts s < budget ->
      reconnectAttempts s' = S (reconnectAttempts s)
      /\ reconnectTimers s' = reconnectTimers s ++ [(clock + delay)%Z])
  /\ (budget <= reconnectAttempts s ->
      reconnectAttempts s' = reconnectAttempts s
      /\ reconnectTimers s' = reconnectTimers s).
Proof.
  unfold step. cbn [fst snd deliver]. rewrite Hbudget.
  cbn [reconnectAttempts].
  destruct (advance_connection c clock s) as (-> & -> & _ & _).
  destruct (Nat.ltb_spec (reconnectAttempts s) budget) as [Hlt|Hge].
  - unfold scheduleReconnect.
    cbn [isConnected reconnectAttempts reconnectTimers].
    repeat split; try done; lia.
  - cbn [isConnected reconnectAttempts reconnectTimers].
    repeat split; try done; lia.
Qed.


Lemma step_open s clock :
  reconnectAttempts (step c s (clock, Open)) = 0
  /\ isConnected (step c s (clock, Open)) = true.
Proof. done. Qed.

End Budgeted.




End ReconnectBudget.

(** ** The HTTP poller *)

Section Poller.
Import ApiDataFetcher ApiSpec.

Lemma tick_failure a clock e :
  isRunning a = true -> fetchInterval a = true ->
  errorCount a < maxErrors a ->
  let a' := tick a (clock, Rejected e) in
  maxErrors a' = maxErrors a
  /\ errorCount a' = S (errorCount a)
  /\ (S (errorCount a) < maxErrors a ->
      isRunning a' = true /\ fetchInterval a' = true)
  /\ (S (errorCount a) = maxErrors a ->
      isRunning a' = false /\ fetchInterval a' = false).
Proof.
  intros Hrun Hint Hlt. unfold tick. rewrite Hrun, Hint. cbn [andb fst snd].
  unfold fetchAndProcess.
  rewrite (proj2 (Nat.leb_gt _ _) Hlt).
  unfold setErrorCount. cbn [maxErrors errorCount].
  destruct (Nat.leb_spec (maxErrors a) (S (errorCount a))) as [Hge|Hlt'].
  - unfold stop. cbn [isRunning]. rewrite Hrun. cbn [negb].
    cbn [maxErrors errorCount isRunning fetchInterval].
    repeat split; try done; lia.
  - cbn [maxErrors errorCount isRunning fetchInterval].
    repeat split; try done; lia.
Qed.

Lemma apiKeys_prefixes :
  Forall (fun entry : string * string =>
            startsWith "mux" entry.1 || startsWith "power" entry.1 = true)
         apiKeys.
Proof. repeat constructor. Qed.

Lemma processable_readable apiData :
  processable apiData -> Resolution.readable apiData apiKeys.
Proof.
  intros [Hown Hprint]. split; [done|].
  intros key field v Hin Hkey. apply (Hprint key v Hkey).
  pose proof apiKeys_prefixes as Hall. rewrite Forall_forall in Hall.
  by apply (Hall (key, field)), list_elem_of_In.
Qed.

(** [validateApiData] completes exactly on the data that can be
    processed, and finds them valid. *)
Lemma validateApiData_processable apiData :
  processable apiData
  <-> exists validation,
        validateApiData (Object apiData) = Return validation.
Proof.
  unfold validateApiData. split.
  - intros [Hown Hprint].
    assert (forall fields,
              exists missing,
                missingRequiredFields apiData fields = Return missing)
      as Hmissing.
    { induction fields as [|field fields [missing IH]]; [by eexists|].
      cbn [missingRequiredFields]. unfold hasOwnProperty. rewrite Hown, IH.
      by eexists. }
    destruct (Hmissing requiredFields) as [missing ->].
    destruct (collect_Return
                (fun entry : string * json => validateField entry.1 entry.2)
                (map_to_list apiData)) as (found & -> & _).
    { intros [field v] Hin%elem_of_map_to_list. cbn [fst snd].
      unfold validateField.
      destruct (startsWith "mux" field || startsWith "power" field) eqn:Hp;
        [|by eexists].
      unfold parseFloat. rewrite (Hprint field v) by done. by eexists. }
    by eexists.
  - intros [validation Hvalid]. split.
    + destruct (apiData !! "hasOwnProperty") as [w|] eqn:Hown; [|done].
      unfold requiredFields in Hvalid. cbn [missingRequiredFields] in Hvalid.
      unfold hasOwnProperty in Hvalid. by rewrite Hown in Hvalid.
    + intros field v Hfield Hp.
      destruct (unprintable v) eqn:Hv; [|done].
      destruct (missingRequiredFields apiData requiredFields); [|done].
      cbn [mbind outcome_bind Js.bind] in Hvalid.
      destruct (collect_Throw
                  (fun entry : string * json =>
                     validateField entry.1 entry.2)
                  (map_to_list apiData) (field, v)
                  (TypeError "Cannot convert object to primitive value"))
        as [e He].
      * by apply elem_of_map_to_list.
      * cbn [fst snd]. unfold validateField, parseFloat. by rewrite Hp, Hv.
      * by rewrite He in Hvalid.
Qed.

Lemma validateApiData_valid apiData validation :
  validateApiData (Object apiData) = Return validation ->
  isValid validation = true.
Proof.
  unfold validateApiData.
  destruct (missingRequiredFields _ _); [|done].
  cbn [mbind outcome_bind Js.bind].
  destruct (collect _ _); [|done].
  cbn [mbind outcome_bind Js.bind mret outcome_ret].
  by intros [= <-].
Qed.

Lemma displayData_processable apiData :
  processable apiData -> displayData apiData = Return tt.
Proof.
  intros Hproc. pose proof (processable_readable apiData Hproc) as [Hown Hprint].
  unfold displayData. apply forEach_Return. intros key Hin.
  apply list_elem_of_In, in_map_iff in Hin as ([key' field] & <- & Hin).
  apply list_elem_of_In in Hin. cbn [fst].
  unfold hasOwnProperty. rewrite Hown. cbn [mbind outcome_bind Js.bind].
  destruct (apiData !! key') as [v|] eqn:Hkey.
  - rewrite bool_decide_eq_true_2 by eauto. cbn [from_option].
    unfold parseFloat. by rewrite (Hprint key' field v).
  - by rewrite bool_decide_eq_false_2 by (intros [? ?]; done).
Qed.

(** Data that can be processed are, and set the count to 0. *)
Lemma processApiData_processable apiData a :
  processable apiData ->
  processApiData (Object apiData) a
  = {| isRunning := isRunning a; fetchInterval := fetchInterval a;
       lastFetch := lastFetch a;
       lastData := Some (Resolution.foldEntries apiData apiKeys ∅);
       errorCount := 0; maxErrors := maxErrors a |}.
Proof.
  intros Hproc. unfold processApiData.
  destruct (proj1 (validateApiData_processable apiData) Hproc)
    as [validation Hvalid].
  rewrite Hvalid, (validateApiData_valid apiData validation Hvalid).
  cbn [negb]. unfold transformApiData.
  rewrite transformEntries_Return by by apply processable_readable.
  by rewrite displayData_processable.
Qed.

(** Data that cannot be processed count as a failure. *)
Lemma processApiData_unprocessable apiData a :
  ~ processable apiData ->
  processApiData (Object apiData) a = setErrorCount (S (errorCount a)) a.
Proof.
  intros Hproc. unfold processApiData.
  destruct (validateApiData (Object apiData)) as [validation|e] eqn:Hvalid;
    [|done].
  exfalso. apply Hproc. apply validateApiData_processable. eauto.
Qed.

Lemma run_stopped ticks a :
  fetchInterval a = false -> run a ticks = a.
Proof.
  intros Hint. induction ticks as [|e ticks IH]; [done|].
  cbn [run fold_left]. unfold tick at 2. by rewrite Hint.
Qed.

Lemma run_failures errors a :
  isRunning a = true -> fetchInterval a = true ->
  errorCount a + length errors <= maxErrors a ->
  errorCount a < maxErrors a ->
  let a' := run a (failures errors) in
  maxErrors a' = maxErrors a
  /\ errorCount a' = errorCount a + length errors
  /\ (errorCount a + length errors < maxErrors a ->
      isRunning a' = true /\ fetchInterval a' = true)
  /\ (errorCount a + length errors = maxErrors a ->
      isRunning a' = false /\ fetchInterval a' = false).
Proof.
  revert a. induction errors as [|[clock e] errors IH];
    intros a Hrun Hint Hsum Hlt.
  - cbn. rewrite Nat.add_0_r. repeat split; try done; lia.
  - cbn [failures map run fold_left fst snd length] in *.
    fold (failures errors).
    fold (run (tick a (clock, Rejected e)) (failures errors)).
    destruct (tick_failure a clock e Hrun Hint Hlt) as (Hm & He & Hgo & Hend).
    destruct (Nat.eq_dec (S (errorCount a)) (maxErrors a)) as [Heq|Hne].
    + destruct (Hend Heq) as [Hr Hi].
      assert (errors = []) as -> by (destruct errors; [done|cbn in Hsum; lia]).
      cbn [failures map run fold_left length].
      repeat split; try done; try lia.
    + destruct (Hgo ltac:(lia)) as [Hr Hi].
      destruct (IH (tick a (clock, Rejected e)) Hr Hi) as (Hm' & He' & Hgo' & Hend');
        [rewrite Hm, He; lia|rewrite Hm, He; lia|].
      rewrite Hm', He', Hm, He.
      split; [done|]. split; [lia|]. split.
      * intros Hx. apply Hgo'. rewrite Hm, He. lia.
      * intros Hx. apply Hend'. rewrite Hm, He. lia.
Qed.

(** C9. A running poller whose count is 0 and that fails [n] fetches in
    a row: while [n] stays below [maxErrors] it keeps running with the
    timer set and the count at [n], so the next tick fetches again; at
    [n = maxErrors] it has stopped itself and cleared the timer, and no
    later tick does anything. A fetch that succeeds and whose data are
    processed sets the count back to 0; one whose data are an object that
    cannot be processed (it shadows [hasOwnProperty], or a value under a
    name that begins with "mux" or "power" does not print) counts as one
    more failure. *)
Theorem poller_stops_after_max_errors
    (a : ApiDataFetcher.t) (errors : list (Z * jsError))
    (clock : Z) (apiData : gmap string json) :
  isRunning a = true -> fetchInterval a = true ->
  errorCount a = 0 -> 0 < maxErrors a ->
  length errors <= maxErrors a ->
  let a' := run a (failures errors) in
  (length errors < maxErrors a ->
     isRunning a' = true /\ fetchInterval a' = true
     /\ errorCount a' = length errors
     /\ (processable apiData ->
         errorCount (tick a' (clock, Resolved (Object apiData))) = 0
         /\ isRunning (tick a' (clock, Resolved (Object apiData))) = true)
     /\ (~ processable apiData ->
         errorCount (tick a' (clock, Resolved (Object apiData)))
         = S (length errors)))
  /\ (length errors = maxErrors a ->
      isRunning a' = false /\ fetchInterval a' = false
      /\ forall more, run a' more = a').
Proof.
  intros Hrun Hint Hzero Hpos Hlen a'.
  destruct (run_failures errors a Hrun Hint) as (Hm & He & Hgo & Hend);
    [lia|lia|].
  fold a' in Hm, He, Hgo, Hend. rewrite Hzero in *. cbn [Nat.add] in *.
  split.
  - intros Hlt. destruct (Hgo Hlt) as [Hr Hi].
    split; [done|]. split; [done|]. split; [done|].
    assert (tick a' (clock, Resolved (Object apiData))
            = processApiData (Object apiData)
                {| isRunning := isRunning a'; fetchInterval := fetchInterval a';
                   lastFetch := Some clock; lastData := lastData a';
                   errorCount := errorCount a'; maxErrors := maxErrors a' |})
      as ->.
    { unfold tick. rewrite Hr, Hi. cbn [andb fst snd].
      unfold fetchAndProcess. rewrite Hm, He.
      rewrite (proj2 (Nat.leb_gt _ _) Hlt). by rewrite Hr, Hi. }
    split.
    + intros Hproc. rewrite processApiData_processable by done.
      cbn [errorCount isRunning]. by rewrite Hr.
    + intros Hproc. rewrite processApiData_unprocessable by done.
      cbn [setErrorCount errorCount]. by rewrite He.
  - intros Heq. destruct (Hend Heq) as [Hr Hi].
    repeat split; try done. intros more. by apply run_stopped.
Qed.

End Poller.

Section PollerExamples.
Import ApiDataFetcher ApiSpec.

Lemma poller_stops_after_max_errors_witness :
  let a := start 0 (Resolved (Object ∅)) new in
  let errors :=
    [ (10000, Error "Request timeout"); (20000, Error "Request timeout");
      (30000, Error "HTTP 500"); (40000, Error "Request timeout") ]%Z in
  let apiData : gmap string json := {[ "mux1" := Sample.num 7 ]} in
  let a' := run a (failures errors) in
  (length errors < maxErrors a ->
     isRunning a' = true /\ fetchInterval a' = true
     /\ errorCount a' = length errors
     /\ (processable apiData ->
         errorCount (tick a' (60000%Z, Resolved (Object apiData))) = 0
         /\ isRunning (tick a' (60000%Z, Resolved (Object apiData))) = true)
     /\ (~ processable apiData ->
         errorCount (tick a' (60000%Z, Resolved (Object apiData)))
         = S (length errors)))
  /\ (length errors = maxErrors a ->
      isRunning a' = false /\ fetchInterval a' = false
      /\ forall more, run a' more = a').
Proof.
  apply (poller_stops_after_max_errors
           (start 0 (Resolved (Object ∅)) new)
           [ (10000, Error "Request timeout"); (20000, Error "Request timeout");
             (30000, Error "HTTP 500"); (40000, Error "Request timeout") ]%Z
           60000 {[ "mux1" := Sample.num 7 ]}).
  - reflexivity.
  - reflexivity.
  - reflexivity.
  - vm_compute. lia.
  - vm_compute. lia.
Defined.

(** A payload whose [mux1] owns a [toString] property is fetched all
    right and still counts as a failure: [validateApiData] throws on it. *)
Example unprintable_payload_is_counted :
  let a := start 0 (Resolved (Object ∅)) new in
  let apiData : gmap string json :=
    {[ "mux1" := JObj {[ "toString" := Sample.num 1 ]} ]} in
  errorCount a = 0
  /\ errorCount (tick a (10000%Z, Resolved (Object apiData))) = 1.
Proof. split; vm_compute; reflexivity. Qed.

Example poller_stopped_after_five :
  let a := start 0 (Resolved (Object ∅)) new in
  isRunning
    (run a (failures
       [ (10000, Error "a"); (20000, Error "b"); (30000, Error "c");
         (40000, Error "d"); (50000, Error "e") ]%Z)) = false
  /\ isRunning
       (run a (failures
          [ (10000, Error "a"); (20000, Error "b"); (30000, Error "c");
            (40000, Error "d") ]%Z)) = true.
Proof. split; vm_compute; reflexivity. Qed.

End PollerExamples.

(** ** The transport of a station *)

Section TransportKind.
Import ApiDataFetcher ApiSpec.

Lemma prefix_beginsWith p s : String.prefix p s = true <-> beginsWith p s.
Proof.
  unfold beginsWith. revert s.
  induction p as [|a p IH]; intros s.
  - destruct s; cbn [String.prefix String.append]; split; by eauto.
  - destruct s as [|b s]; cbn [String.prefix String.append].
    + split; [done|]. by intros (rest & ?).
    + destruct (ascii_dec a b) as [->|Hne].
      * rewrite IH. split.
        -- intros (rest & ->). by exists rest.
        -- intros (rest & [= ->]). by exists rest.
      * split; [done|]. intros (rest & [= ? ?]). done.
Qed.

Lemma includes_contains p s : includes p s = true <-> contains p s.
Proof.
  unfold contains.
  induction s as [|b s IH]; cbn [includes].
  - rewrite orb_false_r, prefix_beginsWith. split.
    + intros (rest & ->). by exists "", rest.
    + intros (before & after & H). exists after.
      destruct before as [|x before]; [done|discriminate H].
  - rewrite orb_true_iff, prefix_beginsWith, IH. split.
    + intros [(rest & ->)|(before & after & ->)].
      * by exists "", rest.
      * by exists (String b before), after.
    + intros (before & after & H).
      destruct before as [|x before].
      * left. by exists after.
      * right. injection H as -> ->. by exists before, after.
Qed.

(** An address that begins with "https://" does not begin with
    "http://". *)
Lemma https_is_not_http rest :
  startsWith "http://" (String.append "https://" rest) = false.
Proof. done. Qed.

(** C10. A station is taken for an HTTP-polled one exactly when its
    endpoint ([ipAddress], or [ip] when that is missing or empty) begins
    with "http://" and contains "/data". So an endpoint that begins with
    "https://" always makes a WebSocket station, although the fetcher
    picks the https module for such a URL. *)
Theorem api_station_by_endpoint_shape
    (config : stationConfig) (address : string) :
  endpoint config = Some address ->
  (isApiStation config = true
   <-> beginsWith "http://" address /\ contains "/data" address)
  /\ (beginsWith "https://" address ->
      isApiStation config = false /\ transportOf config = WebSocket)
  /\ clientFor "https:" = Https.
Proof.
  unfold endpoint. intros Hend.
  assert (isApiStation config
          = negb (bool_decide (address = ""))
            && startsWith "http://" address && includes "/data" address)
    as His by (unfold isApiStation; by rewrite Hend).
  split; [|split; [|done]].
  - rewrite His, !andb_true_iff, negb_true_iff, bool_decide_eq_false.
    unfold startsWith. rewrite prefix_beginsWith, includes_contains.
    split; [by intros [[_ ?] ?]|].
    intros [Hhttp Hdata]. repeat split; try done.
    intros ->. by destruct Hhttp as (rest & ?).
  - intros (rest & ->).
    assert (isApiStation config = false) as Hfalse.
    { rewrite His, https_is_not_http. by rewrite andb_false_r. }
    split; [done|]. unfold transportOf. by rewrite Hfalse.
Qed.

Lemma api_station_by_endpoint_shape_witness :
  let config :=
    {| name := Some "Bangkok"; ipAddress := Some "https://10.9.1.5/data";
       ip := None; scene := None |} in
  (isApiStation config = true
   <-> beginsWith "http://" "https://10.9.1.5/data"
       /\ contains "/data" "https://10.9.1.5/data")
  /\ (beginsWith "https://" "https://10.9.1.5/data" ->
      isApiStation config = false /\ transportOf config = WebSocket)
  /\ clientFor "https:" = Https.
Proof.
  apply (api_station_by_endpoint_shape
           {| name := Some "Bangkok";
              ipAddress := Some "https://10.9.1.5/data";
              ip := None; scene := None |}
           "https://10.9.1.5/data").
  reflexivity.
Defined.

Example http_data_station_is_polled :
  transportOf {| name := Some "A"; ipAddress := Some "http://10.9.1.5/data";
                 ip := None; scene := None |} = HttpPoll
  /\ transportOf {| name := Some "B"; ipAddress := None;
                    ip := Some "ws://10.8.1.5/ws"; scene := Some "s" |}
     = WebSocket
  /\ analyzeStation {| name := Some "C";
                       ipAddress := Some "https://10.9.1.5/data";
                       ip := None; scene := None |} = IncompleteStation.
Proof. repeat split; vm_compute; reflexivity. Qed.

End TransportKind.

(** ** Whole runs of the pipeline *)

Section PipelineRuns.
Import DatabaseService Resolution StationMonitor RunSpec.

Lemma saveToDatabase_dataBuffer f m :
  dataBuffer (saveToDatabase f m) = dataBuffer m.
Proof. apply saveToDatabase_fields. Qed.

(** X1. After a frame whose [sync] object does not shadow [hasOwnProperty],
    the buffer holds, for every monitored object the frame reports, the
    value of the frame, and everywhere else what it held before: values of
    earlier frames stay in the buffer, and in the rows built from it, until
    a later frame reports the object again. *)
Theorem buffer_accumulates (m : StationMonitor.t) (f : frame) (k : string) :
  syncData f !! "hasOwnProperty" = None ->
  dataBuffer (onNotification m f) !! k
  = merged (monitoredObjects m) (syncData f) (dataBuffer m) k.
Proof.
  intros Hown.
  destruct (updateValues_Return (syncData f) (monitoredObjects m)
              (dataBuffer m) false Hown) as (buffer & changed & Hrun).
  destruct (onNotification_fields m f) as (_ & _ & _ & _ & ->).
  rewrite Hrun. by eapply updateValues_lookup.
Qed.

Lemma buffer_accumulates_witness :
  let m := run (new [8684; 8685]%N true)
             [Sample.frameAt 0 {[ "8684" := Sample.num 1 ]}] in
  let f := Sample.frameAt 12000 {[ "8685" := Sample.num 2 ]} in
  syncData f !! "hasOwnProperty" = None
  /\ dataBuffer (onNotification m f) !! "8684"
     = merged (monitoredObjects m) (syncData f) (dataBuffer m) "8684".
Proof.
  split; [reflexivity|].
  apply (buffer_accumulates
           (run (new [8684; 8685]%N true)
              [Sample.frameAt 0 {[ "8684" := Sample.num 1 ]}])
           (Sample.frameAt 12000 {[ "8685" := Sample.num 2 ]}) "8684").
  reflexivity.
Defined.

Lemma onNotification_monitoredObjects m f :
  monitoredObjects (onNotification m f) = monitoredObjects m
  /\ database (onNotification m f) = database m
  /\ dbSaveInterval (onNotification m f) = dbSaveInterval m.
Proof.
  by destruct (onNotification_fields m f) as (-> & _ & -> & -> & _).
Qed.

Lemma run_monitoredObjects frames m :
  monitoredObjects (run m frames) = monitoredObjects m.
Proof.
  revert m. induction frames as [|f frames IH]; intros m; [done|].
  cbn [run fold_left]. fold (run (onNotification m f) frames).
  rewrite IH. apply onNotification_monitoredObjects.
Qed.

(** Where a buffered value comes from: it was there before, or a frame
    reported it for a monitored object. *)
Lemma onNotification_origin m f k v :
  dataBuffer (onNotification m f) !! k = Some v ->
  dataBuffer m !! k = Some v
  \/ (k ∈ map toString (monitoredObjects m) /\ syncData f !! k = Some v).
Proof.
  destruct (onNotification_fields m f) as (_ & _ & _ & _ & ->).
  destruct (updateValues _ _ _ _) as [[buffer changed]|e] eqn:Hrun;
    [|by left].
  intros Hbuf.
  rewrite (updateValues_lookup _ _ _ _ _ _ k Hrun) in Hbuf.
  unfold merged in Hbuf.
  destruct (bool_decide _) eqn:Hin; [|by left].
  apply bool_decide_eq_true in Hin.
  destruct (syncData f !! k) as [w|] eqn:Hw; [|by left].
  right. split; [done|congruence].
Qed.

(** X2. The buffer of a monitor holds nothing but values that some frame
    reported for a monitored object: every key of the buffer is the text of
    a monitored id, and its value is the value some handled frame carried
    under that key. *)
Theorem buffer_holds_reported_values
    (monitoredObjects : list N) (database : bool) (frames : list frame)
    (k : string) (v : json) :
  dataBuffer (run (new monitoredObjects database) frames) !! k = Some v ->
  (exists id, id ∈ monitoredObjects /\ k = toString id)
  /\ exists f, f ∈ frames /\ syncData f !! k = Some v.
Proof.
  assert (forall m,
            dataBuffer (run m frames) !! k = Some v ->
            dataBuffer m !! k = Some v
            \/ (k ∈ map toString (StationMonitor.monitoredObjects m)
                /\ exists f, f ∈ frames /\ syncData f !! k = Some v))
    as Hall.
  { induction frames as [|f frames IH]; intros m Hk; [by left|].
    cbn [run fold_left] in Hk. fold (run (onNotification m f) frames) in Hk.
    destruct (IH _ Hk) as [Hk'|(Hin & g & Hg & Hv)].
    - destruct (onNotification_origin _ _ _ _ Hk') as [?|[Hin Hv]];
        [by left|].
      right. split; [done|]. exists f. split; [apply list_elem_of_here|done].
    - right. split.
      + by rewrite (proj1 (onNotification_monitoredObjects m f)) in Hin.
      + exists g. split; [by apply list_elem_of_further|done]. }
  intros Hk. destruct (Hall _ Hk) as [Hnew|(Hin & Hf)]; [done|].
  split; [|done].
  cbn [new StationMonitor.monitoredObjects] in Hin.
  apply list_elem_of_fmap in Hin as (id & -> & Hid). by exists id.
Qed.

Lemma buffer_holds_reported_values_witness :
  let frames := [Sample.frameAt 0 (<["99999" := JStr "x"]>
                                    {[ "8684" := Sample.num 1 ]})] in
  (exists id, id ∈ [8684; 8685]%N /\ "8684" = toString id)
  /\ exists f, f ∈ frames /\ syncData f !! "8684" = Some (Sample.num 1).
Proof.
  apply (buffer_holds_reported_values [8684; 8685]%N true
           [Sample.frameAt 0 (<["99999" := JStr "x"]>
                                {[ "8684" := Sample.num 1 ]})]
           "8684" (Sample.num 1)).
  reflexivity.
Defined.

Lemma spaced_snoc interval rows row :
  spaced interval rows ->
  (forall r, list.last rows = Some r ->
             (interval <= timestamp row - timestamp r)%Z) ->
  spaced interval (rows ++ [row]).
Proof.
  intros Hsp Hlast i r1 r2 H1 H2.
  pose proof (lookup_lt_Some _ _ _ H2) as Hlen.
  rewrite length_app in Hlen. cbn [length] in Hlen.
  destruct (decide (S i < length rows)%nat) as [Hlt|Hge].
  - rewrite lookup_app_l in H1 by lia. rewrite lookup_app_l in H2 by lia.
    by eapply Hsp.
  - rewrite lookup_app_l in H1 by lia. rewrite lookup_app_r in H2 by lia.
    replace (S i - length rows)%nat with 0%nat in H2 by lia.
    cbn in H2. injection H2 as <-.
    apply Hlast. rewrite last_lookup.
    by replace (pred (length rows)) with i by lia.
Qed.

(** What every run of a monitor keeps: the rows are spaced, and no row is
    younger than [lastDbSave]. *)
Lemma onNotification_spaced m f delay :
  (now f <= saveNow f <= now f + delay)%Z ->
  spaced (dbSaveInterval m - delay) (written m) ->
  (forall r, list.last (written m) = Some r ->
             exists s, lastDbSave m = Some s /\ (timestamp r <= s)%Z) ->
  spaced (dbSaveInterval (onNotification m f) - delay)
    (written (onNotification m f))
  /\ forall r, list.last (written (onNotification m f)) = Some r ->
       exists s, lastDbSave (onNotification m f) = Some s
                 /\ (timestamp r <= s)%Z.
Proof.
  intros Hclock Hsp Hlast.
  destruct (onNotification_fields m f) as (_ & _ & _ & -> & _).
  destruct (updateValues (syncData f) (monitoredObjects m) (dataBuffer m)
              false) as [[buffer changed]|e] eqn:Hrun.
  2:{ by rewrite (onNotification_Throw m f e Hrun). }
  destruct (onNotification_written m f buffer changed Hrun) as [-> ->].
  destruct (changed && monitorWrites m f) eqn:Hwrites; [|done].
  apply andb_true_iff in Hwrites as [_ Hwrites].
  apply monitorWrites_iff in Hwrites as (_ & _ & Hthr & _).
  split.
  - apply spaced_snoc; [done|]. intros r Hr. cbn [rowOf timestamp].
    destruct (Hlast r Hr) as (s & Hs & Hle).
    unfold throttled in Hthr. rewrite Hs in Hthr.
    apply Z.ltb_ge in Hthr. lia.
  - intros r. rewrite last_snoc. intros [= <-].
    exists (saveNow f). split; [done|]. cbn [rowOf timestamp]. lia.
Qed.

Lemma run_spaced frames m delay :
  Forall (fun f => (now f <= saveNow f <= now f + delay)%Z) frames ->
  spaced (dbSaveInterval m - delay) (written m) ->
  (forall r, list.last (written m) = Some r ->
             exists s, lastDbSave m = Some s /\ (timestamp r <= s)%Z) ->
  spaced (dbSaveInterval m - delay) (written (run m frames)).
Proof.
  revert m. induction frames as [|f frames IH]; intros m Hclock Hsp Hlast;
    [done|].
  inversion Hclock as [|f' frames' Hf Hclock']; subst f' frames'.
  cbn [run fold_left]. fold (run (onNotification m f) frames).
  destruct (onNotification_spaced m f delay Hf Hsp Hlast) as [Hsp' Hlast'].
  rewrite <- (proj2 (proj2 (onNotification_monitoredObjects m f))).
  by apply IH.
Qed.

(** The same for the Chiang Mai client, whose rows bear the time its
    throttle read. *)
Lemma client_onNotification_spaced c f :
  spaced (ChiangMaiClient.dbSaveInterval c) (ChiangMaiClient.written c) ->
  ChiangMaiClient.lastDbSave c
  = timestamp <$> list.last (ChiangMaiClient.written c) ->
  spaced (ChiangMaiClient.dbSaveInterval (ChiangMaiClient.onNotification c f))
    (ChiangMaiClient.written (ChiangMaiClient.onNotification c f))
  /\ ChiangMaiClient.lastDbSave (ChiangMaiClient.onNotification c f)
     = timestamp
         <$> list.last
               (ChiangMaiClient.written (ChiangMaiClient.onNotification c f)).
Proof.
  intros Hsp Hlast.
  destruct (client_onNotification_fields c f) as (_ & _ & _ & -> & _).
  destruct (updateValues (syncData f) (ChiangMaiClient.monitoredObjects c)
              (ChiangMaiClient.meterData c) false)
    as [[buffer changed]|e] eqn:Hrun.
  2:{ unfold ChiangMaiClient.onNotification. by rewrite Hrun. }
  destruct (client_onNotification_written c f buffer changed Hrun)
    as [-> ->].
  destruct (changed && clientWrites c f) eqn:Hwrites; [|done].
  apply andb_true_iff in Hwrites as [_ Hwrites].
  apply clientWrites_iff in Hwrites as (_ & _ & Hthr & _).
  split.
  - apply spaced_snoc; [done|]. intros r Hr. cbn [rowOf timestamp].
    unfold ChiangMaiClient.throttled in Hthr.
    rewrite Hlast, Hr in Hthr. cbn in Hthr.
    by apply Z.ltb_ge in Hthr.
  - by rewrite last_snoc.
Qed.

Lemma client_run_spaced frames c :
  spaced (ChiangMaiClient.dbSaveInterval c) (ChiangMaiClient.written c) ->
  ChiangMaiClient.lastDbSave c
  = timestamp <$> list.last (ChiangMaiClient.written c) ->
  spaced (ChiangMaiClient.dbSaveInterval c)
    (ChiangMaiClient.written (ChiangMaiClient.run c frames)).
Proof.
  revert c. induction frames as [|f frames IH]; intros c Hsp Hlast; [done|].
  cbn [ChiangMaiClient.run fold_left].
  fold (ChiangMaiClient.run (ChiangMaiClient.onNotification c f) frames).
  destruct (client_onNotification_spaced c f Hsp Hlast) as [Hsp' Hlast'].
  destruct (client_onNotification_fields c f) as (_ & _ & _ & Hint & _).
  rewrite <- Hint. by apply IH.
Qed.

(** X3. As long as the store call of every write settles before the next
    frame is handled: two rows that follow one another in what the Chiang
    Mai client has written lie at least [dbSaveInterval] (10 s) apart,
    whatever the frames hold and however the monitored objects were
    loaded. The rows of a station monitor bear the time of the update
    while its throttle reads the clock again; they lie at least 10 s less
    the longest delay between the two readings apart. *)
Theorem rows_are_spaced
    (monitoredObjects : list N) (database : bool)
    (stored : option (outcome ChiangMaiClient.monitoredData))
    (frames : list frame) (delay : Z) :
  spaced 10000
    (ChiangMaiClient.written
       (ChiangMaiClient.run
          (ChiangMaiClient.loadMonitoredObjects stored) frames))
  /\ (Forall (fun f => (now f <= saveNow f <= now f + delay)%Z) frames ->
      spaced (10000 - delay)
        (written (run (new monitoredObjects database) frames))).
Proof.
  split.
  - by apply (client_run_spaced frames
                (ChiangMaiClient.loadMonitoredObjects stored)).
  - intros Hclock.
    by apply (run_spaced frames (new monitoredObjects database) delay).
Qed.

(** What a frame leaves alone when the store does not take its row. *)
Lemma onNotification_no_store m f :
  database m = false \/ storeAccepts f = false ->
  written (onNotification m f) = written m
  /\ lastDbSave (onNotification m f) = lastDbSave m.
Proof.
  intros Hno.
  destruct (updateValues (syncData f) (monitoredObjects m) (dataBuffer m)
              false) as [[buffer changed]|e] eqn:Hrun.
  2:{ by rewrite (onNotification_Throw m f e Hrun). }
  destruct (onNotification_written m f buffer changed Hrun) as [-> ->].
  assert (monitorWrites m f = false) as ->.
  { unfold monitorWrites. cbv zeta.
    destruct Hno as [-> | ->]; [done|]. by rewrite andb_false_r. }
  by rewrite andb_false_r.
Qed.

(** X4. Without a store, or while the store rejects every row, a monitor
    writes nothing and the throttle window does not open: [lastDbSave]
    stays what it was, so the first changed reading after the store is back
    is not held off by the readings that were lost. *)
Theorem lost_rows_leave_window_closed
    (m : StationMonitor.t) (frames : list frame) :
  database m = false \/ Forall (fun f => storeAccepts f = false) frames ->
  written (run m frames) = written m
  /\ lastDbSave (run m frames) = lastDbSave m
  /\ forall clock, throttled (run m frames) clock = throttled m clock.
Proof.
  intros Hno.
  assert (written (run m frames) = written m
          /\ lastDbSave (run m frames) = lastDbSave m
          /\ dbSaveInterval (run m frames) = dbSaveInterval m)
    as (Hw & Hl & Hi).
  { revert m Hno. induction frames as [|f frames IH]; intros m Hno; [done|].
    cbn [run fold_left]. fold (run (onNotification m f) frames).
    destruct (onNotification_monitoredObjects m f) as (_ & Hdb & Hi).
    destruct (onNotification_no_store m f) as [Hw Hl].
    { destruct Hno as [?|Hall]; [by left|right].
      by inversion Hall. }
    destruct (IH (onNotification m f)) as (Hw' & Hl' & Hi').
    { destruct Hno as [?|Hall]; [left; congruence|right].
      by inversion Hall. }
    by rewrite Hw', Hl', Hi', Hw, Hl, Hi. }
  split; [done|]. split; [done|].
  intros clock. unfold throttled. by rewrite Hl, Hi.
Qed.

Lemma lost_rows_leave_window_closed_witness :
  let m := new [8684]%N true in
  let lost :=
    {| now := 0; syncData := {[ "8684" := Sample.num 1 ]}; saveNow := 0;
       storeAccepts := false; random := fun _ => Q2Qc (1 # 2) |} in
  (database m = false \/ Forall (fun f => storeAccepts f = false) [lost])
  /\ written (run m [lost]) = written m
  /\ lastDbSave (run m [lost]) = lastDbSave m
  /\ forall clock, throttled (run m [lost]) clock = throttled m clock.
Proof.
  assert (Forall (fun f => storeAccepts f = false)
            [{| now := 0; syncData := {[ "8684" := Sample.num 1 ]};
                saveNow := 0; storeAccepts := false;
                random := fun _ => Q2Qc (1 # 2) |}])
    as Hall by (repeat constructor).
  split; [by right|].
  apply (lost_rows_leave_window_closed (new [8684]%N true) _ (or_intror Hall)).
Defined.

End PipelineRuns.

(** ** The columns of a row *)

Section Columns.
Import DatabaseService Resolution.

Lemma claimed_origin powerData entries field v :
  claimed powerData entries field = Some v ->
  exists id, (id, field) ∈ entries /\ powerData !! id = Some v.
Proof.
  induction entries as [|[id f] rest IH]; [done|].
  cbn [claimed]. destruct (claimed powerData rest field) as [w|] eqn:Hrest.
  - intros [= <-]. destruct (IH eq_refl) as (id' & Hin & Hv).
    exists id'. split; [by apply list_elem_of_further|done].
  - cbn. case_bool_decide as Hf; [|done]. subst f. intros Hv.
    exists id. split; [apply list_elem_of_here|done].
Qed.

Lemma claimed_is_Some powerData entries id field v :
  (id, field) ∈ entries -> powerData !! id = Some v ->
  is_Some (claimed powerData entries field).
Proof.
  induction entries as [|[id' f] rest IH]; intros Hin Hv.
  - by apply elem_of_nil in Hin.
  - cbn [claimed].
    destruct (claimed powerData rest field) eqn:Hrest; [by eexists|].
    apply elem_of_cons in Hin as [[= <- <-]|Hin].
    + cbn. rewrite bool_decide_eq_true_2 by done. by eexists.
    + destruct (IH Hin Hv) as [w Hw]. congruence.
Qed.

Lemma claimed_None powerData entries field :
  field ∉ map snd entries -> claimed powerData entries field = None.
Proof.
  intros Hnot. destruct (claimed powerData entries field) as [v|] eqn:Hc;
    [|done].
  destruct (claimed_origin _ _ _ _ Hc) as (id & Hin & _).
  destruct Hnot. apply list_elem_of_fmap. by exists (id, field).
Qed.

Lemma claimed_app powerData xs ys field :
  claimed powerData (xs ++ ys) field
  = match claimed powerData ys field with
    | Some v => Some v
    | None => claimed powerData xs field
    end.
Proof.
  induction xs as [|x xs IH]; cbn [app claimed].
  - by destruct (claimed powerData ys field).
  - rewrite IH. by destruct (claimed powerData ys field).
Qed.

(** A column named once in a list of entries is claimed by that entry. *)
Lemma claimed_unique powerData entries id field :
  NoDup (map snd entries) -> (id, field) ∈ entries ->
  claimed powerData entries field = powerData !! id.
Proof.
  induction entries as [|[id' f] rest IH]; intros Hnd Hin.
  - by apply elem_of_nil in Hin.
  - cbn [map snd] in Hnd. apply list.NoDup_cons in Hnd as [Hf Hnd].
    cbn [claimed]. apply elem_of_cons in Hin as [[= <- <-]|Hin].
    + rewrite claimed_None by done. cbn.
      by rewrite bool_decide_eq_true_2.
    + rewrite (IH Hnd Hin).
      destruct (powerData !! id) as [v|]; [done|].
      cbn. rewrite bool_decide_eq_false_2; [done|].
      intros ->. destruct Hf. apply list_elem_of_fmap. by exists (id, field).
Qed.

Lemma claimed_direct powerData fields field :
  claimed powerData (map (fun f => (f, f)) fields) field
  = if bool_decide (field ∈ fields) then powerData !! field else None.
Proof.
  induction fields as [|g fields IH]; [done|].
  cbn [map claimed]. rewrite IH. cbn [fst snd].
  destruct (decide (g = field)) as [->|Hg].
  - rewrite (bool_decide_eq_true_2 (field ∈ field :: fields))
      by apply list_elem_of_here.
    rewrite (bool_decide_eq_true_2 (field = field)) by done.
    destruct (bool_decide (field ∈ fields)); [|done].
    by destruct (powerData !! field).
  - rewrite (bool_decide_eq_false_2 (g = field)) by done.
    destruct (bool_decide (field ∈ fields)) eqn:Hin.
    + apply bool_decide_eq_true in Hin.
      rewrite bool_decide_eq_true_2 by by apply list_elem_of_further.
      by destruct (powerData !! field).
    + apply bool_decide_eq_false in Hin.
      rewrite bool_decide_eq_false_2; [done|].
      intros Hin'. apply elem_of_cons in Hin' as [?|?]; done.
Qed.

Lemma toColumn_not_NaN v value : toColumn v = Return value -> value <> Num NaN.
Proof.
  unfold toColumn. destruct (from_option parseFloat (Return NaN) v) as [x|];
    [|done].
  cbn [mbind outcome_bind Js.bind mret outcome_ret].
  intros [= <-]. by destruct x.
Qed.

(** What [toColumn] returns for a value that prints. *)
Lemma toColumn_printable v :
  unprintable v = false -> toColumn (Some v) = Return (columnOf v).
Proof. intros Hv. by rewrite toColumn_Some, Hv. Qed.

Lemma tables_columns : Forall (fun entry => entry.2 ∈ directFields) tables.
Proof. apply (bool_decide_unpack _). by vm_compute. Qed.

(** X5. Whatever [transformPowerData] is given, the row it returns has no
    column outside the twelve fields, no column holds NaN, and every column
    comes from a property of the input that the tables pair with it. *)
Theorem columns_are_known_numbers
    (powerData : jsarg) (dbData : gmap string dbvalue)
    (field : string) (value : dbvalue) :
  transformPowerData powerData = Return dbData ->
  dbData !! field = Some value ->
  field ∈ directFields /\ value <> Num NaN
  /\ exists o id v,
       powerData = Object o /\ (id, field) ∈ tables
       /\ o !! id = Some v /\ toColumn (Some v) = Return value.
Proof.
  intros Hrun Hfield. destruct powerData as [|o].
  { cbn in Hrun. apply Return_inj in Hrun as <-. done. }
  assert (readable o tables) as [_ Hprint]
    by (apply transformPowerData_readable; eauto).
  apply transformPowerData_inv in Hrun as ->.
  rewrite foldEntries_lookup in Hfield.
  destruct (claimed o tables field) as [v|] eqn:Hc; [|done].
  injection Hfield as <-.
  destruct (claimed_origin _ _ _ _ Hc) as (id & Hin & Hv).
  assert (toColumn (Some v) = Return (columnOf v)) as Hcolumn
    by (apply toColumn_printable; by eapply Hprint).
  split; [|split; [by eapply toColumn_not_NaN|by exists o, id, v]].
  pose proof tables_columns as Hall.
  rewrite List.Forall_forall in Hall.
  apply (Hall (id, field)). by apply list_elem_of_In.
Qed.

Lemma columns_are_known_numbers_witness :
  "muxPower5" ∈ directFields /\ Sample.column 5 <> Num NaN
  /\ exists o id v,
       Object {[ "75428" := Sample.num 5 ]} = Object o
       /\ (id, "muxPower5") ∈ tables
       /\ o !! id = Some v /\ toColumn (Some v) = Return (Sample.column 5).
Proof.
  apply (columns_are_known_numbers (Object {[ "75428" := Sample.num 5 ]})
           {[ "muxPower5" := Sample.column 5 ]} "muxPower5" (Sample.column 5));
    reflexivity.
Defined.

(** X6. Where the transformation completes (the reading does not shadow
    [hasOwnProperty] and every property of it that the tables name
    prints), a property of the reading that bears the name of a column
    supplies that column, whatever raw ids the reading holds besides: the
    direct names are visited last, after both id tables. *)
Theorem direct_name_wins
    (powerData : gmap string json) (field : string) (v : json) :
  readable powerData tables ->
  field ∈ directFields ->
  powerData !! field = Some v ->
  exists dbData value,
    transformPowerData (Object powerData) = Return dbData
    /\ toColumn (Some v) = Return value
    /\ dbData !! field = Some value.
Proof.
  intros Hread Hfield Hv. exists (foldEntries powerData tables ∅), (columnOf v).
  split; [by apply transformPowerData_Return|]. split.
  - apply toColumn_printable. destruct Hread as [_ Hprint].
    apply (Hprint field field v); [|done].
    unfold tables. rewrite !elem_of_app. right. right.
    apply list_elem_of_In, in_map_iff. exists field.
    split; [done|by apply list_elem_of_In].
  - rewrite foldEntries_lookup. unfold tables.
    rewrite !claimed_app, claimed_direct.
    by rewrite bool_decide_eq_true_2, Hv.
Qed.

Lemma direct_name_wins_witness :
  let powerData : gmap string json :=
    <["8684" := Sample.num 5]> {[ "activePower1" := Sample.num 7 ]} in
  exists dbData value,
    transformPowerData (Object powerData) = Return dbData
    /\ toColumn (Some (Sample.num 7)) = Return value
    /\ dbData !! "activePower1" = Some value.
Proof.
  apply (direct_name_wins
           (<["8684" := Sample.num 5]> {[ "activePower1" := Sample.num 7 ]})
           "activePower1" (Sample.num 7)).
  - apply transformPowerData_readable. eexists. vm_compute. reflexivity.
  - apply (bool_decide_unpack _). vm_compute. reflexivity.
  - reflexivity.
Defined.

End Columns.

(** ** The rows of an API station *)

Section ApiStationRows.
Import DatabaseService Resolution ApiDataFetcher ApiRows.

Lemma apiKeys_columns : NoDup (map snd apiKeys).
Proof. apply (bool_decide_unpack _). by vm_compute. Qed.

Lemma apiKeys_directFields field :
  field ∈ map snd apiKeys <-> field ∈ directFields.
Proof.
  assert (Forall (fun f => f ∈ directFields) (map snd apiKeys)) as H1
    by (apply (bool_decide_unpack _); by vm_compute).
  assert (Forall (fun f => f ∈ map snd apiKeys) directFields) as H2
    by (apply (bool_decide_unpack _); by vm_compute).
  rewrite List.Forall_forall in H1. rewrite List.Forall_forall in H2.
  split; intros Hin.
  - apply H1. by apply list_elem_of_In.
  - apply H2. by apply list_elem_of_In.
Qed.

Lemma raw_ids_are_no_columns :
  Forall (fun entry => entry.1 ∉ directFields) (activePowerMap ++ muxPowerMap).
Proof. apply (bool_decide_unpack _). by vm_compute. Qed.

(** X7. Where [transformApiData] completes (the data do not shadow
    [hasOwnProperty] and each of the twelve API keys they own prints), its
    result has, for each of the keys [mux1..mux6] and [power1..power6] the
    data own, the column of that key with the parsed value (null when it
    reads as no number), one key per column, and no other column: keys
    outside the twelve are dropped. On other data it throws. *)
Theorem api_keys_map_to_columns (apiData : gmap string json) :
  (readable apiData apiKeys
   <-> exists transformedData, transformApiData apiData = Return transformedData)
  /\ forall transformedData,
       transformApiData apiData = Return transformedData ->
       (forall key field,
          (key, field) ∈ apiKeys ->
          match apiData !! key with
          | Some v => exists value, toColumn (Some v) = Return value
                                    /\ transformedData !! field = Some value
          | None => transformedData !! field = None
          end)
       /\ forall field,
            field ∉ directFields -> transformedData !! field = None.
Proof.
  assert (forall transformedData,
            transformApiData apiData = Return transformedData ->
            readable apiData apiKeys) as Hread.
  { intros transformedData Hrun. split.
    - destruct (apiData !! "hasOwnProperty") as [w|] eqn:Hown; [|done].
      destruct (transformEntries_Throw apiData ("mux1", "muxPower1")
                  (tail apiKeys) ∅) as [e He]; [by eexists|].
      unfold transformApiData in Hrun.
      change apiKeys with (("mux1", "muxPower1") :: tail apiKeys) in Hrun.
      congruence.
    - intros key field v Hin Hkey.
      destruct (unprintable v) eqn:Hv; [|done].
      destruct (transformEntries_unprintable apiData apiKeys ∅ key field v)
        as [e He]; try done.
      unfold transformApiData in Hrun. congruence. }
  split.
  - split; [|by intros [transformedData ?%Hread]].
    intros H. eexists. by apply transformEntries_Return.
  - intros transformedData Hrun. pose proof (Hread _ Hrun) as [_ Hprint].
    apply transformEntries_inv in Hrun as ->. split.
    + intros key field Hin. rewrite foldEntries_lookup.
      rewrite (claimed_unique apiData apiKeys key field apiKeys_columns Hin).
      destruct (apiData !! key) as [v|] eqn:Hkey; [|done].
      exists (columnOf v). split; [|done].
      apply toColumn_printable. by eapply Hprint.
    + intros field Hnot. rewrite foldEntries_columns; [done|].
      by rewrite apiKeys_directFields.
Qed.

Lemma api_keys_map_to_columns_witness :
  let apiData : gmap string json :=
    <["mux1" := Sample.num 7]>
      (<["power1" := JStr "bad"]> {[ "uptime" := Sample.num 3 ]}) in
  transformApiData apiData
  = Return (<["muxPower1" := Sample.column 7]> {[ "activePower1" := Null ]})
  /\ (forall key field,
        (key, field) ∈ apiKeys ->
        match apiData !! key with
        | Some v =>
            exists value,
              toColumn (Some v) = Return value
              /\ (<["muxPower1" := Sample.column 7]>
                    {[ "activePower1" := Null ]} : gmap string dbvalue)
                   !! field = Some value
        | None =>
            (<["muxPower1" := Sample.column 7]>
               {[ "activePower1" := Null ]} : gmap string dbvalue)
              !! field = None
        end).
Proof.
  assert (transformApiData
            (<["mux1" := Sample.num 7]>
               (<["power1" := JStr "bad"]> {[ "uptime" := Sample.num 3 ]}))
          = Return (<["muxPower1" := Sample.column 7]>
                      {[ "activePower1" := Null ]})) as Hrun
    by (vm_compute; reflexivity).
  split; [exact Hrun|].
  apply (proj2 (api_keys_map_to_columns
                  (<["mux1" := Sample.num 7]>
                     (<["power1" := JStr "bad"]>
                        {[ "uptime" := Sample.num 3 ]})))
           _ Hrun).
Defined.

(** X8. The row written for an API station holds exactly the transformed
    API data: [createPowerReading] passes them through [transformPowerData]
    once more, and on an object whose properties are the twelve column names
    that second transformation changes nothing. *)
Theorem api_row_is_transformed_data
    (apiData powerData : gmap string json)
    (transformedData : gmap string dbvalue) (clock : Z) :
  transformApiData apiData = Return transformedData ->
  sameObject powerData transformedData ->
  createPowerReading (Some clock) powerData
  = Return {| timestamp := clock; columns := transformedData |}.
Proof.
  intros Hrun Hsame.
  assert (forall k, Some <$> transformedData !! k = valueOf <$> powerData !! k)
    as Hk.
  { intros k. by rewrite <- !lookup_fmap, Hsame. }
  assert (forall field, field ∉ directFields -> powerData !! field = None)
    as Hkeys.
  { intros field Hnot.
    assert (transformedData !! field = None) as Hnone.
    { unfold transformApiData in Hrun.
      apply transformEntries_inv in Hrun as ->.
      rewrite foldEntries_columns; [done|].
      by rewrite apiKeys_directFields. }
    specialize (Hk field). rewrite Hnone in Hk.
    by destruct (powerData !! field). }
  assert (powerData !! "hasOwnProperty" = None) as Hown.
  { apply Hkeys. apply (bool_decide_unpack _). by vm_compute. }
  assert (readable powerData tables) as Hread.
  { split; [done|]. intros id field v _ Hid.
    specialize (Hk id). rewrite Hid in Hk.
    destruct (transformedData !! id); [|done].
    by destruct v. }
  unfold createPowerReading.
  rewrite transformPowerData_Return by done.
  cbn [mbind outcome_bind Js.bind mret outcome_ret].
  f_equal. f_equal. apply map_eq. intros field.
  rewrite foldEntries_lookup. unfold tables.
  rewrite app_assoc, claimed_app, claimed_direct.
  specialize (Hk field).
  destruct (bool_decide (field ∈ directFields)) eqn:Hin.
  - destruct (powerData !! field) as [v|] eqn:Hv.
    + destruct (transformedData !! field) as [x|]; [|done].
      cbn in Hk. unfold columnOf.
      by destruct v; try done; cbn in Hk; injection Hk as ->.
    + destruct (claimed powerData (activePowerMap ++ muxPowerMap) field)
        as [w|] eqn:Hc.
      * destruct (claimed_origin _ _ _ _ Hc) as (id & Hid & Hw).
        pose proof raw_ids_are_no_columns as Hall.
        rewrite List.Forall_forall in Hall.
        apply list_elem_of_In in Hid.
        rewrite (Hkeys id (Hall _ Hid)) in Hw. done.
      * rewrite lookup_empty. by destruct (transformedData !! field).
  - apply bool_decide_eq_false in Hin.
    destruct (claimed powerData (activePowerMap ++ muxPowerMap) field)
      as [w|] eqn:Hc.
    + destruct (claimed_origin _ _ _ _ Hc) as (id & Hid & Hw).
      pose proof raw_ids_are_no_columns as Hall.
      rewrite List.Forall_forall in Hall.
      apply list_elem_of_In in Hid.
      rewrite (Hkeys id (Hall _ Hid)) in Hw. done.
    + rewrite lookup_empty. rewrite (Hkeys field Hin) in Hk.
      by destruct (transformedData !! field).
Qed.

Lemma api_row_is_transformed_data_witness :
  let apiData : gmap string json :=
    <["mux1" := Sample.num 7]> {[ "power1" := JStr "bad" ]} in
  let powerData : gmap string json :=
    <["muxPower1" := Sample.num 7]> {[ "activePower1" := JNull ]} in
  let transformedData : gmap string dbvalue :=
    <["muxPower1" := Sample.column 7]> {[ "activePower1" := Null ]} in
  createPowerReading (Some 0%Z) powerData
  = Return {| timestamp := 0; columns := transformedData |}.
Proof.
  apply (api_row_is_transformed_data
           (<["mux1" := Sample.num 7]> {[ "power1" := JStr "bad" ]})
           (<["muxPower1" := Sample.num 7]> {[ "activePower1" := JNull ]})
           (<["muxPower1" := Sample.column 7]> {[ "activePower1" := Null ]})
           0); reflexivity.
Defined.

Lemma foldEntries_absent powerData entries dbData :
  (forall entry, entry ∈ entries -> powerData !! entry.1 = None) ->
  foldEntries powerData entries dbData = dbData.
Proof.
  revert dbData. induction entries as [|entry entries IH]; intros dbData Habs;
    [done|].
  unfold foldEntries. cbn [fold_left].
  rewrite (Habs entry) by apply list_elem_of_here.
  apply IH. intros entry' Hin. apply Habs. by apply list_elem_of_further.
Qed.

(** X30. A payload that can be processed (an object that does not shadow
    [hasOwnProperty] and whose values under names beginning with "mux" or
    "power" print) but has none of the twelve API keys counts as a
    success: the error count of the poller is set to 0, the transformed
    data are empty, and the row built from them, which has no column at
    all, is handed to the store like any other. *)
Theorem payload_without_keys_is_stored
    (apiData : gmap string json) (a : ApiDataFetcher.t) (clock : Z) :
  ApiSpec.processable apiData ->
  (forall entry, entry ∈ apiKeys -> apiData !! entry.1 = None) ->
  transformApiData apiData = Return ∅
  /\ errorCount (processApiData (Object apiData) a) = 0
  /\ lastData (processApiData (Object apiData) a) = Some ∅
  /\ createPowerReading (Some clock) ∅
     = Return {| timestamp := clock; columns := ∅ |}.
Proof.
  intros Hproc Habs.
  assert (transformApiData apiData = Return ∅) as Htransform.
  { unfold transformApiData.
    rewrite transformEntries_Return by by apply processable_readable.
    by rewrite foldEntries_absent. }
  split; [done|]. rewrite processApiData_processable by done.
  cbn [errorCount lastData]. rewrite foldEntries_absent by done.
  by repeat split.
Qed.

Lemma payload_without_keys_is_stored_witness :
  let apiData : gmap string json := {[ "uptime" := Sample.num 3 ]} in
  transformApiData apiData = Return ∅
  /\ errorCount (processApiData (Object apiData) new) = 0
  /\ lastData (processApiData (Object apiData) new) = Some ∅
  /\ createPowerReading (Some 0%Z) ∅
     = Return {| timestamp := 0; columns := ∅ |}.
Proof.
  apply (payload_without_keys_is_stored {[ "uptime" := Sample.num 3 ]} new 0).
  - apply validateApiData_processable. eexists. vm_compute. reflexivity.
  - assert (Forall (fun entry : string * string =>
                      ({[ "uptime" := Sample.num 3 ]} : gmap string json)
                        !! entry.1 = None) apiKeys) as Hall
      by (repeat constructor).
    rewrite List.Forall_forall in Hall. intros entry Hin.
    apply Hall. by apply list_elem_of_In.
Defined.

End ApiStationRows.

(** ** The rows of the Chiang Mai client *)

Section ChiangMaiRows.
Import DatabaseService Resolution.

(** X9. The Chiang Mai client monitors the ids of the rows the store
    returns for its station, in their order, when there is at least one
    row; without a store, when the query fails and when it returns no row,
    it monitors the six default ids. In every case it monitors at least
    one object, and its meter data start with null for exactly the
    monitored objects. *)
Theorem chiangmai_always_monitors
    (rows : option (outcome (list (string * N)))) (k : string) :
  let c := ChiangMaiClient.loadMonitoredObjects (ChiangMaiSpec.stored rows) in
  ChiangMaiClient.monitoredObjects c
  = match rows with
    | Some (Return (row :: rest)) => map snd (row :: rest)
    | Some (Return []) | Some (Throw _) | None =>
        ChiangMaiClient.chiangMaiDefaults
    end
  /\ ChiangMaiClient.monitoredObjects c <> []
  /\ ChiangMaiClient.meterData c !! k
     = if bool_decide
            (k ∈ map toString (ChiangMaiClient.monitoredObjects c))
       then Some JNull else None.
Proof.
  cbv zeta. split; [|split].
  - by destruct rows as [[[|row rows]|e]|].
  - destruct rows as [[[|row rows]|e]|]; done.
  - unfold ChiangMaiClient.loadMonitoredObjects.
    cbn [ChiangMaiClient.meterData ChiangMaiClient.monitoredObjects].
    apply initializeMeterData_lookup.
Qed.

(** An entry of the meter data after a frame: as before, or the value the
    frame has for it. *)
Lemma client_onNotification_lookup c f k :
  ChiangMaiClient.meterData (ChiangMaiClient.onNotification c f) !! k
  = ChiangMaiClient.meterData c !! k
  \/ (is_Some (syncData f !! k)
      /\ ChiangMaiClient.meterData (ChiangMaiClient.onNotification c f) !! k
         = syncData f !! k).
Proof.
  destruct (client_onNotification_fields c f) as (_ & _ & _ & _ & ->).
  destruct (updateValues _ _ _ _) as [[buffer changed]|e] eqn:Hrun;
    [|by left].
  rewrite (updateValues_lookup _ _ _ _ _ _ k Hrun). unfold RunSpec.merged.
  destruct (bool_decide _); [|by left].
  destruct (syncData f !! k); [by right|by left].
Qed.

Lemma client_run_snoc c frames f :
  ChiangMaiClient.run c (frames ++ [f])
  = ChiangMaiClient.onNotification (ChiangMaiClient.run c frames) f.
Proof. unfold ChiangMaiClient.run. by rewrite fold_left_app. Qed.

Lemma client_run_fields frames c :
  ChiangMaiClient.monitoredObjects (ChiangMaiClient.run c frames)
  = ChiangMaiClient.monitoredObjects c
  /\ ChiangMaiClient.objectLabels (ChiangMaiClient.run c frames)
     = ChiangMaiClient.objectLabels c
  /\ ChiangMaiClient.database (ChiangMaiClient.run c frames)
     = ChiangMaiClient.database c.
Proof.
  revert c. induction frames as [|f frames IH]; intros c; [done|].
  cbn [ChiangMaiClient.run fold_left].
  fold (ChiangMaiClient.run (ChiangMaiClient.onNotification c f) frames).
  destruct (IH (ChiangMaiClient.onNotification c f)) as (-> & -> & ->).
  by destruct (client_onNotification_fields c f) as (-> & -> & -> & _).
Qed.

(** Entries of the meter data are never removed. *)
Lemma client_run_keeps_keys frames c k :
  is_Some (ChiangMaiClient.meterData c !! k) ->
  is_Some (ChiangMaiClient.meterData (ChiangMaiClient.run c frames) !! k).
Proof.
  revert c. induction frames as [|f frames IH]; intros c Hk; [done|].
  cbn [ChiangMaiClient.run fold_left].
  fold (ChiangMaiClient.run (ChiangMaiClient.onNotification c f) frames).
  apply IH.
  destruct (client_onNotification_lookup c f k) as [->|[Hf ->]]; done.
Qed.

(** An entry that no frame reports stays as it was. *)
Lemma client_run_unreported frames c k :
  (forall f, f ∈ frames -> syncData f !! k = None) ->
  ChiangMaiClient.meterData (ChiangMaiClient.run c frames) !! k
  = ChiangMaiClient.meterData c !! k.
Proof.
  revert c. induction frames as [|f frames IH]; intros c Hk; [done|].
  cbn [ChiangMaiClient.run fold_left].
  fold (ChiangMaiClient.run (ChiangMaiClient.onNotification c f) frames).
  rewrite IH by (intros g Hg; by apply Hk, list_elem_of_further).
  destruct (client_onNotification_lookup c f k) as [->|[Hf _]]; [done|].
  rewrite (Hk f) in Hf by apply list_elem_of_here.
  by destruct Hf.
Qed.

(** Every row of a run was built from the meter data some frame of the run
    left. *)
Lemma client_run_rows frames c row :
  row ∈ ChiangMaiClient.written (ChiangMaiClient.run c frames) ->
  row ∈ ChiangMaiClient.written c
  \/ exists before f after,
       frames = before ++ f :: after
       /\ row = RunSpec.rowOf (saveNow f)
                  (ChiangMaiClient.meterData
                     (ChiangMaiClient.run c (before ++ [f]))).
Proof.
  induction frames as [|f frames IH] using rev_ind; [by left|].
  rewrite client_run_snoc.
  set (c' := ChiangMaiClient.run c frames) in *.
  destruct (updateValues (syncData f) (ChiangMaiClient.monitoredObjects c')
              (ChiangMaiClient.meterData c') false)
    as [[buffer changed]|e] eqn:Hrun.
  - destruct (client_onNotification_written c' f buffer changed Hrun)
      as [Hw _].
    destruct (client_onNotification_fields c' f) as (_ & _ & _ & _ & Hbuf).
    rewrite Hrun in Hbuf. rewrite Hw.
    destruct (_ && _).
    + intros Hin. apply elem_of_app in Hin as [Hin|Hin].
      * destruct (IH Hin) as [?|(before & g & after & -> & ->)]; [by left|].
        right. exists before, g, (after ++ [f]).
        by rewrite <-app_assoc.
      * apply list_elem_of_singleton in Hin as ->. right.
        exists frames, f, []. split; [done|].
        rewrite client_run_snoc. fold c'. by rewrite Hbuf.
    + intros Hin.
      destruct (IH Hin) as [?|(before & g & after & -> & ->)]; [by left|].
      right. exists before, g, (after ++ [f]). by rewrite <-app_assoc.
  - unfold ChiangMaiClient.onNotification. rewrite Hrun. intros Hin.
    destruct (IH Hin) as [?|(before & g & after & -> & ->)]; [by left|].
    right. exists before, g, (after ++ [f]). by rewrite <-app_assoc.
Qed.

(** X10. Every row the Chiang Mai client writes has a column for every
    monitored object the tables know: its meter data are created with an
    entry for each monitored object and entries are never removed. The
    column is null in every row of a run none of whose frames has a
    property that the tables pair with the column. *)
Theorem chiangmai_rows_are_full
    (stored : option (outcome ChiangMaiClient.monitoredData))
    (frames : list frame) (row : reading) (id : N) (field : string) :
  let c := ChiangMaiClient.loadMonitoredObjects stored in
  row ∈ ChiangMaiClient.written (ChiangMaiClient.run c frames) ->
  id ∈ ChiangMaiClient.monitoredObjects c ->
  (toString id, field) ∈ tables ->
  is_Some (columns row !! field)
  /\ ((forall f key, f ∈ frames -> (key, field) ∈ tables ->
                     syncData f !! key = None) ->
      columns row !! field = Some Null).
Proof.
  cbv zeta. set (c := ChiangMaiClient.loadMonitoredObjects stored).
  intros Hrow Hid Htab.
  assert (forall k, ChiangMaiClient.meterData c !! k
                    = if bool_decide
                           (k ∈ map toString (ChiangMaiClient.monitoredObjects c))
                      then Some JNull else None) as Hstart
    by (intros k; apply initializeMeterData_lookup).
  apply client_run_rows in Hrow
    as [Hold|(before & f & after & Hframes & ->)].
  { by apply elem_of_nil in Hold. }
  cbn [RunSpec.rowOf columns]. rewrite foldEntries_lookup.
  set (c' := ChiangMaiClient.run c (before ++ [f])).
  assert (is_Some (ChiangMaiClient.meterData c' !! toString id)) as [v Hv].
  { apply client_run_keeps_keys. rewrite Hstart.
    rewrite bool_decide_eq_true_2; [done|].
    apply list_elem_of_fmap. by exists id. }
  destruct (claimed_is_Some _ tables _ _ _ Htab Hv) as [w Hw].
  rewrite Hw. split; [done|]. intros Hnone.
  destruct (claimed_origin _ _ _ _ Hw) as (key & Hkey & Hlook).
  unfold c' in Hlook. rewrite client_run_unreported in Hlook.
  - rewrite Hstart in Hlook. destruct (bool_decide _); [|done].
    by injection Hlook as <-.
  - intros g Hg. apply Hnone; [|done]. rewrite Hframes.
    apply elem_of_app in Hg as [Hg|Hg]; apply elem_of_app; [by left|].
    right. apply list_elem_of_singleton in Hg as ->. apply list_elem_of_here.
Qed.

Lemma chiangmai_rows_are_full_witness :
  let row :=
    {| timestamp := 0;
       columns := <["activePower1" := Sample.column 1]>
                    {[ "muxPower1" := Null ]} |} in
  is_Some (columns row !! "muxPower1")
  /\ ((forall f key,
         f ∈ [Sample.frameAt 0 {[ "8684" := Sample.num 1 ]}] ->
         (key, "muxPower1") ∈ tables -> syncData f !! key = None) ->
      columns row !! "muxPower1" = Some Null).
Proof.
  apply (chiangmai_rows_are_full
           (Some (Return (ChiangMaiClient.getStationMonitoredObjects
                            [("activePower1", 8684%N); ("muxPower1", 18069%N)])))
           [Sample.frameAt 0 {[ "8684" := Sample.num 1 ]}]
           _ 18069%N "muxPower1").
  - vm_compute. apply list_elem_of_here.
  - apply (bool_decide_unpack _). vm_compute. reflexivity.
  - apply (bool_decide_unpack _). vm_compute. reflexivity.
Defined.

(** X29. The two pipelines differ on a first frame that reports null: the
    Chiang Mai client already holds null for every monitored object, takes
    the frame as no change and writes nothing, while the station monitor,
    whose buffer starts empty, takes it as a change and writes a row whose
    columns for the reported objects are null. *)
Theorem first_null_frame
    (stored : option (outcome ChiangMaiClient.monitoredData))
    (monitoredObjects : list N) (f : frame) :
  syncData f !! "hasOwnProperty" = None ->
  storeAccepts f = true ->
  (forall v k, syncData f !! k = Some v -> v = JNull) ->
  ChiangMaiClient.written
    (ChiangMaiClient.onNotification
       (ChiangMaiClient.loadMonitoredObjects stored) f) = []
  /\ ((exists id, id ∈ monitoredObjects
                  /\ is_Some (syncData f !! toString id)) ->
      exists row,
        StationMonitor.written
          (StationMonitor.onNotification
             (StationMonitor.new monitoredObjects true) f) = [row]
        /\ timestamp row = now f).
Proof.
  intros Hown Hacc Hnull. split.
  - rewrite client_onNotification_repeats; [done|done|].
    intros id v Hid Hv. rewrite (Hnull v _ Hv).
    unfold ChiangMaiClient.loadMonitoredObjects.
    cbn [ChiangMaiClient.meterData ChiangMaiClient.monitoredObjects] in *.
    rewrite initializeMeterData_lookup.
    rewrite bool_decide_eq_true_2; [done|].
    apply list_elem_of_fmap. by exists id.
  - intros (id & Hid & [v Hv]).
    set (m := StationMonitor.new monitoredObjects true).
    destruct (onNotification_changes m f) as (Hw & _); try done.
    + exists id, v. split; [done|]. split; [done|].
      unfold m. cbn [StationMonitor.new StationMonitor.dataBuffer].
      rewrite lookup_empty. by destruct v.
    + rewrite Hw.
      assert (RunSpec.monitorWrites m f = true) as ->; [|by eexists].
      assert (forall k v,
                StationMonitor.dataBuffer (StationMonitor.onNotification m f)
                  !! k = Some v -> v = JNull /\ k ∉ objectPrototype)
        as Hbuffer.
      { intros k w Hk.
        destruct (onNotification_fields m f) as (_ & _ & _ & _ & Hbuf).
        rewrite Hbuf in Hk.
        destruct (updateValues _ _ _ _) as [[buffer changed]|e] eqn:Hrun;
          [|done].
        rewrite (updateValues_lookup _ _ _ _ _ _ k Hrun) in Hk.
        unfold RunSpec.merged, m in Hk.
        cbn [StationMonitor.new StationMonitor.dataBuffer] in Hk.
        rewrite lookup_empty in Hk.
        case_bool_decide as Hin; [|done].
        destruct (syncData f !! k) as [u|] eqn:Hu; [|done].
        injection Hk as <-. split; [by eapply Hnull|].
        apply list_elem_of_fmap in Hin as (id' & -> & _).
        apply toString_not_inherited. }
      apply monitorWrites_iff. repeat split; try done.
      * apply monitor_displays. intros k w Hk.
        destruct (Hbuffer k w Hk) as [-> Hkey]. by split.
      * by apply onNotification_keeps_method.
      * intros k field' w _ Hk. by destruct (Hbuffer k w Hk) as [-> _].
Qed.

Lemma first_null_frame_witness :
  let f := Sample.frameAt 0 {[ "8684" := JNull ]} in
  ChiangMaiClient.written
    (ChiangMaiClient.onNotification
       (ChiangMaiClient.loadMonitoredObjects None) f) = []
  /\ ((exists id, id ∈ [8684%N] /\ is_Some (syncData f !! toString id)) ->
      exists row,
        StationMonitor.written
          (StationMonitor.onNotification
             (StationMonitor.new [8684%N] true) f) = [row]
        /\ timestamp row = now f).
Proof.
  apply (first_null_frame None [8684%N]
           (Sample.frameAt 0 {[ "8684" := JNull ]})).
  - reflexivity.
  - reflexivity.
  - intros v k Hv. unfold Sample.frameAt in Hv. cbn [syncData] in Hv.
    destruct (decide (k = "8684")) as [->|Hk].
    + rewrite lookup_singleton_eq in Hv. by injection Hv as <-.
    + by rewrite lookup_singleton_ne in Hv.
Defined.

End ChiangMaiRows.

(** ** Sockets that close and open again *)

Section ClosedSocket.
Import Session SessionSpec Lifecycle.
Variable c : client.
Variable budget : nat.
Variable delay : Z.
Hypothesis Hbudget : budgeted c budget delay.

Lemma advance_wsOpen clock s : wsOpen (advance c clock s) = wsOpen s.
Proof.
  unfold advance, fireSend, fireTimeout.
  destruct (phase_of s) as [|k since|k since| |e] eqn:Hp; rewrite ?Hp;
    try done.
  - destruct (since + sendDelay <=? clock)%Z; [|by rewrite Hp].
    destruct (wsOpen s) eqn:Hws; unfold setPhase; cbn [phase_of wsOpen];
      [|done].
    destruct (messageTimeout c) as [limit|]; [|done].
    by destruct (_ <=? _)%Z.
  - destruct (messageTimeout c) as [limit|]; [|done].
    by destruct (_ <=? _)%Z.
Qed.

Lemma advance_closed clock s :
  wsOpen s = false -> sent (advance c clock s) = sent s.
Proof.
  intros Hws. unfold advance, fireSend, fireTimeout. rewrite Hws.
  destruct (phase_of s) as [|k since|k since| |e] eqn:Hp; rewrite ?Hp;
    try done.
  - destruct (since + sendDelay <=? clock)%Z; [|by rewrite Hp].
    by unfold setPhase; cbn [phase_of sent].
  - destruct (messageTimeout c) as [limit|]; [|done].
    by destruct (_ <=? _)%Z.
Qed.

Lemma deliver_socket clock e s :
  e <> Open ->
  sent (deliver c clock e s) = sent s
  /\ (wsOpen s = false -> wsOpen (deliver c clock e s) = false)
  /\ (wsOpen (deliver c clock e s) = true ->
      wsOpen s = true
      /\ reconnectAttempts (deliver c clock e s) = reconnectAttempts s).
Proof.
  intros He. destruct e as [| |[msg|]]; cbn [deliver]; [done| | |done].
  - rewrite Hbudget. by destruct (_ <? _)%nat.
  - destruct (phase_of s) as [|k since|k since| |e] eqn:Hp; try done.
    destruct (validator c k msg); [|done].
    unfold accept. cbn [USID].
    destruct (if Nat.eqb k 0 then from_option _ _ _ else _) as [[]|err];
      [|done].
    destruct (_ && _); [by unfold setPhase|].
    by destruct (Nat.eqb k lastStep); unfold setPhase.
Qed.

Lemma run_closed trace s :
  wsOpen s = false ->
  Forall (fun e => e.2 <> Open) trace ->
  sent (run c s trace) = sent s /\ wsOpen (run c s trace) = false.
Proof.
  revert s. induction trace as [|e trace IH]; intros s Hws Hall; [done|].
  inversion Hall as [|e' trace' He Hall']; subst e' trace'.
  cbn [run fold_left]. fold (run c (step c s e) trace).
  destruct (deliver_socket e.1 e.2 (advance c e.1 s) He) as (Hs & Hw & _).
  destruct (IH (step c s e)) as [Hs' Hw'].
  - apply Hw. by rewrite advance_wsOpen.
  - done.
  - split; [|done]. rewrite Hs'. unfold step. rewrite Hs.
    by apply advance_closed.
Qed.

(** While the socket is open no reconnection has been counted. *)
Lemma run_open_socket trace s :
  (wsOpen s = true -> reconnectAttempts s = 0) ->
  wsOpen (run c s trace) = true -> reconnectAttempts (run c s trace) = 0.
Proof.
  revert s. induction trace as [|e trace IH]; intros s Hs; [done|].
  cbn [run fold_left]. fold (run c (step c s e) trace).
  apply IH. unfold step. destruct e as [clock e]. cbn [fst snd].
  assert (e = Open \/ e <> Open) as [->|He]
    by (destruct e as [| |[msg|]]; (by left) || (by right)); [done|].
  destruct (deliver_socket clock e (advance c clock s) He) as (_ & _ & Hw).
  intros Hopen. destruct (Hw Hopen) as [Hopen' ->].
  rewrite advance_wsOpen in Hopen'.
  destruct (advance_connection c clock s) as (-> & _). by apply Hs.
Qed.

Lemma open_ordered s clock : ordered (step c s (clock, Open)).
Proof.
  unfold step, ordered. cbn [fst snd deliver phase_of sent accepted length seq].
  repeat split; try done. unfold lastStep. lia.
Qed.

Lemma advance_onSchedule start now clock s :
  onSchedule start now s -> (now <= clock)%Z ->
  onSchedule start clock (advance c clock s).
Proof.
  intros [Hstart Hs] Hclock. split; [lia|].
  unfold advance, fireSend, fireTimeout, sendDelay.
  destruct (phase_of s) as [|k since|k since| |e] eqn:Hp;
    repeat first [progress rewrite Hp | progress cbv iota]; try done.
  - destruct (since + 1000 <=? clock)%Z eqn:Hdue;
      [|repeat first [progress rewrite Hp | progress cbv iota]; lia].
    apply Z.leb_le in Hdue.
    destruct (wsOpen s); unfold setPhase; cbn [phase_of]; [|done].
    destruct (messageTimeout c) as [limit|]; cbn [phase_of]; [|lia].
    destruct (_ <=? _)%Z; cbn [phase_of]; [done|lia].
  - destruct (messageTimeout c) as [limit|];
      [|repeat first [progress rewrite Hp | progress cbv iota]; lia].
    destruct (_ <=? _)%Z; unfold setPhase; cbn [phase_of]; [done|].
    repeat first [progress rewrite Hp | progress cbv iota]. lia.
  - lia.
Qed.

Lemma deliver_onSchedule start clock e s :
  onSchedule start clock s -> onSchedule start clock (deliver c clock e s).
Proof.
  intros [Hstart Hs]. split; [done|].
  destruct e as [| |[msg|]]; cbn [deliver]; [| | |done].
  - cbn [phase_of]. lia.
  - rewrite Hbudget. by destruct (_ <? _)%nat.
  - destruct (phase_of s) as [|k since|k since| |e] eqn:Hp;
      repeat first [progress rewrite Hp | progress cbv iota]; try done.
    destruct (validator c k msg);
      [|by repeat first [progress rewrite Hp | progress cbv iota]].
    unfold accept. cbn [USID].
    destruct (if Nat.eqb k 0 then from_option _ _ _ else _) as [[]|err];
      [|cbn [phase_of]; by rewrite Hp].
    destruct (_ && _); [by unfold setPhase|].
    destruct (Nat.eqb k lastStep) eqn:Hk; unfold setPhase; cbn [phase_of].
    + apply Nat.eqb_eq in Hk. unfold lastStep in Hk. lia.
    + lia.
Qed.

Lemma run_onSchedule start now trace s :
  onSchedule start now s -> inOrder now trace ->
  onSchedule start (endTime now trace) (run c s trace).
Proof.
  revert now s. induction trace as [|e trace IH]; intros now s Hs Hin; [done|].
  destruct Hin as [Hnow Hin].
  cbn [run endTime fold_left]. fold (run c (step c s e) trace).
  fold (endTime e.1 trace).
  apply IH; [|done].
  unfold step. by eapply deliver_onSchedule, advance_onSchedule.
Qed.

End ClosedSocket.

Section SessionLifecycle.
Import Session SessionSpec Lifecycle.

Lemma client_budgeted c :
  c = StationMonitorSession.client \/ c = ChiangMaiSession.client ->
  exists budget delay, budgeted c budget delay.
Proof.
  intros [->| ->]; eexists _, _.
  - apply stationMonitor_budgeted.
  - apply chiangMai_budgeted.
Qed.

(** X11. On a socket that is not open no request is written, whatever
    arrives and however long it takes, until the socket opens again; a
    request whose timer fires meanwhile fails with "WebSocket is not
    open". *)
Theorem closed_socket_sends_nothing
    (c : client) (s : Session.t) (trace : list (Z * event)) :
  c = StationMonitorSession.client \/ c = ChiangMaiSession.client ->
  wsOpen s = false ->
  Forall (fun e => e.2 <> Open) trace ->
  sent (run c s trace) = sent s
  /\ wsOpen (run c s trace) = false
  /\ forall k since clock,
       phase_of s = Sending k since -> (since + 1000 <= clock)%Z ->
       phase_of (advance c clock s) = Failed (Error "WebSocket is not open").
Proof.
  intros Hc Hws Hall. destruct (client_budgeted c Hc) as (budget & delay & Hb).
  destruct (run_closed c budget delay Hb trace s Hws Hall) as [Hs Hw].
  split; [done|]. split; [done|].
  intros k since clock Hp Hdue. apply Z.leb_le in Hdue.
  unfold advance, fireSend, sendDelay. rewrite Hp, Hdue, Hws.
  by unfold setPhase; cbn [phase_of].
Qed.

Lemma closed_socket_sends_nothing_witness :
  let c := StationMonitorSession.client in
  let s := run c initial [(0, Open); (500, Close)]%Z in
  let trace := [(1000, Message (Some Sample.tokenAnswer)); (6000, Close)]%Z in
  sent (run c s trace) = sent s
  /\ wsOpen (run c s trace) = false
  /\ forall k since clock,
       phase_of s = Sending k since -> (since + 1000 <= clock)%Z ->
       phase_of (advance c clock s) = Failed (Error "WebSocket is not open").
Proof.
  apply (closed_socket_sends_nothing StationMonitorSession.client
           (run StationMonitorSession.client initial
              [(0, Open); (500, Close)]%Z)
           [(1000, Message (Some Sample.tokenAnswer)); (6000, Close)]%Z).
  - left. reflexivity.
  - reflexivity.
  - repeat constructor; discriminate.
Defined.

(** X12. A socket that opens on a client none of whose earlier handshakes
    is still going on (none is inside a [sendData] and none waits on a
    socket that is still open, here and at every later [open] of the run)
    starts the handshake over: whatever the client had sent and accepted
    before, monitoring is reached after the [open] event only if each of
    the eight steps is answered again by a message that arrives after
    it. *)
Theorem reconnect_repeats_handshake
    (c : client) (s0 : Session.t) (opened : Z) (trace : list (Z * event))
    (k : nat) :
  c = StationMonitorSession.client \/ c = ChiangMaiSession.client ->
  apart c s0 ((opened, Open) :: trace) ->
  phase_of (run c (step c s0 (opened, Open)) trace) = Monitoring ->
  k <= lastStep ->
  exists clock msg,
    (clock, Message (Some msg)) ∈ trace /\ validator c k msg = true.
Proof.
  intros Hc _ Hmon Hk. destruct (client_budgeted c Hc) as (budget & delay & Hb).
  pose proof (run_ordered c budget delay Hb trace _
                (open_ordered c s0 opened)) as (_ & Ha & Hp).
  rewrite Hmon in Hp. destruct Hp as [_ Hlen].
  assert (k ∈ accepted (run c (step c s0 (opened, Open)) trace)) as Hin.
  { rewrite Ha, Hlen. apply elem_of_seq. unfold lastStep in *. lia. }
  destruct (accepted_was_answered c budget delay Hb trace _ k Hin)
    as [Hold|(pre & clock & msg & post & since & -> & Hv & _)].
  - cbn in Hold. by apply elem_of_nil in Hold.
  - exists clock, msg. split; [|done].
    apply elem_of_app. right. apply list_elem_of_here.
Qed.

Lemma reconnect_repeats_handshake_witness :
  exists clock msg,
    (clock, Message (Some msg)) ∈ tail Sample.promptStation
    /\ validator StationMonitorSession.client 3 msg = true.
Proof.
  apply (reconnect_repeats_handshake StationMonitorSession.client
           (run StationMonitorSession.client initial Sample.promptStation)
           0 (tail Sample.promptStation) 3).
  - left. reflexivity.
  - vm_compute. repeat split; (discriminate || reflexivity).
  - vm_compute. reflexivity.
  - unfold lastStep. lia.
Defined.

(** X13. On a socket that opens on a client none of whose earlier
    handshakes is still going on (as in X12), monitoring never starts
    earlier than eight seconds after the socket opened: each of the eight
    requests waits one second before it is written and is written only
    after the answer to the one before it. *)
Theorem handshake_takes_eight_seconds
    (c : client) (s0 : Session.t) (opened : Z) (trace : list (Z * event)) :
  c = StationMonitorSession.client \/ c = ChiangMaiSession.client ->
  apart c s0 ((opened, Open) :: trace) ->
  inOrder opened trace ->
  phase_of (run c (step c s0 (opened, Open)) trace) = Monitoring ->
  (opened + 8000 <= endTime opened trace)%Z.
Proof.
  intros Hc _ Hin Hmon.
  destruct (client_budgeted c Hc) as (budget & delay & Hb).
  assert (onSchedule opened opened (step c s0 (opened, Open))) as Hstart.
  { unfold step, onSchedule. cbn [fst snd deliver phase_of]. lia. }
  destruct (run_onSchedule c budget delay Hb opened opened trace _ Hstart Hin)
    as [_ Hend].
  by rewrite Hmon in Hend.
Qed.

Lemma handshake_takes_eight_seconds_witness :
  (0 + 8000 <= endTime 0 (tail Sample.promptStation))%Z.
Proof.
  apply (handshake_takes_eight_seconds StationMonitorSession.client initial
           0 (tail Sample.promptStation)).
  - left. reflexivity.
  - vm_compute. repeat split; (discriminate || reflexivity).
  - vm_compute. repeat split; discriminate.
  - vm_compute. reflexivity.
Defined.

(** X14. A token that is not a string ends the handshake of the station
    monitor: the answer to request 0 passes the predicate when its [USID]
    is merely truthy, the token is stored, and the [substring] call on it
    throws, so that request 1 is never written. The Chiang Mai client only
    logs the token: with a token that prints it goes on to request 1, and
    with one that does not (an object that owns a [toString] that cannot be
    called) the log throws inside the handler, which keeps the token and
    goes on waiting. *)
Theorem monitor_needs_string_token
    (s : Session.t) (since clock : Z) (msg usid : json) :
  phase_of s = Waiting 0 since ->
  (clock < since + 5000)%Z ->
  idIs 0 msg = true ->
  resultUSID msg = Some usid ->
  truthy usid = true ->
  (forall text, usid <> JStr text) ->
  let monitor := step StationMonitorSession.client s (clock, Message (Some msg)) in
  let chiangMai := step ChiangMaiSession.client s (clock, Message (Some msg)) in
  phase_of monitor = Failed (TypeError "this.USID.substring is not a function")
  /\ USID monitor = Some usid
  /\ sent monitor = sent s
  /\ phase_of chiangMai
     = (if unprintable usid then Waiting 0 since else Sending 1 clock)
  /\ accepted chiangMai
     = (if unprintable usid then accepted s else accepted s ++ [0])
  /\ USID chiangMai = Some usid.
Proof.
  intros Hp Hclock Hid Husid Htruthy Hstr. cbv zeta. unfold step.
  cbn [fst snd].
  rewrite !(advance_waiting _ clock s 0 since Hp).
  rewrite fireTimeout_monitor.
  assert ((since + 5000 <=? clock)%Z = false) as -> by by apply Z.leb_gt.
  unfold fireTimeout. cbn [ChiangMaiSession.client messageTimeout deliver].
  rewrite Hp.
  cbn [StationMonitorSession.client ChiangMaiSession.client validator
       StationMonitorSession.validator ChiangMaiSession.validator].
  unfold hasUSID. rewrite Hid, Husid. cbn [from_option andb]. rewrite Htruthy.
  unfold accept. cbn [Nat.eqb USID usableToken logToken andb negb from_option].
  rewrite Husid. cbn [from_option].
  assert (usableToken StationMonitorSession.client usid = false) as ->.
  { destruct usid as [| | |text| |]; try done. by destruct (Hstr text). }
  cbn [usableToken logToken negb ChiangMaiSession.client
       StationMonitorSession.client]. unfold lastStep.
  destruct (unprintable usid); by unfold setPhase.
Qed.

Lemma monitor_needs_string_token_witness :
  let s := run StationMonitorSession.client initial
             [(0, Open); (1000, Message None)]%Z in
  let usid := JObj {[ "toString" := Sample.num 1 ]} in
  let msg := JObj {[ "id" := Sample.num 0;
                     "result" := JObj {[ "USID" := usid ]} ]} in
  let monitor :=
    step StationMonitorSession.client s (1500%Z, Message (Some msg)) in
  let chiangMai :=
    step ChiangMaiSession.client s (1500%Z, Message (Some msg)) in
  phase_of monitor = Failed (TypeError "this.USID.substring is not a function")
  /\ USID monitor = Some usid
  /\ sent monitor = sent s
  /\ phase_of chiangMai
     = (if unprintable usid then Waiting 0 1000 else Sending 1 1500)
  /\ accepted chiangMai
     = (if unprintable usid then accepted s else accepted s ++ [0])
  /\ USID chiangMai = Some usid.
Proof.
  apply (monitor_needs_string_token
           (run StationMonitorSession.client initial
              [(0, Open); (1000, Message None)]%Z)
           1000 1500
           (JObj {[ "id" := Sample.num 0;
                    "result" :=
                      JObj {[ "USID" := JObj {[ "toString" := Sample.num 1 ]} ]} ]})
           (JObj {[ "toString" := Sample.num 1 ]})).
  - reflexivity.
  - lia.
  - vm_compute. reflexivity.
  - vm_compute. reflexivity.
  - vm_compute. reflexivity.
  - intros text. discriminate.
Defined.

(** X15. For the requests 3 to 6 the two clients accept different answers:
    the station monitor takes any message with the id of the request, the
    Chiang Mai client only one that also has [cached === true]. On answers
    without it the Chiang Mai client keeps waiting, without limit. *)
Theorem chiangmai_waits_for_cached
    (s : Session.t) (k : nat) (since clock : Z) (trace : list (Z * event)) :
  3 <= k <= 6 ->
  phase_of s = Waiting k since ->
  Forall (fun e => exists msg, e.2 = Message (Some msg) /\ idIs k msg = true
                               /\ cachedIsTrue msg = false) trace ->
  phase_of (advance ChiangMaiSession.client clock
              (run ChiangMaiSession.client s trace)) = Waiting k since
  /\ Forall (fun e => exists msg, e.2 = Message (Some msg)
                        /\ validator StationMonitorSession.client k msg = true)
            trace.
Proof.
  intros Hk Hp Hall.
  assert (forall msg, idIs k msg = true -> cachedIsTrue msg = false ->
            validator ChiangMaiSession.client k msg = false
            /\ validator StationMonitorSession.client k msg = true) as Hv.
  { intros msg Hid Hcached.
    cbn [StationMonitorSession.client ChiangMaiSession.client validator].
    destruct k as [|[|[|[|[|[|[|k]]]]]]]; try lia;
      cbn [StationMonitorSession.validator ChiangMaiSession.validator];
      by rewrite Hid, Hcached. }
  split.
  - apply chiangmai_wait_has_no_timeout; [done|].
    unfold unanswered. eapply List.Forall_impl; [|exact Hall].
    intros e (msg & He & Hid & Hcached). exists (Some msg). split; [done|].
    intros msg' [= <-]. by apply Hv.
  - eapply List.Forall_impl; [|exact Hall].
    intros e (msg & He & Hid & Hcached). exists msg. split; [done|].
    by apply Hv.
Qed.

Lemma chiangmai_waits_for_cached_witness :
  let s := run ChiangMaiSession.client initial
             [(0, Open); (1100, Message (Some Sample.tokenAnswer));
              (2200, Message (Some (Sample.trueAnswer 1)));
              (3300, Message (Some (Sample.trueAnswer 2)));
              (4300, Message None)]%Z in
  let trace := [(4400, Message (Some (Sample.plainAnswer 3)))]%Z in
  phase_of (advance ChiangMaiSession.client 86400000
              (run ChiangMaiSession.client s trace)) = Waiting 3 4300
  /\ Forall (fun e => exists msg, e.2 = Message (Some msg)
                        /\ validator StationMonitorSession.client 3 msg = true)
            trace.
Proof.
  apply (chiangmai_waits_for_cached
           (run ChiangMaiSession.client initial
              [(0, Open); (1100, Message (Some Sample.tokenAnswer));
               (2200, Message (Some (Sample.trueAnswer 1)));
               (3300, Message (Some (Sample.trueAnswer 2)));
               (4300, Message None)]%Z)
           3 4300 86400000 [(4400, Message (Some (Sample.plainAnswer 3)))]%Z).
  - lia.
  - vm_compute. reflexivity.
  - repeat constructor. exists (Sample.plainAnswer 3).
    repeat split; vm_compute; reflexivity.
Defined.

(** X16. [disconnect] does not end the reconnection of a station monitor:
    the socket it closes still delivers its [close] event to the handler
    that calls [handleReconnect], and since an open socket has set the
    counter to 0, a reconnection is counted and its timer is set 5 s
    later. *)
Theorem disconnect_is_followed_by_reconnect
    (trace : list (Z * event)) (clock : Z) :
  let s := run StationMonitorSession.client initial trace in
  wsOpen s = true ->
  let s' := step StationMonitorSession.client (disconnect s) (clock, Close) in
  isConnected (disconnect s) = false
  /\ USID (disconnect s) = None
  /\ reconnectAttempts s' = 1
  /\ reconnectTimers s' = reconnectTimers s ++ [(clock + 5000)%Z].
Proof.
  cbv zeta. intros Hopen.
  pose proof (run_open_socket _ _ _ stationMonitor_budgeted trace initial
                (fun _ => eq_refl) Hopen) as Hzero.
  destruct (step_close _ _ _ stationMonitor_budgeted
              (disconnect (run StationMonitorSession.client initial trace))
              clock) as (_ & Hcount & _).
  cbn [disconnect reconnectAttempts reconnectTimers] in Hcount.
  rewrite Hzero in Hcount.
  destruct Hcount as [Hattempts Htimers];
    [unfold StationMonitorSession.maxReconnectAttempts; lia|].
  done.
Qed.

Lemma disconnect_is_followed_by_reconnect_witness :
  let s := run StationMonitorSession.client initial Sample.promptStation in
  let s' :=
    step StationMonitorSession.client (disconnect s) (20000%Z, Close) in
  isConnected (disconnect s) = false
  /\ USID (disconnect s) = None
  /\ reconnectAttempts s' = 1
  /\ reconnectTimers s' = reconnectTimers s ++ [(20000 + 5000)%Z].
Proof.
  apply (disconnect_is_followed_by_reconnect Sample.promptStation 20000).
  vm_compute. reflexivity.
Defined.

End SessionLifecycle.

(** ** The Chiang Mai client after a reconnection *)

Section Reload.
Import DatabaseService Resolution Lifecycle.

(** X17. The Chiang Mai client forgets its meter data on every connection:
    [setUpSession] loads the monitored objects again and sets every entry
    back to null. A value that a frame reports after a reconnection
    therefore counts as changed even when it is the value held before, and
    a row is written for it exactly when the store is there and takes the
    row, the last write lies the interval back, and both the display and
    the transformation of the meter data complete. *)
Theorem reconnect_forgets_meter_data
    (stored : option (outcome ChiangMaiClient.monitoredData))
    (c : ChiangMaiClient.t) (f : frame) (id : N) (v : json) :
  let c' := reloadMonitoredObjects stored c in
  syncData f !! "hasOwnProperty" = None ->
  id ∈ ChiangMaiClient.monitoredObjects c' ->
  syncData f !! toString id = Some v ->
  v <> JNull ->
  ChiangMaiClient.meterData c' !! toString id = Some JNull
  /\ ChiangMaiClient.meterData (ChiangMaiClient.onNotification c' f)
       !! toString id = Some v
  /\ ChiangMaiClient.written (ChiangMaiClient.onNotification c' f)
     = (if RunSpec.clientWrites c' f
        then ChiangMaiClient.written c
               ++ [RunSpec.rowOf (saveNow f)
                     (ChiangMaiClient.meterData
                        (ChiangMaiClient.onNotification c' f))]
        else ChiangMaiClient.written c)
  /\ (RunSpec.clientWrites c' f = true
      <-> ChiangMaiClient.database c' = true /\ storeAccepts f = true
          /\ ChiangMaiClient.throttled c' (saveNow f) = false
          /\ ChiangMaiClient.displayData (ChiangMaiClient.onNotification c' f)
             = Return tt
          /\ readable
               (ChiangMaiClient.meterData (ChiangMaiClient.onNotification c' f))
               tables).
Proof.
  cbv zeta. intros Hown Hid Hv Hnull.
  set (c' := reloadMonitoredObjects stored c) in *.
  assert (ChiangMaiClient.meterData c' !! toString id = Some JNull) as Hmeter.
  { unfold c', reloadMonitoredObjects, ChiangMaiClient.loadMonitoredObjects.
    cbn [ChiangMaiClient.meterData]. rewrite initializeMeterData_lookup.
    rewrite bool_decide_eq_true_2; [done|].
    apply list_elem_of_fmap. by exists id. }
  split; [done|]. split; [|split; [|apply clientWrites_iff]].
  - destruct (client_onNotification_fields c' f) as (_ & _ & _ & _ & ->).
    destruct (updateValues_Return (syncData f)
                (ChiangMaiClient.monitoredObjects c')
                (ChiangMaiClient.meterData c') false Hown)
      as (buffer & changed & Hrun).
    rewrite Hrun, (updateValues_lookup _ _ _ _ _ _ (toString id) Hrun).
    unfold RunSpec.merged. rewrite bool_decide_eq_true_2, Hv; [done|].
    apply list_elem_of_fmap. by exists id.
  - destruct (client_onNotification_changes c' f) as (Hw & _); [done| |done].
    exists id, v. split; [done|]. split; [done|].
    rewrite Hmeter. by destruct v.
Qed.

Lemma reconnect_forgets_meter_data_witness :
  let c := ChiangMaiClient.run (ChiangMaiClient.loadMonitoredObjects (Some (Return
             (ChiangMaiClient.getStationMonitoredObjects [("activePower1", 8684%N)]))))
             [Sample.frameAt 0 {[ "8684" := Sample.num 1 ]}] in
  let c' := reloadMonitoredObjects (Some (Return
              (ChiangMaiClient.getStationMonitoredObjects [("activePower1", 8684%N)]))) c in
  let f := Sample.frameAt 60000 {[ "8684" := Sample.num 1 ]} in
  (ChiangMaiClient.meterData c !! "8684" = Some (Sample.num 1)
   /\ RunSpec.clientWrites c' f = true)
  /\ ChiangMaiClient.meterData c' !! toString 8684 = Some JNull
  /\ ChiangMaiClient.meterData (ChiangMaiClient.onNotification c' f)
       !! toString 8684 = Some (Sample.num 1)
  /\ ChiangMaiClient.written (ChiangMaiClient.onNotification c' f)
     = (if RunSpec.clientWrites c' f
        then ChiangMaiClient.written c
               ++ [RunSpec.rowOf (saveNow f)
                     (ChiangMaiClient.meterData
                        (ChiangMaiClient.onNotification c' f))]
        else ChiangMaiClient.written c)
  /\ (RunSpec.clientWrites c' f = true
      <-> ChiangMaiClient.database c' = true /\ storeAccepts f = true
          /\ ChiangMaiClient.throttled c' (saveNow f) = false
          /\ ChiangMaiClient.displayData (ChiangMaiClient.onNotification c' f)
             = Return tt
          /\ readable
               (ChiangMaiClient.meterData (ChiangMaiClient.onNotification c' f))
               tables).
Proof.
  split; [split; vm_compute; reflexivity|].
  apply (reconnect_forgets_meter_data
           (Some (Return (ChiangMaiClient.getStationMonitoredObjects
                            [("activePower1", 8684%N)])))
           (ChiangMaiClient.run (ChiangMaiClient.loadMonitoredObjects (Some (Return
              (ChiangMaiClient.getStationMonitoredObjects [("activePower1", 8684%N)]))))
              [Sample.frameAt 0 {[ "8684" := Sample.num 1 ]}])
           (Sample.frameAt 60000 {[ "8684" := Sample.num 1 ]})
           8684%N (Sample.num 1)).
  - reflexivity.
  - apply (bool_decide_unpack _). vm_compute. reflexivity.
  - reflexivity.
  - discriminate.
Defined.

End Reload.

(** ** The connection of the database service *)

Section DatabaseConnection.
Import Connection.

Lemma connect_connected attempts d :
  isConnected d = true -> connect attempts d = Some (Return tt, d, attempts).
Proof. intros H. destruct attempts as [|[]]; cbn [connect]; by rewrite H. Qed.

(** Failures inside the budget: every one is slept on, for twice as long as
    the one before. *)
Lemma connect_failures messages rest d :
  isConnected d = false ->
  connectionRetries d + length messages <= maxRetries ->
  connect (map Some messages ++ rest) d
  = connect rest
      {| isConnected := false;
         connectionRetries := connectionRetries d + length messages;
         slept :=
           slept d
           ++ map (fun i => (retryDelay
                             * 2 ^ Z.of_nat (connectionRetries d + i))%Z)
                  (seq 0 (length messages)) |}.
Proof.
  revert d. induction messages as [|message messages IH]; intros d Hd Hlen.
  - cbn [map app length seq]. rewrite Nat.add_0_r, app_nil_r.
    by destruct d as [[] ? ?].
  - cbn [map app length] in *. cbn [connect]. rewrite Hd.
    rewrite (proj2 (Nat.leb_le _ _)) by lia.
    rewrite IH; cbn [isConnected connectionRetries slept]; [|done|lia].
    f_equal. f_equal; [lia|].
    rewrite <- app_assoc. f_equal. cbn [seq map app]. f_equal.
    + do 3 f_equal. lia.
    + rewrite <- seq_shift, map_map. apply map_ext. intros i.
      do 3 f_equal. lia.
Qed.

Lemma backoff_delays (count : nat) :
  count <= 3 ->
  map (fun i => (retryDelay * 2 ^ Z.of_nat (0 + i))%Z) (seq 0 count)
  = take count [1000; 2000; 4000]%Z.
Proof.
  intros Hcount.
  destruct count as [|[|[|[|count]]]]; [done..|lia].
Qed.

(** X18. A connection that succeeds after one, two or three failed
    attempts has slept 1 s, 2 s and 4 s after them, in this order, and the
    count of retries is back at 0. *)
Theorem connect_backs_off
    (d : Connection.t) (messages : list string) (rest : list (option string)) :
  isConnected d = false ->
  connectionRetries d = 0 ->
  length messages <= 3 ->
  connect (map Some messages ++ None :: rest) d
  = Some (Return tt,
          {| isConnected := true; connectionRetries := 0;
             slept := slept d ++ take (length messages) [1000; 2000; 4000]%Z |},
          rest).
Proof.
  intros Hd Hzero Hlen.
  rewrite connect_failures; [|done|unfold maxRetries; lia].
  rewrite Hzero, backoff_delays by done.
  by cbn [connect isConnected slept].
Qed.

Lemma connect_backs_off_witness :
  connect (map Some ["database is locked"; "database is locked"]
             ++ None :: [Some "later"]) new
  = Some (Return tt,
          {| isConnected := true; connectionRetries := 0;
             slept := slept new ++ take 2 [1000; 2000; 4000]%Z |},
          [Some "later"]).
Proof.
  apply (connect_backs_off new ["database is locked"; "database is locked"]
           [Some "later"]); [reflexivity|reflexivity|cbn; lia].
Defined.

(** X19. A fresh service gives up at the fourth failed attempt in a row,
    after sleeping 1 s, 2 s and 4 s, with an error that names three
    attempts and the last message. The count of retries is not reset by
    that: until a connection succeeds, every later [connect] makes one
    attempt and throws at once, without sleeping. *)
Theorem connect_gives_up
    (d : Connection.t) (messages : list string) (final later : string)
    (rest rest' : list (option string)) :
  isConnected d = false ->
  connectionRetries d = 0 ->
  length messages = 3 ->
  let failed :=
    {| isConnected := false; connectionRetries := 4;
       slept := slept d ++ [1000; 2000; 4000]%Z |} in
  connect (map Some messages ++ Some final :: rest) d
  = Some (Throw (Error (String.append
                          "Database connection failed after 3 attempts: "
                          final)),
          failed, rest)
  /\ connect (Some later :: rest') failed
     = Some (Throw (Error (String.append
                             "Database connection failed after 3 attempts: "
                             later)),
             {| isConnected := false; connectionRetries := 5;
                slept := slept failed |},
             rest').
Proof.
  intros Hd Hzero Hlen. cbv zeta. split; [|done].
  rewrite connect_failures; [|done|unfold maxRetries; lia].
  rewrite Hzero, backoff_delays, Hlen by lia.
  by cbn [connect isConnected connectionRetries slept].
Qed.

Lemma connect_gives_up_witness :
  let messages := ["Connection refused"; "Connection refused";
                   "Connection refused"] in
  let failed :=
    {| isConnected := false; connectionRetries := 4;
       slept := slept new ++ [1000; 2000; 4000]%Z |} in
  connect (map Some messages ++ Some "Connection refused" :: []) new
  = Some (Throw (Error (String.append
                          "Database connection failed after 3 attempts: "
                          "Connection refused")),
          failed, [])
  /\ connect (Some "Connection refused" :: [None]) failed
     = Some (Throw (Error (String.append
                             "Database connection failed after 3 attempts: "
                             "Connection refused")),
             {| isConnected := false; connectionRetries := 5;
                slept := slept failed |},
             [None]).
Proof.
  apply (connect_gives_up new
           ["Connection refused"; "Connection refused"; "Connection refused"]
           "Connection refused" "Connection refused" [] [None]);
    reflexivity.
Defined.

(** X20. What [healthCheck] returns never changes what an operation does:
    on a service that is marked connected a failed check leads to
    [connect], which returns at once because of the mark, and on one that
    is not the check is not made. *)
Theorem health_check_changes_nothing
    {A} (healthy healthy' : bool) (attempts : list (option string))
    (results : list (outcome A)) (d : Connection.t) :
  ensureConnection healthy attempts d = ensureConnection healthy' attempts d
  /\ executeOperation healthy attempts results d
     = executeOperation healthy' attempts results d.
Proof.
  assert (forall h, ensureConnection h attempts d = connect attempts d) as He.
  { intros h. unfold ensureConnection.
    destruct (isConnected d) eqn:Hd; [|done].
    rewrite connect_connected by done. by destruct h. }
  split; [by rewrite !He|].
  unfold executeOperation. by rewrite !He.
Qed.

(** X21. [executeOperation] calls the operation at most twice, and a
    second time only after the first call threw an error whose message
    names a lost, terminated or refused connection, a database file that
    cannot be opened or a locked database; the completion of the second
    call is final, whatever it is. *)
Theorem operation_runs_at_most_twice
    {A} (healthy : bool) (attempts : list (option string))
    (results : list (outcome A)) (d d' : Connection.t)
    (completion : outcome A) (invoked : nat) :
  executeOperation healthy attempts results d
    = Some (completion, d', invoked) ->
  invoked <= 2
  /\ (invoked = 2 ->
      exists e, results !! 0 = Some (Throw e)
                /\ isConnectionError e = true
                /\ results !! 1 = Some completion)
  /\ forall e, results !! 0 = Some (Throw e) ->
               isConnectionError e = false ->
               invoked <= 1 /\ (invoked = 1 -> completion = Throw e).
Proof.
  unfold executeOperation.
  destruct (ensureConnection healthy attempts d) as [[[ensured d1] rest]|];
    [|done].
  cbn [mbind option_bind].
  destruct ensured as [[]|e0].
  - destruct (results !! 0) as [[a|e]|] eqn:Hfirst; cbn [fmap option_fmap option_map mbind option_bind]; [| |done].
    + intros [= <- <- <-]. split; [lia|]. split; [lia|]. by intros e [= ].
    + destruct (isConnectionError e) eqn:Hconn.
      * destruct (connect rest _) as [[[reconnected d2] rest2]|]; [|done].
        cbn [mbind option_bind].
        destruct reconnected as [[]|e'].
        -- destruct (results !! 1) as [second|] eqn:Hsecond; [|done].
           cbn [fmap option_fmap option_map].
           intros [= <- <- <-]. split; [lia|]. split.
           ++ intros _. by exists e.
           ++ intros e1 [= <-] Hno. congruence.
        -- intros [= <- <- <-]. split; [lia|]. split; [lia|].
           intros e1 [= <-] Hno. congruence.
      * intros [= <- <- <-]. split; [lia|]. split; [lia|].
        by intros e1 [= <-] _.
  - cbn [mbind option_bind].
    destruct (isConnectionError e0) eqn:Hconn.
    + destruct (connect rest _) as [[[reconnected d2] rest2]|]; [|done].
      cbn [mbind option_bind].
      destruct reconnected as [[]|e'].
      * destruct (results !! 0) as [first|] eqn:Hfirst; [|done].
        cbn [fmap option_fmap option_map].
        intros [= <- <- <-]. split; [lia|]. split; [lia|].
        intros e1 [= ->] Hno. split; [lia|done].
      * intros [= <- <- <-]. split; [lia|]. split; [lia|].
        intros e1 _ _. split; [lia|lia].
    + intros [= <- <- <-]. split; [lia|]. split; [lia|].
      intros e1 _ _. split; [lia|lia].
Qed.

Lemma operation_runs_at_most_twice_witness :
  let results : list (outcome nat) :=
    [Throw (Error "SQLITE_BUSY: database is locked"); Return 7; Return 8] in
  let d := {| isConnected := true; connectionRetries := 0; slept := [] |} in
  2 <= 2
  /\ (2 = 2 ->
      exists e, results !! 0 = Some (Throw e)
                /\ isConnectionError e = true
                /\ results !! 1 = Some (Return 7))
  /\ forall e, results !! 0 = Some (Throw e) ->
               isConnectionError e = false ->
               2 <= 1 /\ (2 = 1 -> Return 7 = Throw e).
Proof.
  apply (operation_runs_at_most_twice true [None]
           [Throw (Error "SQLITE_BUSY: database is locked"); Return 7; Return 8]
           {| isConnected := true; connectionRetries := 0; slept := [] |}
           {| isConnected := true; connectionRetries := 0; slept := [] |}
           (Return 7) 2).
  vm_compute. reflexivity.
Defined.

End DatabaseConnection.

(** ** Batches of readings *)

Section BatchReadings.
Import DatabaseService Batch.

Lemma createBatch_cons r rest :
  createBatchPowerReadings (r :: rest)
  = match batchRow r with
    | Return row =>
        match createBatchPowerReadings rest with
        | Return rows => Return (row :: rows)
        | Throw e => Throw e
        end
    | Throw e => Throw e
    end.
Proof.
  cbn [createBatchPowerReadings mbind outcome_bind Js.bind mret outcome_ret].
  by destruct (batchRow r).
Qed.

(** X22. A batch is handed to the store as a whole or not at all: the rows
    are those of the single readings, one for each, when every reading has
    a station, a valid timestamp and data that can be transformed; the
    first reading that has not makes the call throw its error before the
    store is called, so that the readings before and after it are lost
    with it. *)
Theorem batch_is_all_or_nothing
    (readingsData : list readingData) :
  (forall rows,
     createBatchPowerReadings readingsData = Return rows
     <-> Forall2 (fun r row => batchRow r = Return row) readingsData rows)
  /\ forall before r after e,
       readingsData = before ++ r :: after ->
       Forall (fun r => exists row, batchRow r = Return row) before ->
       batchRow r = Throw e ->
       createBatchPowerReadings readingsData = Throw e.
Proof.
  split.
  - induction readingsData as [|r rest IH]; intros rows.
    + cbn [createBatchPowerReadings]. split.
      * intros H. apply Return_inj in H as <-. constructor.
      * intros H. by inversion H.
    + rewrite createBatch_cons. split.
      * destruct (batchRow r) as [row|e] eqn:Hrow; [|done].
        destruct (createBatchPowerReadings rest) as [rows'|e] eqn:Hrest;
          [|done].
        intros H. apply Return_inj in H as <-.
        constructor; [done|]. by apply IH.
      * intros H. inversion H as [|r' row rest' rows' Hrow Hrest]; subst.
        rewrite Hrow. apply IH in Hrest. by rewrite Hrest.
  - intros before r after e -> Hbefore Hr.
    induction before as [|b before IH]; cbn [app].
    + rewrite createBatch_cons. by rewrite Hr.
    + inversion Hbefore as [|b' before' [row Hrow] Hbefore']; subst.
      rewrite createBatch_cons, Hrow. by rewrite IH.
Qed.

End BatchReadings.

(** ** Stations loaded from the store *)

Section LoadedStations.
Import ApiDataFetcher Stations.

Lemma looksLikeApi_isApiStation station :
  looksLikeApi station
  = isApiStation {| name := name station; ipAddress := ipAddress station;
                    ip := None; scene := scene station |}
  /\ looksLikeApi station = isApiStation (toConfig station).
Proof.
  unfold looksLikeApi, isApiStation, toConfig, orElse.
  cbn [ipAddress ip].
  destruct (ipAddress station) as [[|a address]|]; done.
Qed.

Lemma isComplete_analyzeStation station :
  (isComplete station = true <-> analyzeStation station <> IncompleteStation)
  /\ (isComplete station = true ->
      (transportOf (toConfig station) = HttpPoll
       <-> analyzeStation station = ApiStation)
      /\ (transportOf (toConfig station) = WebSocket
          <-> analyzeStation station = WebSocketStation)).
Proof.
  destruct (looksLikeApi_isApiStation station) as [Han Htr].
  unfold isComplete, analyzeStation, transportOf.
  rewrite <- Han, <- Htr.
  destruct (looksLikeApi station);
    destruct (present (name station)), (present (ipAddress station)),
      (present (scene station)); cbn [andb];
    repeat split; intros; try done.
Qed.

(** X23. Without a database service, when the query for the stations
    fails and when the store holds no station, [loadStationsFromDatabase]
    returns the default stations of the configuration. From a store that
    holds stations it keeps those the station analyzer does not class as
    incomplete, and the monitor that is created for a kept station is of
    the kind the analyzer names: an HTTP poller for an API station, a
    WebSocket monitor for the others. *)
Theorem loaded_stations_match_analyzer
    (defaultStations : list stationConfig)
    (stored : option (outcome (list stationConfig))) :
  (stored = None \/ (exists e, stored = Some (Throw e))
   \/ stored = Some (Return []) ->
   loadStationsFromDatabase defaultStations stored = defaultStations)
  /\ forall dbStations config,
       stored = Some (Return dbStations) -> dbStations <> [] ->
       config ∈ loadStationsFromDatabase defaultStations stored
       <-> exists station,
             station ∈ dbStations
             /\ config = toConfig station
             /\ analyzeStation station <> IncompleteStation
             /\ (transportOf config = HttpPoll
                 <-> analyzeStation station = ApiStation)
             /\ (transportOf config = WebSocket
                 <-> analyzeStation station = WebSocketStation).
Proof.
  split.
  { by intros [->|[[e ->]| ->]]. }
  intros dbStations config -> Hsome.
  assert (loadStationsFromDatabase defaultStations (Some (Return dbStations))
          = map toConfig
              (filter (fun station => isComplete station = true) dbStations))
    as -> by by destruct dbStations.
  rewrite list_elem_of_fmap. split.
  - intros (station & -> & Hin). apply list_elem_of_filter in Hin as [Hc Hin].
    destruct (isComplete_analyzeStation station) as [Hiff Hkind].
    exists station. split; [done|]. split; [done|].
    split; [by apply Hiff|]. by apply Hkind.
  - intros (station & Hin & -> & Hclass & _).
    exists station. split; [done|]. apply list_elem_of_filter.
    split; [|done]. by apply isComplete_analyzeStation.
Qed.

(** X24. A stored station can be skipped without any field being named as
    missing: that happens exactly when it has a name and an address that
    contains "/data" but does not begin with "http://", and no scene. The
    scene is what keeps it out, and the log leaves the scene out because
    of the "/data". *)
Theorem skipped_without_reason (station : stationConfig) :
  isComplete station = false /\ missing station = []
  <-> present (name station) = true
      /\ present (scene station) = false
      /\ exists address,
           ipAddress station = Some address /\ address <> ""
           /\ includes "/data" address = true
           /\ startsWith "http://" address = false.
Proof.
  unfold isComplete, missing, looksLikeApi.
  destruct (ipAddress station) as [[|a address]|] eqn:Hip;
    cbn [present from_option negb andb orb bool_decide].
  - split.
    + intros [_ Hmiss].
      destruct (present (name station)), (present (scene station));
        discriminate Hmiss.
    + by intros (_ & _ & address & [= <-] & Hne & _).
  - rewrite bool_decide_eq_false_2 by done. cbn [negb andb].
    destruct (present (name station)), (present (scene station)),
      (startsWith "http://" (String a address)) eqn:Hhttp,
      (includes "/data" (String a address)) eqn:Hdata;
      cbn [andb negb orb app];
      (split;
       [ intros [H1 H2];
         first [ discriminate
               | split; [done|]; split; [done|]; by exists (String a address) ]
       | intros (Hn & Hs & address' & [= <-] & Hne & Hi & Hst);
         first [ discriminate | congruence | by split ] ]).
  - split.
    + intros [_ Hmiss].
      destruct (present (name station)), (present (scene station));
        discriminate Hmiss.
    + by intros (_ & _ & address & [= ] & _).
Qed.

End LoadedStations.

(** ** Payloads that are no object *)

Section InvalidPayload.
Import ApiDataFetcher.

Lemma tick_invalid_payload a clock :
  isRunning a = true -> fetchInterval a = true ->
  errorCount a < maxErrors a ->
  tick a (clock, Resolved NotObject)
  = {| isRunning := isRunning a; fetchInterval := fetchInterval a;
       lastFetch := Some clock; lastData := lastData a;
       errorCount := errorCount a; maxErrors := maxErrors a |}.
Proof.
  intros Hrun Htimer Hcount. unfold tick, fetchAndProcess.
  rewrite Hrun, Htimer. cbn [andb fst snd].
  by rewrite (proj2 (Nat.leb_gt _ _)) by done.
Qed.

(** X25. A payload that parses but is no object (null, a number, a string,
    a boolean) is neither a failure nor a success for the poller: the
    count of errors neither grows nor is set back, the last data stay, and
    a station that keeps answering so is polled without end. *)
Theorem invalid_payload_is_not_counted
    (a : ApiDataFetcher.t) (clocks : list Z) :
  isRunning a = true -> fetchInterval a = true ->
  errorCount a < maxErrors a ->
  let a' := run a (map (fun clock => (clock, Resolved NotObject)) clocks) in
  isRunning a' = true /\ fetchInterval a' = true
  /\ errorCount a' = errorCount a
  /\ lastData a' = lastData a
  /\ lastFetch a' = from_option Some (lastFetch a) (list.last clocks).
Proof.
  cbv zeta. revert a.
  induction clocks as [|clock clocks IH]; intros a Hrun Htimer Hcount;
    [done|].
  cbn [map run fold_left].
  fold (run (tick a (clock, Resolved NotObject))
          (map (fun clock => (clock, Resolved NotObject)) clocks)).
  rewrite tick_invalid_payload by done.
  destruct (IH {| isRunning := isRunning a; fetchInterval := fetchInterval a;
                  lastFetch := Some clock; lastData := lastData a;
                  errorCount := errorCount a; maxErrors := maxErrors a |})
    as (H1 & H2 & H3 & H4 & H5); [done..|].
  rewrite H1, H2, H3, H4, H5. cbn [errorCount lastData lastFetch].
  repeat split; try done.
  destruct clocks as [|clock' clocks]; [reflexivity|].
  rewrite last_cons_cons.
  destruct (list.last (clock' :: clocks)) eqn:Hlast; [done|].
  by apply last_None in Hlast.
Qed.

Lemma invalid_payload_is_not_counted_witness :
  let a := start 0 (Resolved (Object ∅)) new in
  let a' := run a (map (fun clock => (clock, Resolved NotObject))
                     [10000; 20000; 30000; 40000; 50000; 60000]%Z) in
  isRunning a' = true /\ fetchInterval a' = true
  /\ errorCount a' = errorCount a
  /\ lastData a' = lastData a
  /\ lastFetch a' = from_option Some (lastFetch a)
                      (list.last [10000; 20000; 30000; 40000; 50000; 60000]%Z).
Proof.
  apply (invalid_payload_is_not_counted (start 0 (Resolved (Object ∅)) new)
           [10000; 20000; 30000; 40000; 50000; 60000]%Z).
  - reflexivity.
  - reflexivity.
  - vm_compute. lia.
Defined.

End InvalidPayload.

(** ** Object ids read back from their text *)

Section ReadBack.
Import MonitoredObjects.

Lemma readDigits_numeral d acc count :
  readDigits digitValue 10 (NilEmpty.string_of_uint d) acc count
  = (decimalValue d acc, count + Decimal.nb_digits d, "").
Proof.
  revert acc count.
  induction d as [|d IH|d IH|d IH|d IH|d IH|d IH|d IH|d IH|d IH|d IH];
    intros acc count;
    cbn [NilEmpty.string_of_uint readDigits decimalValue Decimal.nb_digits];
    [by rewrite Nat.add_0_r|..];
    (match goal with
     | |- context [digitValue ?c] =>
         let v := eval vm_compute in (digitValue c) in
         change (digitValue c) with v
     end; cbv iota; rewrite IH; do 2 f_equal; lia).
Qed.

Lemma decimalValue_of_uint_acc d acc :
  Z.pos (Pos.of_uint_acc d acc) = decimalValue d (Z.pos acc).
Proof.
  revert acc.
  induction d as [|d IH|d IH|d IH|d IH|d IH|d IH|d IH|d IH|d IH|d IH];
    intros acc; cbn [Pos.of_uint_acc decimalValue]; [done|..];
    rewrite IH; f_equal; lia.
Qed.

Lemma decimalValue_of_uint d : Z.of_N (N.of_uint d) = decimalValue d 0.
Proof.
  unfold N.of_uint.
  induction d as [|d IH|d IH|d IH|d IH|d IH|d IH|d IH|d IH|d IH|d IH];
    cbn [Pos.of_uint decimalValue]; [done|by rewrite IH|..];
    cbn [Z.of_N]; by rewrite decimalValue_of_uint_acc.
Qed.

Lemma numeral_not_empty n : Decimal.nb_digits (N.to_uint n) <> 0.
Proof.
  destruct n as [|p]; [done|]. cbn [N.to_uint].
  intros Hzero.
  pose proof (DecimalN.Unsigned.of_to (N.pos p)) as Hback.
  cbn [N.to_uint] in Hback.
  destruct (Pos.to_uint p); [done|cbn in Hzero; lia..].
Qed.

Lemma roundHalfEven_1 n : roundHalfEven n 1 = n.
Proof.
  unfold roundHalfEven. rewrite Z.mod_1_r, Z.div_1_r. done.
Qed.

Lemma ofZ_inj a b : ofZ a = ofZ b -> a = b.
Proof.
  unfold ofZ. intros Heq.
  assert (Q2Qc (inject_Z a) = Q2Qc (inject_Z b)) as Hq by congruence.
  apply Q2Qc_eq_iff in Hq. exact (proj1 (inject_Z_injective a b) Hq).
Qed.

(** A whole number below 2^53 is a double. *)
Lemma toDouble_integer z :
  (0 <= z < 2 ^ 53)%Z -> toDouble (inject_Z z) = ofZ z.
Proof.
  intros Hz. unfold toDouble, ofZ. cbn [Qnum Qden inject_Z].
  destruct (Z.eqb_spec (Z.abs z) 0) as [Hzero|Hpos].
  { assert (z = 0%Z) as -> by lia. done. }
  rewrite Z.abs_eq by lia.
  assert (0 < z)%Z as Hlt by lia.
  pose proof (Z.log2_spec z Hlt) as [Hlow Hhigh].
  assert (0 <= Z.log2 z)%Z as Hnonneg by apply Z.log2_nonneg.
  assert (Z.log2 z < 53)%Z as Hlog by (apply Z.log2_lt_pow2; lia).
  assert (exponentOf z 1 = Z.log2 z) as ->.
  { unfold exponentOf. change (Z.log2 1) with 0%Z. rewrite Z.sub_0_r.
    destruct (Z.leb_spec 0 (Z.log2 z)); [|lia].
    rewrite Z.mul_1_l. by destruct (Z.leb_spec (2 ^ Z.log2 z) z); [|lia]. }
  rewrite Z.max_l by lia.
  set (ulp := (Z.log2 z - 52)%Z).
  assert (ulp <= 0)%Z as Hulp by (unfold ulp; lia).
  assert ((971 <? ulp)%Z = false) as -> by (apply Z.ltb_ge; lia).
  assert ((ulp =? 971)%Z = false) as -> by (apply Z.eqb_neq; lia).
  assert ((z <? 0)%Z = false) as -> by (apply Z.ltb_ge; lia).
  cbn [orb andb]. f_equal. apply Q2Qc_eq_iff.
  destruct (Z.leb_spec 0 ulp) as [Hge|Hneg].
  - assert (ulp = 0%Z) as -> by lia.
    change (2 ^ 0)%Z with 1%Z. rewrite Z.mul_1_l, roundHalfEven_1.
    by rewrite Z.mul_1_r.
  - rewrite roundHalfEven_1. unfold Qeq. cbn [Qnum Qden inject_Z].
    rewrite Z2Pos.id by (apply Z.pow_pos_nonneg; lia). lia.
Qed.

Lemma parseInt_numeral d :
  Decimal.nb_digits d <> 0 ->
  parseInt (NilEmpty.string_of_uint d) = toDouble (inject_Z (decimalValue d 0)).
Proof.
  intros Hd.
  assert (parseInt (NilEmpty.string_of_uint d)
          = let '(n, count, _) :=
              readDigits digitValue 10 (NilEmpty.string_of_uint d) 0%Z 0 in
            if Nat.eqb count 0 then NaN else toDouble (inject_Z n)) as ->.
  { destruct d as [|d|d|d|d|d|d|d|d|d|d]; [done| |reflexivity..].
    destruct d as [|d|d|d|d|d|d|d|d|d|d]; reflexivity. }
  rewrite readDigits_numeral. cbn [Nat.add].
  by destruct (Decimal.nb_digits d).
Qed.

(** An object id that is a safe integer, printed and read back, is the
    id. *)
Lemma parseInt_toString (n : N) :
  isSafeInteger n -> parseInt (toString n) = ofZ (Z.of_N n).
Proof.
  intros Hsafe. unfold toString.
  rewrite parseInt_numeral by apply numeral_not_empty.
  rewrite <- decimalValue_of_uint, DecimalN.Unsigned.of_to.
  apply toDouble_integer. unfold isSafeInteger in Hsafe.
  change (2 ^ 53)%Z with (Z.of_N (2 ^ 53)). lia.
Qed.

Lemma objectsToCreate_elem objectMap objectType objectId :
  safeIds objectMap ->
  (objectType, objectId) ∈ objectsToCreate objectMap
  <-> exists n, objectMap !! objectType = Some (Some n)
                /\ objectId = ofZ (Z.of_N n).
Proof.
  intros Hsafe. unfold objectsToCreate. rewrite list_elem_of_bind. split.
  - intros ([t [n|]] & Hin & Hentry); cbn [fst snd] in Hin;
      [|by apply elem_of_nil in Hin].
    apply list_elem_of_singleton in Hin. injection Hin as -> ->.
    apply elem_of_map_to_list in Hentry.
    exists n. split; [done|]. apply parseInt_toString. by eapply Hsafe.
  - intros (n & Hn & ->). exists (objectType, Some n). split.
    + cbn [fst snd]. rewrite parseInt_toString by by eapply Hsafe.
      apply list_elem_of_here.
    + by apply elem_of_map_to_list.
Qed.

Lemma objectsToCreate_elem_id objectMap objectType (n : N) :
  safeIds objectMap ->
  (objectType, ofZ (Z.of_N n)) ∈ objectsToCreate objectMap
  <-> objectMap !! objectType = Some (Some n).
Proof.
  intros Hsafe. rewrite objectsToCreate_elem by done. split.
  - intros (n' & Hn' & Heq). apply ofZ_inj, (inj Z.of_N) in Heq.
    by subst.
  - intros Hn. by exists n.
Qed.

Lemma bind_keys_NoDup {A B} (g : string * A -> list (string * B))
    (l : list (string * A)) :
  (forall entry row, row ∈ g entry -> row.1 = entry.1) ->
  (forall entry, length (g entry) <= 1) ->
  NoDup l.*1 -> NoDup (l ≫= g).*1.
Proof.
  intros Hkey Hone. induction l as [|entry l IH]; [done|].
  cbn [fmap list_fmap]. intros Hnd.
  apply list.NoDup_cons in Hnd as [Hnot Hnd].
  cbn [mbind list_bind]. rewrite fmap_app. apply list.NoDup_app.
  split; [|split; [|by apply IH]].
  - specialize (Hone entry).
    destruct (g entry) as [|row [|row' rows]]; cbn in *;
      [constructor|apply list.NoDup_singleton|lia].
  - intros k Hk Hk'. apply Hnot.
    apply list_elem_of_fmap in Hk as (row & -> & Hrow).
    apply list_elem_of_fmap in Hk' as (row' & Heq & Hrow').
    apply list_elem_of_bind in Hrow' as (entry' & Hin & Hentry').
    rewrite (Hkey _ _ Hrow) in Heq. rewrite (Hkey _ _ Hin) in Heq.
    rewrite Heq. apply list_elem_of_fmap. by exists entry'.
Qed.

Lemma objectsToCreate_keys objectMap : NoDup (objectsToCreate objectMap).*1.
Proof.
  unfold objectsToCreate. apply bind_keys_NoDup.
  - intros [t [n|]] row Hrow; cbn [fst snd] in *;
      [|by apply elem_of_nil in Hrow].
    by apply list_elem_of_singleton in Hrow as ->.
  - intros [t [n|]]; cbn; lia.
  - apply NoDup_fst_map_to_list.
Qed.

Lemma fold_insert_lookup (rows : list (string * N)) objectType objectId :
  NoDup rows.*1 ->
  fold_left
    (fun objectMap row =>
       if bool_decide (row.1 = "__proto__") then objectMap
       else <[row.1 := row.2]> objectMap) rows
    (∅ : gmap string N) !! objectType = Some objectId
  <-> objectType <> "__proto__" /\ (objectType, objectId) ∈ rows.
Proof.
  intros Hnd.
  assert (forall (m : gmap string N),
            (forall row, row ∈ rows -> m !! row.1 = None) ->
            fold_left
              (fun objectMap row =>
                 if bool_decide (row.1 = "__proto__") then objectMap
                 else <[row.1 := row.2]> objectMap)
              rows m !! objectType = Some objectId
            <-> (objectType <> "__proto__" /\ (objectType, objectId) ∈ rows)
                \/ m !! objectType = Some objectId) as Hall.
  { induction rows as [|[t n] rows IH]; intros m Hm.
    - cbn [fold_left]. split; [by right|].
      intros [[_ Hin]|?]; [by apply elem_of_nil in Hin|done].
    - cbn [fmap list_fmap fst] in Hnd.
      apply list.NoDup_cons in Hnd as [Hnot Hnd].
      pose proof (Hm (t, n) (list_elem_of_here _ _)) as Hnone.
      cbn [fst] in Hnone.
      assert (forall id, (t, id) ∉ rows) as Hfresh.
      { intros id Hin. destruct Hnot. apply list_elem_of_fmap.
        by exists (t, id). }
      cbn [fold_left fst snd]. rewrite IH; [|done|].
      + rewrite elem_of_cons. case_bool_decide as Hproto.
        * subst t. split.
          -- intros [[Hne Hin]|?]; [left; split; [done|by right]|by right].
          -- intros [[Hne [[= Heq _]|Hin]]|?]; [done|by left|by right].
        * destruct (decide (objectType = t)) as [->|Hne].
          -- rewrite lookup_insert_eq, Hnone. split.
             ++ intros [[_ Hin]|[= <-]]; [by destruct (Hfresh objectId)|].
                left. split; [done|by left].
             ++ intros [[_ [[= ->]|Hin]]|?];
                  [by right|by destruct (Hfresh objectId)|done].
          -- rewrite lookup_insert_ne by done. split.
             ++ intros [[? ?]|?]; [left; split; [done|by right]|by right].
             ++ intros [[? [[= -> _]|?]]|?]; [done|by left|by right].
      + intros row' Hrow'. cbn [fst snd]. case_bool_decide as Hproto.
        * apply (Hm row'). by apply list_elem_of_further.
        * rewrite lookup_insert_ne.
          -- apply (Hm row'). by apply list_elem_of_further.
          -- intros Heq. destruct Hnot. rewrite Heq.
             apply list_elem_of_fmap. by exists row'. }
  rewrite Hall by done. split; [|by left].
  intros [?|?]; done.
Qed.

(** X26. What [updateStationMonitoredObjects] stores for a station whose
    ids are safe integers is what [getStationMonitoredObjects] returns for
    it: every object type of the map that has an id, with that id, the
    entries that are null left out, and as many objects as the update
    reported. Only a type named "__proto__" is missing from the object map
    that is returned, while its id is among the ids and is counted. *)
Theorem stored_objects_are_found
    (objectMap : gmap string (option N)) (rows : list (string * N))
    (objectType : string) :
  safeIds objectMap ->
  found objectMap rows ->
  let monitoredData := ChiangMaiClient.getStationMonitoredObjects rows in
  ChiangMaiClient.objectMap monitoredData !! objectType
  = (if bool_decide (objectType = "__proto__") then None
     else objectMap !! objectType ≫= id)
  /\ ChiangMaiClient.count monitoredData = updated objectMap
  /\ forall objectId,
       objectId ∈ ChiangMaiClient.objectIds monitoredData
       <-> exists type, objectMap !! type = Some (Some objectId).
Proof.
  unfold found. intros Hsafe Hfound. cbv zeta.
  assert (NoDup rows.*1) as Hnd.
  { assert (rows.*1
            = ((fun row : string * N => (row.1, ofZ (Z.of_N row.2)))
                 <$> rows).*1) as ->.
    { rewrite <- list_fmap_compose. by apply list_fmap_ext. }
    rewrite Hfound. apply objectsToCreate_keys. }
  assert (forall t n, (t, n) ∈ rows <-> objectMap !! t = Some (Some n))
    as Hrows.
  { intros t n. rewrite <- (objectsToCreate_elem_id objectMap t n Hsafe).
    rewrite <- Hfound. rewrite list_elem_of_fmap. split.
    - intros Hin. by exists (t, n).
    - intros ([t' n'] & Heq & Hin). cbn [fst snd] in Heq.
      pose proof (f_equal fst Heq) as Ht. pose proof (f_equal snd Heq) as Hn.
      cbn [fst snd] in Ht, Hn. apply ofZ_inj, (inj Z.of_N) in Hn.
      by subst. }
  cbn [ChiangMaiClient.getStationMonitoredObjects ChiangMaiClient.objectMap
       ChiangMaiClient.count ChiangMaiClient.objectIds].
  split; [|split].
  - destruct (fold_left _ rows ∅ !! objectType) as [n|] eqn:Hlook.
    + apply fold_insert_lookup in Hlook as [Hne Hlook]; [|done].
      apply Hrows in Hlook. rewrite Hlook.
      by rewrite bool_decide_eq_false_2.
    + case_bool_decide as Hproto; [done|].
      destruct (objectMap !! objectType) as [[n|]|] eqn:Hmap; [|done..].
      apply Hrows in Hmap.
      assert (fold_left
                (fun objectMap row =>
                   if bool_decide (row.1 = "__proto__") then objectMap
                   else <[row.1 := row.2]> objectMap) rows
                (∅ : gmap string N) !! objectType = Some n) as Hthere
        by by apply fold_insert_lookup.
      congruence.
  - unfold updated. rewrite <- Hfound. by rewrite length_fmap.
  - intros objectId. rewrite list_elem_of_fmap. split.
    + intros ([t n] & -> & Hin). exists t. by apply Hrows.
    + intros (t & Ht). exists (t, objectId). split; [done|]. by apply Hrows.
Qed.

Lemma stored_objects_are_found_witness :
  let objectMap : gmap string (option N) :=
    <["activePower1" := Some 8684%N]> {[ "muxPower1" := None ]} in
  let monitoredData :=
    ChiangMaiClient.getStationMonitoredObjects [("activePower1", 8684%N)] in
  ChiangMaiClient.objectMap monitoredData !! "activePower1"
  = (if bool_decide ("activePower1" = "__proto__") then None
     else objectMap !! "activePower1" ≫= id)
  /\ ChiangMaiClient.count monitoredData = updated objectMap
  /\ forall objectId,
       objectId ∈ ChiangMaiClient.objectIds monitoredData
       <-> exists type, objectMap !! type = Some (Some objectId).
Proof.
  apply (stored_objects_are_found
           (<["activePower1" := Some 8684%N]> {[ "muxPower1" := None ]})
           [("activePower1", 8684%N)] "activePower1").
  - intros objectType objectId Hid. unfold isSafeInteger.
    destruct (decide (objectType = "activePower1")) as [->|Hne].
    + rewrite lookup_insert_eq in Hid. injection Hid as <-. reflexivity.
    + rewrite lookup_insert_ne in Hid by done.
      destruct (decide (objectType = "muxPower1")) as [->|Hne'].
      * rewrite lookup_singleton_eq in Hid. discriminate Hid.
      * rewrite lookup_singleton_ne in Hid by done. discriminate Hid.
  - unfold found.
    assert (objectsToCreate
              (<["activePower1" := Some 8684%N]> {[ "muxPower1" := None ]})
            = [("activePower1", parseInt (toString 8684%N))]) as ->
      by (vm_compute; reflexivity).
    rewrite parseInt_toString by reflexivity. reflexivity.
Defined.

End ReadBack.

(** ** Reading back a CSV table *)

Section CsvRoundTrip.
Import CsvImport MonitoredObjects.

Lemma split_free separator s : free separator s -> split separator s = [s].
Proof.
  induction s as [|c r IH]; [done|]. intros [Hc Hr]. cbn [split].
  rewrite bool_decide_eq_false_2 by done. by rewrite IH.
Qed.

Lemma append_nil s : String.append "" s = s.
Proof. done. Qed.

Lemma append_cons c r s :
  String.append (String c r) s = String c (String.append r s).
Proof. done. Qed.

Lemma split_app separator s rest :
  free separator s ->
  split separator (String.append s (String separator rest))
  = s :: split separator rest.
Proof.
  induction s as [|c r IH]; intros Hfree.
  - rewrite append_nil. cbn [split]. by rewrite bool_decide_eq_true_2.
  - destruct Hfree as [Hc Hr]. rewrite append_cons. cbn [split].
    rewrite bool_decide_eq_false_2 by done. by rewrite IH.
Qed.

Lemma concat_cons separator x y cells :
  String.concat (String separator "") (x :: y :: cells)
  = String.append x
      (String separator (String.concat (String separator "") (y :: cells))).
Proof. done. Qed.

Lemma split_concat separator cells :
  cells <> [] -> Forall (free separator) cells ->
  split separator (String.concat (String separator "") cells) = cells.
Proof.
  intros Hne Hall. induction cells as [|x [|y cells] IH]; [done| |].
  - inversion Hall; subst. by apply split_free.
  - inversion Hall as [|x' l' Hx Hrest]; subst.
    rewrite concat_cons, split_app by done. by rewrite IH.
Qed.

Lemma free_append c a b : free c a -> free c b -> free c (String.append a b).
Proof.
  induction a as [|x a IH]; [done|]. intros [Hx Ha] Hb.
  rewrite append_cons. cbn [free]. split; [done|]. by apply IH.
Qed.

Lemma free_concat c separator cells :
  separator <> c -> Forall (free c) cells ->
  free c (String.concat (String separator "") cells).
Proof.
  intros Hsep Hall. induction cells as [|x [|y cells] IH]; [done| |].
  - by inversion Hall.
  - inversion Hall as [|x' l' Hx Hrest]; subst.
    rewrite concat_cons. apply free_append; [done|].
    cbn [free]. split; [done|]. by apply IH.
Qed.

Lemma trimStart_clean s : startsClean s = true -> trimStart s = s.
Proof.
  destruct s as [|c r]; [done|]. cbn [startsClean trimStart].
  by destruct (isWhiteSpace c).
Qed.

Lemma trimEnd_cons c r :
  trimEnd (String c r)
  = match trimEnd r with
    | EmptyString => if isWhiteSpace c then "" else String c ""
    | rest => String c rest
    end.
Proof. done. Qed.

Lemma trimEnd_clean s : endsClean s = true -> trimEnd s = s.
Proof.
  induction s as [|c r IH]; [done|]. intros He. rewrite trimEnd_cons.
  destruct r as [|c' r].
  - cbn in *. by destruct (isWhiteSpace c).
  - by rewrite (IH He).
Qed.

Lemma trim_clean s :
  startsClean s = true -> endsClean s = true -> trim s = s.
Proof.
  intros Hs He. unfold trim. rewrite trimStart_clean by done.
  by apply trimEnd_clean.
Qed.

Lemma trimEnd_endsClean s : trimEnd s = s -> endsClean s = true.
Proof.
  induction s as [|c r IH]; [done|]. rewrite trimEnd_cons. intros Ht.
  destruct r as [|c' r].
  - cbn in *. by destruct (isWhiteSpace c).
  - change (endsClean (String c (String c' r)))
      with (endsClean (String c' r)).
    apply IH. destruct (trimEnd (String c' r)) as [|c'' r'].
    + by destruct (isWhiteSpace c).
    + by injection Ht as -> ->.
Qed.

Lemma trimEnd_length s : String.length (trimEnd s) <= String.length s.
Proof.
  induction s as [|c r IH]; [done|]. rewrite trimEnd_cons.
  destruct (trimEnd r) as [|c' r'].
  - destruct (isWhiteSpace c); cbn; lia.
  - cbn in *. lia.
Qed.

Lemma trimStart_length s :
  String.length (trimStart s) <= String.length s.
Proof.
  induction s as [|c r IH]; [done|]. cbn [trimStart].
  destruct (isWhiteSpace c); cbn; lia.
Qed.

(** A string that [trim] leaves alone begins and ends clean. *)
Lemma trim_fixed s :
  trim s = s -> startsClean s = true /\ endsClean s = true.
Proof.
  intros Ht. unfold trim in Ht.
  assert (trimStart s = s) as Hstart.
  { destruct s as [|c r]; [done|]. cbn [trimStart] in *.
    destruct (isWhiteSpace c); [|done].
    pose proof (trimEnd_length (trimStart r)) as H1.
    pose proof (trimStart_length r) as H2.
    rewrite Ht in H1. cbn in H1. lia. }
  rewrite Hstart in Ht. split; [|by apply trimEnd_endsClean].
  destruct s as [|c r]; [done|]. cbn [trimStart startsClean] in *.
  destruct (isWhiteSpace c); [|done].
  pose proof (trimStart_length r) as H2. rewrite Hstart in H2. cbn in H2. lia.
Qed.

Lemma endsClean_append a b :
  b <> "" -> endsClean b = true -> endsClean (String.append a b) = true.
Proof.
  intros Hb He. induction a as [|c a IH]; [done|].
  rewrite append_cons. cbn [endsClean].
  destruct (String.append a b) eqn:Hab; [|done].
  by destruct a, b.
Qed.

Lemma startsClean_append a b :
  a <> "" -> startsClean a = true -> startsClean (String.append a b) = true.
Proof. by destruct a. Qed.

Lemma concat_not_empty separator x cells :
  x <> "" -> String.concat (String separator "") (x :: cells) <> "".
Proof.
  intros Hx. destruct cells as [|y cells]; [done|].
  rewrite concat_cons. by destruct x.
Qed.

Lemma endsClean_concat separator cells :
  Forall (fun cell => endsClean cell = true) cells ->
  isWhiteSpace separator = false \/ Forall (fun cell => cell <> "") cells ->
  endsClean (String.concat (String separator "") cells) = true.
Proof.
  intros Hall Hsep. induction cells as [|x [|y cells] IH]; [done| |].
  - by inversion Hall.
  - inversion Hall as [|x' l' Hx Hrest]; subst.
    rewrite concat_cons. apply endsClean_append; [done|].
    cbn [endsClean].
    destruct (String.concat (String separator "") (y :: cells)) eqn:Hrest'.
    + destruct Hsep as [->|Hne]; [done|].
      inversion Hne as [|? ? _ Hne']; subst.
      inversion Hne' as [|? ? Hy _]; subst.
      by destruct (concat_not_empty separator y cells Hy).
    + apply IH; [done|].
      destruct Hsep as [?|Hne]; [by left|right]. by inversion Hne.
Qed.

Lemma startsClean_concat separator x cells :
  x <> "" -> startsClean x = true ->
  startsClean (String.concat (String separator "") (x :: cells)) = true.
Proof.
  intros Hx Hs. destruct cells as [|y cells]; [done|].
  rewrite concat_cons. by apply startsClean_append.
Qed.

(** The text of an object id: digits only. *)
Lemma numeral_free c d :
  digitValue c = None -> free c (NilEmpty.string_of_uint d).
Proof.
  intros Hc.
  induction d as [|d IH|d IH|d IH|d IH|d IH|d IH|d IH|d IH|d IH|d IH];
    cbn [NilEmpty.string_of_uint free]; [done|..];
    (split; [by intros <-|done]).
Qed.

Lemma numeral_endsClean d : endsClean (NilEmpty.string_of_uint d) = true.
Proof.
  induction d as [|d IH|d IH|d IH|d IH|d IH|d IH|d IH|d IH|d IH|d IH];
    cbn [NilEmpty.string_of_uint endsClean]; [done|..];
    (destruct (NilEmpty.string_of_uint d); [reflexivity|done]).
Qed.

Lemma numeral_startsClean d : startsClean (NilEmpty.string_of_uint d) = true.
Proof. destruct d; reflexivity. Qed.

Lemma toString_not_empty n : toString n <> "".
Proof.
  unfold toString. pose proof (numeral_not_empty n) as Hn.
  by destruct (N.to_uint n).
Qed.

Lemma writeCell_clean objectId :
  trim (writeCell objectId) = writeCell objectId
  /\ free "," (writeCell objectId) /\ free "010" (writeCell objectId)
  /\ endsClean (writeCell objectId) = true.
Proof.
  destruct objectId as [n|]; [|done]. cbn [writeCell from_option].
  unfold toString. split; [|split; [|split]].
  - apply trim_clean; [apply numeral_startsClean|apply numeral_endsClean].
  - by apply numeral_free.
  - by apply numeral_free.
  - apply numeral_endsClean.
Qed.

Lemma plain_clean s :
  plain s ->
  s <> "" /\ trim s = s /\ free "," s /\ free "010" s
  /\ startsClean s = true /\ endsClean s = true.
Proof.
  intros (Hne & Htrim & Hcomma & Hline).
  destruct (trim_fixed s Htrim) as [Hs He]. done.
Qed.

Lemma readCells_writeLine cells :
  cells <> [] ->
  Forall (fun cell => trim cell = cell /\ free "," cell) cells ->
  readCells (writeLine cells) = cells.
Proof.
  intros Hne Hall. unfold readCells, writeLine.
  rewrite (split_concat "," cells); [|done|].
  - clear Hne. induction Hall as [|cell cells [Ht _] _ IH]; [done|].
    cbn [map]. by rewrite Ht, IH.
  - eapply List.Forall_impl; [|exact Hall]. by intros cell [_ ?].
Qed.

Lemma readObjects_written headers name ids :
  "__proto__" ∉ tail headers -> safeRow ids ->
  readObjects headers (name :: map writeCell ids)
  = tableObjects (tail headers) ids.
Proof.
  unfold readObjects, tableObjects, safeRow. cbn [tail].
  generalize (∅ : gmap string number) as objects.
  generalize (tail headers) as types.
  induction ids as [|[n|] ids IH]; intros types objects Hproto Hsafe;
    destruct types as [|type types]; try done;
    inversion Hsafe as [|id ids' Hn Hsafe']; subst;
    apply not_elem_of_cons in Hproto as [Htype Hproto];
    cbn [map zip zip_with fold_left fst snd writeCell from_option].
  - rewrite bool_decide_eq_false_2 by apply toString_not_empty.
    rewrite parseInt_toString by done.
    rewrite (bool_decide_eq_false_2 (type = "__proto__")) by done.
    cbn [ofZ isNaN orb]. by apply IH.
  - rewrite bool_decide_eq_true_2 by done. by apply IH.
Qed.

Lemma row_cells name ids :
  plain name ->
  (name :: map writeCell ids) <> []
  /\ Forall (fun cell => trim cell = cell /\ free "," cell
                         /\ free "010" cell /\ endsClean cell = true)
            (name :: map writeCell ids).
Proof.
  intros Hname. split; [done|]. constructor.
  - by destruct (plain_clean name Hname) as (_ & ? & ? & ? & _ & ?).
  - induction ids as [|objectId ids IH]; [constructor|].
    cbn [map]. constructor; [apply writeCell_clean|done].
Qed.

Lemma line_clean cells :
  Forall (fun cell => trim cell = cell /\ free "," cell
                      /\ free "010" cell /\ endsClean cell = true) cells ->
  free "010" (writeLine cells) /\ endsClean (writeLine cells) = true.
Proof.
  intros Hall. split.
  - apply free_concat; [done|].
    eapply List.Forall_impl; [|exact Hall]. by intros cell (_ & _ & ? & _).
  - apply endsClean_concat; [|by left].
    eapply List.Forall_impl; [|exact Hall]. by intros cell (_ & _ & _ & ?).
Qed.

(** X27. A table of monitored objects written as CSV is read back as it
    is: one station for each row, under the name of the row, with the id of
    every object type the row has an id for and nothing for the cells left
    empty. Headers and names must not be empty or contain a comma or a line
    feed or begin or end with white space, no object type may be named
    "__proto__", every id must be a safe integer, and each row needs as
    many cells as the header. *)
Theorem csv_round_trip
    (headers : list string) (rows : list (string * list (option N))) :
  headers <> [] -> rows <> [] ->
  Forall plain headers ->
  "__proto__" ∉ tail headers ->
  Forall (fun row => plain row.1 /\ S (length row.2) = length headers
                     /\ safeRow row.2) rows ->
  parseCsvFile (writeCsv headers rows)
  = Return (map (fun row => {| name := row.1;
                               objects := tableObjects (tail headers) row.2 |})
                rows).
Proof.
  intros Hheaders Hrows Hplain Hproto Hall.
  set (write := fun row : string * list (option N) =>
                  writeLine (row.1 :: map writeCell row.2)).
  assert (Forall (fun cell => trim cell = cell /\ free "," cell
                              /\ free "010" cell /\ endsClean cell = true)
                 headers) as Hcells.
  { eapply List.Forall_impl; [|exact Hplain]. intros cell Hcell.
    by destruct (plain_clean cell Hcell) as (_ & ? & ? & ? & _ & ?). }
  assert (forall cells x,
            plain x -> writeLine (x :: cells) <> ""
                       /\ startsClean (writeLine (x :: cells)) = true)
    as Hfirst.
  { intros cells x Hx.
    destruct (plain_clean x Hx) as (Hne & _ & _ & _ & Hs & _).
    split; [by apply concat_not_empty|by apply startsClean_concat]. }
  assert (Forall (fun line => free "010" line /\ endsClean line = true
                              /\ line <> "")
                 (writeLine headers :: map write rows)) as Hlines.
  { constructor.
    - destruct (line_clean headers Hcells) as [? ?].
      destruct headers as [|header headers]; [done|].
      inversion Hplain; subst.
      by destruct (Hfirst headers header).
    - clear Hrows. induction Hall as [|row rows [Hname _] _ IH];
        [constructor|].
      cbn [map]. constructor; [|done].
      destruct (row_cells row.1 row.2 Hname) as [_ Hrow].
      destruct (line_clean _ Hrow) as [? ?].
      by destruct (Hfirst (map writeCell row.2) row.1). }
  assert (trim (writeCsv headers rows) = writeCsv headers rows) as Htrim.
  { unfold writeCsv. fold write. apply trim_clean.
    - destruct headers as [|header headers]; [done|].
      inversion Hplain; subst.
      destruct (Hfirst headers header) as [? ?]; [done|].
      by apply startsClean_concat.
    - apply endsClean_concat.
      + eapply List.Forall_impl; [|exact Hlines]. by intros line (_ & ? & _).
      + right. eapply List.Forall_impl; [|exact Hlines].
        by intros line (_ & _ & ?). }
  assert (omap
            (fun line =>
               if (length (readCells line) =? length headers)%nat
               then Some {| name := hd "" (readCells line);
                            objects := readObjects headers (readCells line) |}
               else None)
            (map write rows)
          = map (fun row => {| name := row.1;
                               objects := tableObjects (tail headers) row.2 |})
                rows) as Hread.
  { clear Hrows Hlines Htrim.
    induction Hall as [|row rows (Hname & Hlen & Hsafe) _ IH]; [done|].
    cbn [map omap list_omap].
    change (write row) with (writeLine (row.1 :: map writeCell row.2)).
    destruct (row_cells row.1 row.2 Hname) as [Hne Hrow].
    rewrite readCells_writeLine; [|done|].
    2: { eapply List.Forall_impl; [|exact Hrow].
         by intros cell (? & ? & _). }
    cbn [length]. rewrite length_map, Hlen, Nat.eqb_refl.
    cbn [hd]. rewrite readObjects_written by done. by rewrite IH. }
  unfold parseCsvFile. rewrite Htrim. unfold writeCsv. fold write.
  rewrite split_concat; [|done|].
  2: { eapply List.Forall_impl; [|exact Hlines]. by intros line (? & _). }
  cbn [length hd tail]. cbv zeta.
  rewrite (readCells_writeLine headers); [|done|].
  2: { eapply List.Forall_impl; [|exact Hcells]. by intros cell (? & ? & _). }
  rewrite Hread.
  destruct rows as [|row rows]; [done|]. done.
Qed.

Lemma csv_round_trip_witness :
  let headers := ["Station"; "activePower1"; "muxPower1"] in
  let rows := [("Ranong", [Some 8684%N; Some 18069%N]);
               ("Chiang Mai", [Some 8684%N; None])] in
  parseCsvFile (writeCsv headers rows)
  = Return (map (fun row => {| name := row.1;
                               objects := tableObjects (tail headers) row.2 |})
                rows).
Proof.
  apply (csv_round_trip ["Station"; "activePower1"; "muxPower1"]
           [("Ranong", [Some 8684%N; Some 18069%N]);
            ("Chiang Mai", [Some 8684%N; None])]).
  - discriminate.
  - discriminate.
  - repeat constructor; vm_compute; try reflexivity; intros [=].
  - intros Hin. by repeat (apply elem_of_cons in Hin as [?|Hin]; [done|]);
      apply elem_of_nil in Hin.
  - repeat constructor; vm_compute; try reflexivity; intros [=].
Defined.

End CsvRoundTrip.

(** ** Station records *)

Section StationRecords.
Import ApiDataFetcher StationStore.

Lemma trimmed_settled field : settled field -> trimmed field = field.
Proof.
  destruct field as [text|]; [|done]. intros [Hne Htrim].
  unfold trimmed. destruct text; [done|].
  cbn [present fmap option_fmap option_map]. by rewrite Htrim.
Qed.

(** X28. [findOrCreateStation] settles after one call: called again with
    the same configuration it returns the same record and leaves the table
    as it is. A station that [loadStationsFromDatabase] has read from the
    table, and whose name, address and scene are held without white space
    around them, is found again unchanged when its monitor registers with
    the configuration made from it. *)
Theorem station_record_settles
    (config : stationConfig) (stations stations' : gmap string stationConfig)
    (station : stationConfig) :
  findOrCreateStation config stations = Return (station, stations') ->
  findOrCreateStation config stations' = Return (station, stations')
  /\ forall stored stationName,
       stations !! stationName = Some stored ->
       name stored = Some stationName ->
       settled (name stored) -> settled (ipAddress stored) ->
       settled (scene stored) ->
       findOrCreateStation (Stations.toConfig stored) stations
       = Return (stored, stations).
Proof.
  intros Hfirst. split.
  - unfold findOrCreateStation in *.
    destruct (stations !! default "" (trimmed (name config)))
      as [found|] eqn:Hfound.
    + destruct (negb _ || negb _) eqn:Hupdate.
      * apply Return_inj in Hfirst. injection Hfirst as <- <-.
        rewrite lookup_insert_eq. cbn [ipAddress scene].
        rewrite !bool_decide_eq_true_2 by done. cbn [negb orb].
        done.
      * apply Return_inj in Hfirst. injection Hfirst as <- <-.
        by rewrite Hfound, Hupdate.
    + destruct (trimmed (name config)) as [stationName|] eqn:Hname; [|done].
      apply Return_inj in Hfirst. injection Hfirst as <- <-.
      cbn [from_option id]. rewrite lookup_insert_eq.
      cbn [ipAddress scene].
      by rewrite !bool_decide_eq_true_2 by done.
  - intros stored stationName Hstored Hname Hsn Hsi Hss.
    unfold findOrCreateStation, Stations.toConfig.
    cbn [name ip scene ipAddress].
    rewrite !trimmed_settled by done. rewrite Hname.
    cbn [from_option id]. rewrite Hstored.
    by rewrite !bool_decide_eq_true_2 by done.
Qed.

Lemma station_record_settles_witness :
  let config :=
    {| name := Some " Ranong "; ipAddress := None;
       ip := Some "http://10.9.1.5/data"; scene := None |} in
  let station :=
    {| name := Some "Ranong"; ipAddress := Some "http://10.9.1.5/data";
       ip := None; scene := None |} in
  let stations : gmap string stationConfig := {[ "Ranong" := station ]} in
  findOrCreateStation config stations = Return (station, stations)
  /\ forall stored stationName,
       stations !! stationName = Some stored ->
       name stored = Some stationName ->
       settled (name stored) -> settled (ipAddress stored) ->
       settled (scene stored) ->
       findOrCreateStation (Stations.toConfig stored) stations
       = Return (stored, stations).
Proof.
  apply (station_record_settles
           {| name := Some " Ranong "; ipAddress := None;
              ip := Some "http://10.9.1.5/data"; scene := None |}
           {[ "Ranong" := {| name := Some "Ranong";
                             ipAddress := Some "http://10.9.1.5/data";
                             ip := None; scene := None |} ]}
           {[ "Ranong" := {| name := Some "Ranong";
                             ipAddress := Some "http://10.9.1.5/data";
                             ip := None; scene := None |} ]}
           {| name := Some "Ranong"; ipAddress := Some "http://10.9.1.5/data";
              ip := None; scene := None |}).
  vm_compute. reflexivity.
Defined.

End StationRecords.
